(** * The approval-gated query pipeline of [MongoDBSQLAgent]

    A shallow embedding of [backend/app/mongodbAgent.py] (the methods
    [store_query_pair], [find_similar_queries], [_vector_search],
    [_text_search], [generate_sql], [execute_query] and [query]) and of the
    endpoint [store_question_sql_pair] of [backend/app/api.py], with the
    string methods of Python and the MD5 hash they use.  Around the
    pipeline stand [get_query_history], [suggest_visualizations] with
    [_is_datetime], and the endpoints [query], [generate_sql],
    [get_similar_queries], [get_history], [direct_sql] and
    [suggest_visualizations], in the module [Api].

    The agent talks to five collaborators: the sentence-transformer model,
    the MongoDB collection, the Vanna generator, the BigQuery client and the
    clock.  They are gathered in the record [Env]; every one of them reads
    the trace of the calls made so far, so that a collaborator may answer
    differently (or raise) each time it is called.  The agent's methods are
    computations in a small state-and-exception monad over the [World]
    (the collection and the trace).  The collection holds the documents
    that the agent writes and those of other writers, which may lack the
    fields of the agent's. *)

From Stdlib Require Import String Ascii NArith ZArith QArith List Bool Lia.
From stdpp Require Import base option list strings pretty gmap.

Open Scope string_scope.
Open Scope list_scope.
Open Scope Z_scope.

(** ** Python strings

    A [str] is modelled by its UTF-8 encoding, which is what a string
    literal of this file holds: a character is a first byte with the
    continuation bytes that follow it.  A surrogate, which a [str] may hold
    but which has no UTF-8 encoding, is written on three bytes as the other
    code points of its size are. *)

Module Py.

(** The value of a byte, which for an ASCII character is [ord(c)]. *)
Definition ord (c : ascii) : N := N_of_ascii c.

(** A continuation byte of UTF-8, [10xxxxxx]. *)
Definition continuation (b : N) : bool := ((0x80 <=? b) && (b <? 0xc0))%N.

(** Whether [s] starts in the middle of a character. *)
Definition continues (s : string) : bool :=
  match s with
  | String b _ => continuation (ord b)
  | EmptyString => false
  end.

(** The characters of a string, each as its UTF-8 sequence. *)
Fixpoint chars (s : string) : list string :=
  match s with
  | EmptyString => []
  | String b s' =>
      match chars s' with
      | c :: rest =>
          if continues s' then String b c :: rest else String b EmptyString :: c :: rest
      | [] => [String b EmptyString]
      end
  end.

(** [ord(c)] of a character: the code point that its sequence encodes;
    [None] for bytes that encode none. *)
Definition code_point (c : string) : option N :=
  match ord <$> list_ascii_of_string c with
  | [a] => if (a <? 0x80)%N then Some a else None
  | [a; b] =>
      if ((0xc2 <=? a) && (a <? 0xe0) && continuation b)%N
      then Some ((a - 0xc0) * 0x40 + (b - 0x80))%N
      else None
  | [a; b; c] =>
      let n := ((a - 0xe0) * 0x1000 + (b - 0x80) * 0x40 + (c - 0x80))%N in
      if ((0xe0 <=? a) && (a <? 0xf0) && continuation b && continuation c
          && (0x800 <=? n))%N
      then Some n
      else None
  | [a; b; c; d] =>
      let n := ((a - 0xf0) * 0x40000 + (b - 0x80) * 0x1000 + (c - 0x80) * 0x40
                + (d - 0x80))%N in
      if ((0xf0 <=? a) && (a <? 0xf8) && continuation b && continuation c
          && continuation d && (0x10000 <=? n) && (n <? 0x110000))%N
      then Some n
      else None
  | _ => None
  end.

(** [chr(n)], as its UTF-8 sequence. *)
Definition chr (n : N) : string :=
  let byte (b : N) (s : string) := String (ascii_of_N b) s in
  (if n <? 0x80 then byte n EmptyString
   else if n <? 0x800 then
     byte (0xc0 + n / 0x40) (byte (0x80 + n mod 0x40) EmptyString)
   else if n <? 0x10000 then
     byte (0xe0 + n / 0x1000)
       (byte (0x80 + n / 0x40 mod 0x40) (byte (0x80 + n mod 0x40) EmptyString))
   else
     byte (0xf0 + n / 0x40000)
       (byte (0x80 + n / 0x1000 mod 0x40)
          (byte (0x80 + n / 0x40 mod 0x40) (byte (0x80 + n mod 0x40) EmptyString))))%N.

(** [c.isspace()] *)
Definition isspace (c : string) : bool :=
  match code_point c with
  | Some n =>
      ((9 <=? n) && (n <=? 13) || (28 <=? n) && (n <=? 32) || (n =? 0x85) || (n =? 0xa0)
       || (n =? 0x1680) || (0x2000 <=? n) && (n <=? 0x200a) || (n =? 0x2028)
       || (n =? 0x2029) || (n =? 0x202f) || (n =? 0x205f) || (n =? 0x3000))%N
  | None => false
  end.

(** The tables of the Unicode Character Database 14.0 that [str.lower()] of
    CPython 3.11 reads.  [lowercase] gives the lower case of the letters that
    have one of a single code point, in arithmetic progressions: an entry
    [(first, last, step, image)] sends [first] to [image], [first + step] to
    [image + step] and so on up to [last].  [cased_letters] are the ranges of
    the cased code points that are not case-ignorable, and [case_ignorables]
    the ranges of the case-ignorable ones. *)
Definition lowercase : list (N * N * N * N) :=
  [(0x41, 0x5a, 1, 0x61); (0xc0, 0xd6, 1, 0xe0); (0xd8, 0xde, 1, 0xf8); (0x100, 0x12e, 2, 0x101);
   (0x132, 0x136, 2, 0x133); (0x139, 0x147, 2, 0x13a); (0x14a, 0x176, 2, 0x14b); (0x178, 0x178, 1, 0xff);
   (0x179, 0x17d, 2, 0x17a); (0x181, 0x181, 1, 0x253); (0x182, 0x184, 2, 0x183); (0x186, 0x186, 1, 0x254);
   (0x187, 0x187, 1, 0x188); (0x189, 0x18a, 1, 0x256); (0x18b, 0x18b, 1, 0x18c); (0x18e, 0x18e, 1, 0x1dd);
   (0x18f, 0x18f, 1, 0x259); (0x190, 0x190, 1, 0x25b); (0x191, 0x191, 1, 0x192); (0x193, 0x193, 1, 0x260);
   (0x194, 0x194, 1, 0x263); (0x196, 0x196, 1, 0x269); (0x197, 0x197, 1, 0x268); (0x198, 0x198, 1, 0x199);
   (0x19c, 0x19c, 1, 0x26f); (0x19d, 0x19d, 1, 0x272); (0x19f, 0x19f, 1, 0x275); (0x1a0, 0x1a4, 2, 0x1a1);
   (0x1a6, 0x1a6, 1, 0x280); (0x1a7, 0x1a7, 1, 0x1a8); (0x1a9, 0x1a9, 1, 0x283); (0x1ac, 0x1ac, 1, 0x1ad);
   (0x1ae, 0x1ae, 1, 0x288); (0x1af, 0x1af, 1, 0x1b0); (0x1b1, 0x1b2, 1, 0x28a); (0x1b3, 0x1b5, 2, 0x1b4);
   (0x1b7, 0x1b7, 1, 0x292); (0x1b8, 0x1b8, 1, 0x1b9); (0x1bc, 0x1bc, 1, 0x1bd); (0x1c4, 0x1c4, 1, 0x1c6);
   (0x1c5, 0x1c5, 1, 0x1c6); (0x1c7, 0x1c7, 1, 0x1c9); (0x1c8, 0x1c8, 1, 0x1c9); (0x1ca, 0x1ca, 1, 0x1cc);
   (0x1cb, 0x1db, 2, 0x1cc); (0x1de, 0x1ee, 2, 0x1df); (0x1f1, 0x1f1, 1, 0x1f3); (0x1f2, 0x1f4, 2, 0x1f3);
   (0x1f6, 0x1f6, 1, 0x195); (0x1f7, 0x1f7, 1, 0x1bf); (0x1f8, 0x21e, 2, 0x1f9); (0x220, 0x220, 1, 0x19e);
   (0x222, 0x232, 2, 0x223); (0x23a, 0x23a, 1, 0x2c65); (0x23b, 0x23b, 1, 0x23c); (0x23d, 0x23d, 1, 0x19a);
   (0x23e, 0x23e, 1, 0x2c66); (0x241, 0x241, 1, 0x242); (0x243, 0x243, 1, 0x180); (0x244, 0x244, 1, 0x289);
   (0x245, 0x245, 1, 0x28c); (0x246, 0x24e, 2, 0x247); (0x370, 0x372, 2, 0x371); (0x376, 0x376, 1, 0x377);
   (0x37f, 0x37f, 1, 0x3f3); (0x386, 0x386, 1, 0x3ac); (0x388, 0x38a, 1, 0x3ad); (0x38c, 0x38c, 1, 0x3cc);
   (0x38e, 0x38f, 1, 0x3cd); (0x391, 0x3a1, 1, 0x3b1); (0x3a3, 0x3ab, 1, 0x3c3); (0x3cf, 0x3cf, 1, 0x3d7);
   (0x3d8, 0x3ee, 2, 0x3d9); (0x3f4, 0x3f4, 1, 0x3b8); (0x3f7, 0x3f7, 1, 0x3f8); (0x3f9, 0x3f9, 1, 0x3f2);
   (0x3fa, 0x3fa, 1, 0x3fb); (0x3fd, 0x3ff, 1, 0x37b); (0x400, 0x40f, 1, 0x450); (0x410, 0x42f, 1, 0x430);
   (0x460, 0x480, 2, 0x461); (0x48a, 0x4be, 2, 0x48b); (0x4c0, 0x4c0, 1, 0x4cf); (0x4c1, 0x4cd, 2, 0x4c2);
   (0x4d0, 0x52e, 2, 0x4d1); (0x531, 0x556, 1, 0x561); (0x10a0, 0x10c5, 1, 0x2d00); (0x10c7, 0x10c7, 1, 0x2d27);
   (0x10cd, 0x10cd, 1, 0x2d2d); (0x13a0, 0x13ef, 1, 0xab70); (0x13f0, 0x13f5, 1, 0x13f8); (0x1c90, 0x1cba, 1, 0x10d0);
   (0x1cbd, 0x1cbf, 1, 0x10fd); (0x1e00, 0x1e94, 2, 0x1e01); (0x1e9e, 0x1e9e, 1, 0xdf); (0x1ea0, 0x1efe, 2, 0x1ea1);
   (0x1f08, 0x1f0f, 1, 0x1f00); (0x1f18, 0x1f1d, 1, 0x1f10); (0x1f28, 0x1f2f, 1, 0x1f20); (0x1f38, 0x1f3f, 1, 0x1f30);
   (0x1f48, 0x1f4d, 1, 0x1f40); (0x1f59, 0x1f5f, 2, 0x1f51); (0x1f68, 0x1f6f, 1, 0x1f60); (0x1f88, 0x1f8f, 1, 0x1f80);
   (0x1f98, 0x1f9f, 1, 0x1f90); (0x1fa8, 0x1faf, 1, 0x1fa0); (0x1fb8, 0x1fb9, 1, 0x1fb0); (0x1fba, 0x1fbb, 1, 0x1f70);
   (0x1fbc, 0x1fbc, 1, 0x1fb3); (0x1fc8, 0x1fcb, 1, 0x1f72); (0x1fcc, 0x1fcc, 1, 0x1fc3); (0x1fd8, 0x1fd9, 1, 0x1fd0);
   (0x1fda, 0x1fdb, 1, 0x1f76); (0x1fe8, 0x1fe9, 1, 0x1fe0); (0x1fea, 0x1feb, 1, 0x1f7a); (0x1fec, 0x1fec, 1, 0x1fe5);
   (0x1ff8, 0x1ff9, 1, 0x1f78); (0x1ffa, 0x1ffb, 1, 0x1f7c); (0x1ffc, 0x1ffc, 1, 0x1ff3); (0x2126, 0x2126, 1, 0x3c9);
   (0x212a, 0x212a, 1, 0x6b); (0x212b, 0x212b, 1, 0xe5); (0x2132, 0x2132, 1, 0x214e); (0x2160, 0x216f, 1, 0x2170);
   (0x2183, 0x2183, 1, 0x2184); (0x24b6, 0x24cf, 1, 0x24d0); (0x2c00, 0x2c2f, 1, 0x2c30); (0x2c60, 0x2c60, 1, 0x2c61);
   (0x2c62, 0x2c62, 1, 0x26b); (0x2c63, 0x2c63, 1, 0x1d7d); (0x2c64, 0x2c64, 1, 0x27d); (0x2c67, 0x2c6b, 2, 0x2c68);
   (0x2c6d, 0x2c6d, 1, 0x251); (0x2c6e, 0x2c6e, 1, 0x271); (0x2c6f, 0x2c6f, 1, 0x250); (0x2c70, 0x2c70, 1, 0x252);
   (0x2c72, 0x2c72, 1, 0x2c73); (0x2c75, 0x2c75, 1, 0x2c76); (0x2c7e, 0x2c7f, 1, 0x23f); (0x2c80, 0x2ce2, 2, 0x2c81);
   (0x2ceb, 0x2ced, 2, 0x2cec); (0x2cf2, 0x2cf2, 1, 0x2cf3); (0xa640, 0xa66c, 2, 0xa641); (0xa680, 0xa69a, 2, 0xa681);
   (0xa722, 0xa72e, 2, 0xa723); (0xa732, 0xa76e, 2, 0xa733); (0xa779, 0xa77b, 2, 0xa77a); (0xa77d, 0xa77d, 1, 0x1d79);
   (0xa77e, 0xa786, 2, 0xa77f); (0xa78b, 0xa78b, 1, 0xa78c); (0xa78d, 0xa78d, 1, 0x265); (0xa790, 0xa792, 2, 0xa791);
   (0xa796, 0xa7a8, 2, 0xa797); (0xa7aa, 0xa7aa, 1, 0x266); (0xa7ab, 0xa7ab, 1, 0x25c); (0xa7ac, 0xa7ac, 1, 0x261);
   (0xa7ad, 0xa7ad, 1, 0x26c); (0xa7ae, 0xa7ae, 1, 0x26a); (0xa7b0, 0xa7b0, 1, 0x29e); (0xa7b1, 0xa7b1, 1, 0x287);
   (0xa7b2, 0xa7b2, 1, 0x29d); (0xa7b3, 0xa7b3, 1, 0xab53); (0xa7b4, 0xa7c2, 2, 0xa7b5); (0xa7c4, 0xa7c4, 1, 0xa794);
   (0xa7c5, 0xa7c5, 1, 0x282); (0xa7c6, 0xa7c6, 1, 0x1d8e); (0xa7c7, 0xa7c9, 2, 0xa7c8); (0xa7d0, 0xa7d0, 1, 0xa7d1);
   (0xa7d6, 0xa7d8, 2, 0xa7d7); (0xa7f5, 0xa7f5, 1, 0xa7f6); (0xff21, 0xff3a, 1, 0xff41); (0x10400, 0x10427, 1, 0x10428);
   (0x104b0, 0x104d3, 1, 0x104d8); (0x10570, 0x1057a, 1, 0x10597); (0x1057c, 0x1058a, 1, 0x105a3); (0x1058c, 0x10592, 1, 0x105b3);
   (0x10594, 0x10595, 1, 0x105bb); (0x10c80, 0x10cb2, 1, 0x10cc0); (0x118a0, 0x118bf, 1, 0x118c0); (0x16e40, 0x16e5f, 1, 0x16e60);
   (0x1e900, 0x1e921, 1, 0x1e922)]%N.

Definition cased_letters : list (N * N) :=
  [(0x41, 0x5a); (0x61, 0x7a); (0xaa, 0xaa); (0xb5, 0xb5); (0xba, 0xba); (0xc0, 0xd6);
   (0xd8, 0xf6); (0xf8, 0x1ba); (0x1bc, 0x1bf); (0x1c4, 0x293); (0x295, 0x2af); (0x370, 0x373);
   (0x376, 0x377); (0x37b, 0x37d); (0x37f, 0x37f); (0x386, 0x386); (0x388, 0x38a); (0x38c, 0x38c);
   (0x38e, 0x3a1); (0x3a3, 0x3f5); (0x3f7, 0x481); (0x48a, 0x52f); (0x531, 0x556); (0x560, 0x588);
   (0x10a0, 0x10c5); (0x10c7, 0x10c7); (0x10cd, 0x10cd); (0x10d0, 0x10fa); (0x10fd, 0x10ff); (0x13a0, 0x13f5);
   (0x13f8, 0x13fd); (0x1c80, 0x1c88); (0x1c90, 0x1cba); (0x1cbd, 0x1cbf); (0x1d00, 0x1d2b); (0x1d6b, 0x1d77);
   (0x1d79, 0x1d9a); (0x1e00, 0x1f15); (0x1f18, 0x1f1d); (0x1f20, 0x1f45); (0x1f48, 0x1f4d); (0x1f50, 0x1f57);
   (0x1f59, 0x1f59); (0x1f5b, 0x1f5b); (0x1f5d, 0x1f5d); (0x1f5f, 0x1f7d); (0x1f80, 0x1fb4); (0x1fb6, 0x1fbc);
   (0x1fbe, 0x1fbe); (0x1fc2, 0x1fc4); (0x1fc6, 0x1fcc); (0x1fd0, 0x1fd3); (0x1fd6, 0x1fdb); (0x1fe0, 0x1fec);
   (0x1ff2, 0x1ff4); (0x1ff6, 0x1ffc); (0x2102, 0x2102); (0x2107, 0x2107); (0x210a, 0x2113); (0x2115, 0x2115);
   (0x2119, 0x211d); (0x2124, 0x2124); (0x2126, 0x2126); (0x2128, 0x2128); (0x212a, 0x212d); (0x212f, 0x2134);
   (0x2139, 0x2139); (0x213c, 0x213f); (0x2145, 0x2149); (0x214e, 0x214e); (0x2160, 0x217f); (0x2183, 0x2184);
   (0x24b6, 0x24e9); (0x2c00, 0x2c7b); (0x2c7e, 0x2ce4); (0x2ceb, 0x2cee); (0x2cf2, 0x2cf3); (0x2d00, 0x2d25);
   (0x2d27, 0x2d27); (0x2d2d, 0x2d2d); (0xa640, 0xa66d); (0xa680, 0xa69b); (0xa722, 0xa76f); (0xa771, 0xa787);
   (0xa78b, 0xa78e); (0xa790, 0xa7ca); (0xa7d0, 0xa7d1); (0xa7d3, 0xa7d3); (0xa7d5, 0xa7d9); (0xa7f5, 0xa7f6);
   (0xa7fa, 0xa7fa); (0xab30, 0xab5a); (0xab60, 0xab68); (0xab70, 0xabbf); (0xfb00, 0xfb06); (0xfb13, 0xfb17);
   (0xff21, 0xff3a); (0xff41, 0xff5a); (0x10400, 0x1044f); (0x104b0, 0x104d3); (0x104d8, 0x104fb); (0x10570, 0x1057a);
   (0x1057c, 0x1058a); (0x1058c, 0x10592); (0x10594, 0x10595); (0x10597, 0x105a1); (0x105a3, 0x105b1); (0x105b3, 0x105b9);
   (0x105bb, 0x105bc); (0x10c80, 0x10cb2); (0x10cc0, 0x10cf2); (0x118a0, 0x118df); (0x16e40, 0x16e7f); (0x1d400, 0x1d454);
   (0x1d456, 0x1d49c); (0x1d49e, 0x1d49f); (0x1d4a2, 0x1d4a2); (0x1d4a5, 0x1d4a6); (0x1d4a9, 0x1d4ac); (0x1d4ae, 0x1d4b9);
   (0x1d4bb, 0x1d4bb); (0x1d4bd, 0x1d4c3); (0x1d4c5, 0x1d505); (0x1d507, 0x1d50a); (0x1d50d, 0x1d514); (0x1d516, 0x1d51c);
   (0x1d51e, 0x1d539); (0x1d53b, 0x1d53e); (0x1d540, 0x1d544); (0x1d546, 0x1d546); (0x1d54a, 0x1d550); (0x1d552, 0x1d6a5);
   (0x1d6a8, 0x1d6c0); (0x1d6c2, 0x1d6da); (0x1d6dc, 0x1d6fa); (0x1d6fc, 0x1d714); (0x1d716, 0x1d734); (0x1d736, 0x1d74e);
   (0x1d750, 0x1d76e); (0x1d770, 0x1d788); (0x1d78a, 0x1d7a8); (0x1d7aa, 0x1d7c2); (0x1d7c4, 0x1d7cb); (0x1df00, 0x1df09);
   (0x1df0b, 0x1df1e); (0x1e900, 0x1e943); (0x1f130, 0x1f149); (0x1f150, 0x1f169); (0x1f170, 0x1f189)]%N.

Definition case_ignorables : list (N * N) :=
  [(0x27, 0x27); (0x2e, 0x2e); (0x3a, 0x3a); (0x5e, 0x5e); (0x60, 0x60); (0xa8, 0xa8);
   (0xad, 0xad); (0xaf, 0xaf); (0xb4, 0xb4); (0xb7, 0xb8); (0x2b0, 0x36f); (0x374, 0x375);
   (0x37a, 0x37a); (0x384, 0x385); (0x387, 0x387); (0x483, 0x489); (0x559, 0x559); (0x55f, 0x55f);
   (0x591, 0x5bd); (0x5bf, 0x5bf); (0x5c1, 0x5c2); (0x5c4, 0x5c5); (0x5c7, 0x5c7); (0x5f4, 0x5f4);
   (0x600, 0x605); (0x610, 0x61a); (0x61c, 0x61c); (0x640, 0x640); (0x64b, 0x65f); (0x670, 0x670);
   (0x6d6, 0x6dd); (0x6df, 0x6e8); (0x6ea, 0x6ed); (0x70f, 0x70f); (0x711, 0x711); (0x730, 0x74a);
   (0x7a6, 0x7b0); (0x7eb, 0x7f5); (0x7fa, 0x7fa); (0x7fd, 0x7fd); (0x816, 0x82d); (0x859, 0x85b);
   (0x888, 0x888); (0x890, 0x891); (0x898, 0x89f); (0x8c9, 0x902); (0x93a, 0x93a); (0x93c, 0x93c);
   (0x941, 0x948); (0x94d, 0x94d); (0x951, 0x957); (0x962, 0x963); (0x971, 0x971); (0x981, 0x981);
   (0x9bc, 0x9bc); (0x9c1, 0x9c4); (0x9cd, 0x9cd); (0x9e2, 0x9e3); (0x9fe, 0x9fe); (0xa01, 0xa02);
   (0xa3c, 0xa3c); (0xa41, 0xa42); (0xa47, 0xa48); (0xa4b, 0xa4d); (0xa51, 0xa51); (0xa70, 0xa71);
   (0xa75, 0xa75); (0xa81, 0xa82); (0xabc, 0xabc); (0xac1, 0xac5); (0xac7, 0xac8); (0xacd, 0xacd);
   (0xae2, 0xae3); (0xafa, 0xaff); (0xb01, 0xb01); (0xb3c, 0xb3c); (0xb3f, 0xb3f); (0xb41, 0xb44);
   (0xb4d, 0xb4d); (0xb55, 0xb56); (0xb62, 0xb63); (0xb82, 0xb82); (0xbc0, 0xbc0); (0xbcd, 0xbcd);
   (0xc00, 0xc00); (0xc04, 0xc04); (0xc3c, 0xc3c); (0xc3e, 0xc40); (0xc46, 0xc48); (0xc4a, 0xc4d);
   (0xc55, 0xc56); (0xc62, 0xc63); (0xc81, 0xc81); (0xcbc, 0xcbc); (0xcbf, 0xcbf); (0xcc6, 0xcc6);
   (0xccc, 0xccd); (0xce2, 0xce3); (0xd00, 0xd01); (0xd3b, 0xd3c); (0xd41, 0xd44); (0xd4d, 0xd4d);
   (0xd62, 0xd63); (0xd81, 0xd81); (0xdca, 0xdca); (0xdd2, 0xdd4); (0xdd6, 0xdd6); (0xe31, 0xe31);
   (0xe34, 0xe3a); (0xe46, 0xe4e); (0xeb1, 0xeb1); (0xeb4, 0xebc); (0xec6, 0xec6); (0xec8, 0xecd);
   (0xf18, 0xf19); (0xf35, 0xf35); (0xf37, 0xf37); (0xf39, 0xf39); (0xf71, 0xf7e); (0xf80, 0xf84);
   (0xf86, 0xf87); (0xf8d, 0xf97); (0xf99, 0xfbc); (0xfc6, 0xfc6); (0x102d, 0x1030); (0x1032, 0x1037);
   (0x1039, 0x103a); (0x103d, 0x103e); (0x1058, 0x1059); (0x105e, 0x1060); (0x1071, 0x1074); (0x1082, 0x1082);
   (0x1085, 0x1086); (0x108d, 0x108d); (0x109d, 0x109d); (0x10fc, 0x10fc); (0x135d, 0x135f); (0x1712, 0x1714);
   (0x1732, 0x1733); (0x1752, 0x1753); (0x1772, 0x1773); (0x17b4, 0x17b5); (0x17b7, 0x17bd); (0x17c6, 0x17c6);
   (0x17c9, 0x17d3); (0x17d7, 0x17d7); (0x17dd, 0x17dd); (0x180b, 0x180f); (0x1843, 0x1843); (0x1885, 0x1886);
   (0x18a9, 0x18a9); (0x1920, 0x1922); (0x1927, 0x1928); (0x1932, 0x1932); (0x1939, 0x193b); (0x1a17, 0x1a18);
   (0x1a1b, 0x1a1b); (0x1a56, 0x1a56); (0x1a58, 0x1a5e); (0x1a60, 0x1a60); (0x1a62, 0x1a62); (0x1a65, 0x1a6c);
   (0x1a73, 0x1a7c); (0x1a7f, 0x1a7f); (0x1aa7, 0x1aa7); (0x1ab0, 0x1ace); (0x1b00, 0x1b03); (0x1b34, 0x1b34);
   (0x1b36, 0x1b3a); (0x1b3c, 0x1b3c); (0x1b42, 0x1b42); (0x1b6b, 0x1b73); (0x1b80, 0x1b81); (0x1ba2, 0x1ba5);
   (0x1ba8, 0x1ba9); (0x1bab, 0x1bad); (0x1be6, 0x1be6); (0x1be8, 0x1be9); (0x1bed, 0x1bed); (0x1bef, 0x1bf1);
   (0x1c2c, 0x1c33); (0x1c36, 0x1c37); (0x1c78, 0x1c7d); (0x1cd0, 0x1cd2); (0x1cd4, 0x1ce0); (0x1ce2, 0x1ce8);
   (0x1ced, 0x1ced); (0x1cf4, 0x1cf4); (0x1cf8, 0x1cf9); (0x1d2c, 0x1d6a); (0x1d78, 0x1d78); (0x1d9b, 0x1dff);
   (0x1fbd, 0x1fbd); (0x1fbf, 0x1fc1); (0x1fcd, 0x1fcf); (0x1fdd, 0x1fdf); (0x1fed, 0x1fef); (0x1ffd, 0x1ffe);
   (0x200b, 0x200f); (0x2018, 0x2019); (0x2024, 0x2024); (0x2027, 0x2027); (0x202a, 0x202e); (0x2060, 0x2064);
   (0x2066, 0x206f); (0x2071, 0x2071); (0x207f, 0x207f); (0x2090, 0x209c); (0x20d0, 0x20f0); (0x2c7c, 0x2c7d);
   (0x2cef, 0x2cf1); (0x2d6f, 0x2d6f); (0x2d7f, 0x2d7f); (0x2de0, 0x2dff); (0x2e2f, 0x2e2f); (0x3005, 0x3005);
   (0x302a, 0x302d); (0x3031, 0x3035); (0x303b, 0x303b); (0x3099, 0x309e); (0x30fc, 0x30fe); (0xa015, 0xa015);
   (0xa4f8, 0xa4fd); (0xa60c, 0xa60c); (0xa66f, 0xa672); (0xa674, 0xa67d); (0xa67f, 0xa67f); (0xa69c, 0xa69f);
   (0xa6f0, 0xa6f1); (0xa700, 0xa721); (0xa770, 0xa770); (0xa788, 0xa78a); (0xa7f2, 0xa7f4); (0xa7f8, 0xa7f9);
   (0xa802, 0xa802); (0xa806, 0xa806); (0xa80b, 0xa80b); (0xa825, 0xa826); (0xa82c, 0xa82c); (0xa8c4, 0xa8c5);
   (0xa8e0, 0xa8f1); (0xa8ff, 0xa8ff); (0xa926, 0xa92d); (0xa947, 0xa951); (0xa980, 0xa982); (0xa9b3, 0xa9b3);
   (0xa9b6, 0xa9b9); (0xa9bc, 0xa9bd); (0xa9cf, 0xa9cf); (0xa9e5, 0xa9e6); (0xaa29, 0xaa2e); (0xaa31, 0xaa32);
   (0xaa35, 0xaa36); (0xaa43, 0xaa43); (0xaa4c, 0xaa4c); (0xaa70, 0xaa70); (0xaa7c, 0xaa7c); (0xaab0, 0xaab0);
   (0xaab2, 0xaab4); (0xaab7, 0xaab8); (0xaabe, 0xaabf); (0xaac1, 0xaac1); (0xaadd, 0xaadd); (0xaaec, 0xaaed);
   (0xaaf3, 0xaaf4); (0xaaf6, 0xaaf6); (0xab5b, 0xab5f); (0xab69, 0xab6b); (0xabe5, 0xabe5); (0xabe8, 0xabe8);
   (0xabed, 0xabed); (0xfb1e, 0xfb1e); (0xfbb2, 0xfbc2); (0xfe00, 0xfe0f); (0xfe13, 0xfe13); (0xfe20, 0xfe2f);
   (0xfe52, 0xfe52); (0xfe55, 0xfe55); (0xfeff, 0xfeff); (0xff07, 0xff07); (0xff0e, 0xff0e); (0xff1a, 0xff1a);
   (0xff3e, 0xff3e); (0xff40, 0xff40); (0xff70, 0xff70); (0xff9e, 0xff9f); (0xffe3, 0xffe3); (0xfff9, 0xfffb);
   (0x101fd, 0x101fd); (0x102e0, 0x102e0); (0x10376, 0x1037a); (0x10780, 0x10785); (0x10787, 0x107b0); (0x107b2, 0x107ba);
   (0x10a01, 0x10a03); (0x10a05, 0x10a06); (0x10a0c, 0x10a0f); (0x10a38, 0x10a3a); (0x10a3f, 0x10a3f); (0x10ae5, 0x10ae6);
   (0x10d24, 0x10d27); (0x10eab, 0x10eac); (0x10f46, 0x10f50); (0x10f82, 0x10f85); (0x11001, 0x11001); (0x11038, 0x11046);
   (0x11070, 0x11070); (0x11073, 0x11074); (0x1107f, 0x11081); (0x110b3, 0x110b6); (0x110b9, 0x110ba); (0x110bd, 0x110bd);
   (0x110c2, 0x110c2); (0x110cd, 0x110cd); (0x11100, 0x11102); (0x11127, 0x1112b); (0x1112d, 0x11134); (0x11173, 0x11173);
   (0x11180, 0x11181); (0x111b6, 0x111be); (0x111c9, 0x111cc); (0x111cf, 0x111cf); (0x1122f, 0x11231); (0x11234, 0x11234);
   (0x11236, 0x11237); (0x1123e, 0x1123e); (0x112df, 0x112df); (0x112e3, 0x112ea); (0x11300, 0x11301); (0x1133b, 0x1133c);
   (0x11340, 0x11340); (0x11366, 0x1136c); (0x11370, 0x11374); (0x11438, 0x1143f); (0x11442, 0x11444); (0x11446, 0x11446);
   (0x1145e, 0x1145e); (0x114b3, 0x114b8); (0x114ba, 0x114ba); (0x114bf, 0x114c0); (0x114c2, 0x114c3); (0x115b2, 0x115b5);
   (0x115bc, 0x115bd); (0x115bf, 0x115c0); (0x115dc, 0x115dd); (0x11633, 0x1163a); (0x1163d, 0x1163d); (0x1163f, 0x11640);
   (0x116ab, 0x116ab); (0x116ad, 0x116ad); (0x116b0, 0x116b5); (0x116b7, 0x116b7); (0x1171d, 0x1171f); (0x11722, 0x11725);
   (0x11727, 0x1172b); (0x1182f, 0x11837); (0x11839, 0x1183a); (0x1193b, 0x1193c); (0x1193e, 0x1193e); (0x11943, 0x11943);
   (0x119d4, 0x119d7); (0x119da, 0x119db); (0x119e0, 0x119e0); (0x11a01, 0x11a0a); (0x11a33, 0x11a38); (0x11a3b, 0x11a3e);
   (0x11a47, 0x11a47); (0x11a51, 0x11a56); (0x11a59, 0x11a5b); (0x11a8a, 0x11a96); (0x11a98, 0x11a99); (0x11c30, 0x11c36);
   (0x11c38, 0x11c3d); (0x11c3f, 0x11c3f); (0x11c92, 0x11ca7); (0x11caa, 0x11cb0); (0x11cb2, 0x11cb3); (0x11cb5, 0x11cb6);
   (0x11d31, 0x11d36); (0x11d3a, 0x11d3a); (0x11d3c, 0x11d3d); (0x11d3f, 0x11d45); (0x11d47, 0x11d47); (0x11d90, 0x11d91);
   (0x11d95, 0x11d95); (0x11d97, 0x11d97); (0x11ef3, 0x11ef4); (0x13430, 0x13438); (0x16af0, 0x16af4); (0x16b30, 0x16b36);
   (0x16b40, 0x16b43); (0x16f4f, 0x16f4f); (0x16f8f, 0x16f9f); (0x16fe0, 0x16fe1); (0x16fe3, 0x16fe4); (0x1aff0, 0x1aff3);
   (0x1aff5, 0x1affb); (0x1affd, 0x1affe); (0x1bc9d, 0x1bc9e); (0x1bca0, 0x1bca3); (0x1cf00, 0x1cf2d); (0x1cf30, 0x1cf46);
   (0x1d167, 0x1d169); (0x1d173, 0x1d182); (0x1d185, 0x1d18b); (0x1d1aa, 0x1d1ad); (0x1d242, 0x1d244); (0x1da00, 0x1da36);
   (0x1da3b, 0x1da6c); (0x1da75, 0x1da75); (0x1da84, 0x1da84); (0x1da9b, 0x1da9f); (0x1daa1, 0x1daaf); (0x1e000, 0x1e006);
   (0x1e008, 0x1e018); (0x1e01b, 0x1e021); (0x1e023, 0x1e024); (0x1e026, 0x1e02a); (0x1e130, 0x1e13d); (0x1e2ae, 0x1e2ae);
   (0x1e2ec, 0x1e2ef); (0x1e8d0, 0x1e8d6); (0x1e944, 0x1e94b); (0x1f3fb, 0x1f3ff); (0xe0001, 0xe0001); (0xe0020, 0xe007f);
   (0xe0100, 0xe01ef)]%N.

Definition within (ranges : list (N * N)) (n : N) : bool :=
  existsb (fun '(first, last) => ((first <=? n) && (n <=? last))%N) ranges.

(** The lower case of a code point in [lowercase], if it is there. *)
Fixpoint lower_in (table : list (N * N * N * N)) (n : N) : option N :=
  match table with
  | [] => None
  | (first, last, step, image) :: table' =>
      if ((first <=? n) && (n <=? last) && ((n - first) mod step =? 0))%N
      then Some (image + (n - first))%N
      else lower_in table' n
  end.

Definition cased (c : string) : bool :=
  match code_point c with
  | Some n => within cased_letters n
  | None => false
  end.

Definition case_ignorable (c : string) : bool :=
  match code_point c with
  | Some n => within case_ignorables n
  | None => false
  end.

(** Whether the first of [cs] that is not case-ignorable is cased. *)
Fixpoint cased_next (cs : list string) : bool :=
  match cs with
  | [] => false
  | c :: cs' => if case_ignorable c then cased_next cs' else cased c
  end.

(** The context in which a capital sigma is a final one: [before] it, the
    nearest character first, and [after] it. *)
Definition final_sigma (before after : list string) : bool :=
  cased_next before && negb (cased_next after).

(** The lower case of the character [c] between [before] and [after]. *)
Definition lower_char (before : list string) (c : string) (after : list string)
    : list string :=
  match code_point c with
  | Some n =>
      if (n =? 0x3a3)%N then [chr (if final_sigma before after then 0x3c2 else 0x3c3)]
      else if (n =? 0x130)%N then [chr 0x69; chr 0x307]
      else match lower_in lowercase n with
           | Some image => [chr image]
           | None => [c]
           end
  | None => [c]
  end.

(** The loop of [s.lower()]; [before] are the characters read, the last one
    first. *)
Fixpoint lower_from (before cs : list string) : list string :=
  match cs with
  | [] => []
  | c :: cs' => lower_char before c cs' ++ lower_from (c :: before) cs'
  end.

(** [s.lower()] *)
Definition lower (s : string) : string := String.concat "" (lower_from [] (chars s)).

(** [len(s)] *)
Definition len (s : string) : Z := Z.of_nat (length (chars s)).

(** The loop of [s.split()]: [cur] is the word read so far. *)
Fixpoint split_from (cur : string) (cs : list string) : list string :=
  match cs with
  | [] => match cur with EmptyString => [] | _ => [cur] end
  | c :: cs' =>
      if isspace c
      then match cur with
           | EmptyString => split_from EmptyString cs'
           | _ => cur :: split_from EmptyString cs'
           end
      else split_from (cur +:+ c) cs'
  end.

(** [s.split()]: the maximal runs of non-whitespace characters. *)
Definition split (s : string) : list string := split_from EmptyString (chars s).

(** A surrogate. *)
Definition surrogate (c : string) : bool :=
  match code_point c with
  | Some n => ((0xd800 <=? n) && (n <=? 0xdfff))%N
  | None => false
  end.

(** The surrogates that [cs] starts with. *)
Fixpoint surrogates (cs : list string) : list string :=
  match cs with
  | c :: cs' => if surrogate c then c :: surrogates cs' else []
  | [] => []
  end.

(** The four digits of [n] in base 16. *)
Definition hex4 (n : N) : string :=
  let digit (d : N) := ascii_of_N (if d <? 10 then 48 + d else 87 + d)%N in
  String (digit (n / 0x1000 mod 16)%N)
    (String (digit (n / 0x100 mod 16)%N)
       (String (digit (n / 0x10 mod 16)%N) (String (digit (n mod 16)%N) EmptyString))).

(** The message of the [UnicodeEncodeError] that [s.encode()] raises on
    the first surrogates of [s], if it has some; [position] is the index of
    the first of [cs]. *)
Fixpoint encode_error_from (position : nat) (cs : list string) : option string :=
  match cs with
  | [] => None
  | c :: cs' =>
      if surrogate c
      then
        Some ("'utf-8' codec can't encode "
              +:+ match surrogates cs' with
                  | [] =>
                      "character '\u" +:+ hex4 (default 0%N (code_point c))
                      +:+ "' in position " +:+ pretty position
                  | others =>
                      "characters in position " +:+ pretty position +:+ "-"
                      +:+ pretty (position + length others)%nat
                  end
              +:+ ": surrogates not allowed")
      else encode_error_from (S position) cs'
  end.

Definition encode_error (s : string) : option string := encode_error_from 0 (chars s).

(** [sep.join(l)] *)
Fixpoint join (sep : string) (l : list string) : string :=
  match l with
  | [] => EmptyString
  | [x] => x
  | x :: rest => x +:+ sep +:+ join sep rest
  end.

(** [sub in s] *)
Fixpoint contains (sub s : string) : bool :=
  String.prefix sub s
  || match s with
     | EmptyString => false
     | String _ s' => contains sub s'
     end.

End Py.

(** ** The regular expressions of the store

    [$regex] with [$options: "i"] on the patterns made of ASCII letters,
    digits and [|] only, read on subjects of ASCII characters.  Such a
    pattern is an alternation of words (an empty pattern being the one empty
    word), and it is found in a subject when one of its words occurs in the
    subject, the case of the letters ignored; an empty word occurs in every
    subject.  What the store's engine does with other patterns, options and
    subjects is left to the collaborators. *)

Module Regex.

(** A character that stands for itself in a pattern. *)
Definition literal (c : ascii) : bool :=
  let n := Py.ord c in
  ((48 <=? n) && (n <=? 57) || (65 <=? n) && (n <=? 90)
   || (97 <=? n) && (n <=? 122))%N.

(** A word of such characters. *)
Fixpoint word (s : string) : bool :=
  match s with
  | EmptyString => true
  | String c s' => literal c && word s'
  end.

(** A subject of ASCII characters. *)
Fixpoint ascii_only (s : string) : bool :=
  match s with
  | EmptyString => true
  | String c s' => (Py.ord c <? 128)%N && ascii_only s'
  end.

(** A pattern of such characters and [|]. *)
Fixpoint plain (regex : string) : bool :=
  match regex with
  | EmptyString => true
  | String c regex' => (literal c || Ascii.eqb c "|") && plain regex'
  end.

(** The words between the [|] of a pattern; [cur] is the word read so far. *)
Fixpoint alternatives_from (cur regex : string) : list string :=
  match regex with
  | EmptyString => [cur]
  | String c regex' =>
      if Ascii.eqb c "|" then cur :: alternatives_from EmptyString regex'
      else alternatives_from (cur +:+ String c EmptyString) regex'
  end.

Definition alternatives (regex : string) : list string :=
  alternatives_from EmptyString regex.

(** The letters from A to Z in lower case. *)
Definition fold_char (c : ascii) : ascii :=
  let n := Py.ord c in
  if ((65 <=? n) && (n <=? 90))%N then ascii_of_N (n + 32) else c.

Fixpoint fold_case (s : string) : string :=
  match s with
  | EmptyString => EmptyString
  | String c s' => String (fold_char c) (fold_case s')
  end.

(** Whether the plain pattern [regex] is found in [subject] under [i]. *)
Definition search (regex subject : string) : bool :=
  existsb (fun alt => Py.contains (fold_case alt) (fold_case subject))
    (alternatives regex).

End Regex.

(** ** The hash of a question

    [hashlib.md5(question.encode()).hexdigest()], on bytes as integers from 0
    to 255. *)

Module Hashlib.

(** [s.encode()]: the UTF-8 bytes of a string without surrogates. *)
Fixpoint encode (s : string) : list Z :=
  match s with
  | EmptyString => []
  | String c s' => Z.of_N (Py.ord c) :: encode s'
  end.

(** MD5 as RFC 1321 gives it, on 32-bit words that wrap around. *)
Definition word (x : Z) : Z := x mod 2 ^ 32.

Definition rotate_left (x c : Z) : Z :=
  word (Z.lor (Z.shiftl x c) (Z.shiftr x (32 - c))).

Definition complement (x : Z) : Z := Z.lxor x 0xffffffff.

(** [floor(2^32 * abs(sin(i + 1)))] for [i] from 0 to 63. *)
Definition sines : list Z :=
  [0xd76aa478; 0xe8c7b756; 0x242070db; 0xc1bdceee;
   0xf57c0faf; 0x4787c62a; 0xa8304613; 0xfd469501;
   0x698098d8; 0x8b44f7af; 0xffff5bb1; 0x895cd7be;
   0x6b901122; 0xfd987193; 0xa679438e; 0x49b40821;
   0xf61e2562; 0xc040b340; 0x265e5a51; 0xe9b6c7aa;
   0xd62f105d; 0x02441453; 0xd8a1e681; 0xe7d3fbc8;
   0x21e1cde6; 0xc33707d6; 0xf4d50d87; 0x455a14ed;
   0xa9e3e905; 0xfcefa3f8; 0x676f02d9; 0x8d2a4c8a;
   0xfffa3942; 0x8771f681; 0x6d9d6122; 0xfde5380c;
   0xa4beea44; 0x4bdecfa9; 0xf6bb4b60; 0xbebfbc70;
   0x289b7ec6; 0xeaa127fa; 0xd4ef3085; 0x04881d05;
   0xd9d4d039; 0xe6db99e5; 0x1fa27cf8; 0xc4ac5665;
   0xf4292244; 0x432aff97; 0xab9423a7; 0xfc93a039;
   0x655b59c3; 0x8f0ccc92; 0xffeff47d; 0x85845dd1;
   0x6fa87e4f; 0xfe2ce6e0; 0xa3014314; 0x4e0811a1;
   0xf7537e82; 0xbd3af235; 0x2ad7d2bb; 0xeb86d391].

Definition shifts : list Z :=
  [7; 12; 17; 22; 7; 12; 17; 22; 7; 12; 17; 22; 7; 12; 17; 22;
   5; 9; 14; 20; 5; 9; 14; 20; 5; 9; 14; 20; 5; 9; 14; 20;
   4; 11; 16; 23; 4; 11; 16; 23; 4; 11; 16; 23; 4; 11; 16; 23;
   6; 10; 15; 21; 6; 10; 15; 21; 6; 10; 15; 21; 6; 10; 15; 21].

(** The message with its padding: a 1 bit, zeros up to 56 modulo 64 bytes,
    and the length in bits on 8 bytes, least significant first. *)
Definition little_endian (n : nat) (x : Z) : list Z :=
  (fun i => Z.shiftr x (8 * Z.of_nat i) mod 256) <$> seq 0 n.

Definition pad (message : list Z) : list Z :=
  let n := Z.of_nat (length message) in
  message ++ [128] ++ replicate (Z.to_nat ((55 - n) mod 64)) 0
    ++ little_endian 8 (8 * n).

(** The 32-bit word of 4 bytes, least significant first. *)
Definition word_of (bytes : list Z) : Z :=
  foldr (fun b acc => b + 256 * acc) 0 bytes.

Fixpoint words_of (n : nat) (bytes : list Z) : list Z :=
  match n with
  | O => []
  | S n' => word_of (take 4 bytes) :: words_of n' (drop 4 bytes)
  end.

Definition state : Type := Z * Z * Z * Z.

(** One of the 64 operations on a block of 16 words. *)
Definition operation (block : list Z) (st : state) (i : nat) : state :=
  let '(a, b, c, d) := st in
  let j := Z.of_nat i in
  let '(f, g) :=
    if j <? 16 then (Z.lor (Z.land b c) (Z.land (complement b) d), j)
    else if j <? 32 then (Z.lor (Z.land d b) (Z.land (complement d) c), (5 * j + 1) mod 16)
    else if j <? 48 then (Z.lxor (Z.lxor b c) d, (3 * j + 5) mod 16)
    else (Z.lxor c (Z.lor b (complement d)), (7 * j) mod 16) in
  let f := word (f + a + nth i sines 0 + nth (Z.to_nat g) block 0) in
  (d, word (b + rotate_left f (nth i shifts 0)), b, c).

Definition compress (st : state) (block : list Z) : state :=
  let '(a0, b0, c0, d0) := st in
  let '(a, b, c, d) := fold_left (operation block) (seq 0 64) st in
  (word (a0 + a), word (b0 + b), word (c0 + c), word (d0 + d)).

Fixpoint blocks (n : nat) (bytes : list Z) : list (list Z) :=
  match n with
  | O => []
  | S n' => words_of 16 (take 64 bytes) :: blocks n' (drop 64 bytes)
  end.

Definition md5 (message : list Z) : list Z :=
  let padded := pad message in
  let '(a, b, c, d) :=
    fold_left compress (blocks (length padded / 64) padded)
      (0x67452301, 0xefcdab89, 0x98badcfe, 0x10325476) in
  little_endian 4 a ++ little_endian 4 b ++ little_endian 4 c ++ little_endian 4 d.

Definition hex_digit (n : Z) : ascii :=
  ascii_of_N (Z.to_N (if n <? 10 then 48 + n else 87 + n)).

(** [digest.hex()] *)
Fixpoint hex (bytes : list Z) : string :=
  match bytes with
  | [] => EmptyString
  | b :: rest => String (hex_digit (b / 16)) (String (hex_digit (b mod 16)) (hex rest))
  end.

(** [hashlib.md5(s.encode()).hexdigest()] *)
Definition md5_hexdigest (s : string) : string := hex (md5 (encode s)).

End Hashlib.

Arguments Hashlib.md5_hexdigest : simpl never.

(** ** Data model *)

(** The values the collaborators hand over and the agent only passes on:
    Python floats, the embedding vector, [datetime] values and the BigQuery
    and pandas objects. *)
Class Carriers := {
  float : Type;
  Embedding : Type;
  Timestamp : Type;
  QueryJob : Type;
  RowIterator : Type;
  DataFrame : Type;
}.

(** [execution_time] is the int [0] or a float of seconds. *)
Inductive number `{Carriers} :=
| Int (z : Z)
| Float (f : float).

(** An entry of [example_pairs]: [{"question": .., "sql": ..}]. *)
Record Example := {
  ex_question : string;
  ex_sql : string;
}.

(** What the two searches project out of a stored document, a field that
    the document does not have being [None]; ["score"] is added by the
    vector search only. *)
Record SimilarQuery `{Carriers} := {
  sq_question : option string;
  sq_sql : option string;
  sq_was_successful : option bool;
  sq_execution_time : option number;
  sq_score : option float;
}.

(** The dictionary [document] that [store_query_pair] writes. *)
Record Document `{Carriers} := {
  doc_id : string;
  doc_question : string;
  doc_sql : string;
  doc_embedding : Embedding;
  doc_execution_time : number;
  doc_was_successful : bool;
  doc_timestamp : Timestamp;
  doc_result_preview : option string;
}.

(** The [_id] of a stored document: the string that [store_query_pair] gives
    it, or the [ObjectId] that the store gives to a document inserted
    without one. *)
Inductive Id :=
| IdStr (s : string)
| IdObject (oid : string).

#[global] Instance Id_eq_dec : EqDecision Id.
Proof. solve_decision. Defined.

(** What is stored under ["timestamp"]: a [datetime], or a value of another
    type, given by the name of its type and by what [repr] prints of it
    ([tests/mongodb_test.py] inserts a [str]). *)
Inductive Stamp `{Carriers} :=
| ADatetime (t : Timestamp)
| Other (type_name value : string).

(** A document of the [query_history] collection, whoever wrote it; a field
    that the document does not have is [None].  But for the timestamp, a
    field that is there holds a value of the type that the agent writes. *)
Record Stored `{Carriers} := {
  st_id : Id;
  st_question : option string;
  st_sql : option string;
  st_embedding : option Embedding;
  st_execution_time : option number;
  st_was_successful : option bool;
  st_timestamp : option Stamp;
  st_result_preview : option string;
}.

(** The document of [store_query_pair] as the store holds it. *)
Definition as_stored `{Carriers} (d : Document) : Stored :=
  {| st_id := IdStr (doc_id d);
     st_question := Some (doc_question d);
     st_sql := Some (doc_sql d);
     st_embedding := Some (doc_embedding d);
     st_execution_time := Some (doc_execution_time d);
     st_was_successful := Some (doc_was_successful d);
     st_timestamp := Some (ADatetime (doc_timestamp d));
     st_result_preview := doc_result_preview d |}.

(** The values of the response dictionaries. *)
Inductive Value `{Carriers} :=
| VNone
| VBool (b : bool)
| VNum (n : number)
| VStr (s : string)
| VSimilar (l : list SimilarQuery)
| VFrame (df : DataFrame)
| VRecords (df : DataFrame).

(** ** Exceptions, calls and the world *)

(** Who raised an exception: a collaborator, or the interpreter on the
    agent's own code (a [KeyError], an [AttributeError]). *)
Inductive Origin :=
| Embedder
| VectorIndex
| Store
| Generator
| Warehouse
| Interpreter.

Record Exception := {
  origin : Origin;
  str : string;
}.

(** The calls the agent's methods make, logged as they happen: the
    collaborators' methods they call and, for [execute_query] and
    [store_query_pair], the call of the method itself. *)
Inductive Event `{Carriers} :=
| CallEncode (text : string)
| CallAggregate (queryVector : Embedding) (numCandidates limit : Z)
| CallFind (regex options : string) (limit : Z)
| CallReplaceOne (id : string) (document : Document)
| CallVannaGenerateSql (question : string) (examples : option (list Example))
    (allow_llm_to_see_data : bool)
| CallExecuteQuery (sql : string)
| CallBigQuery (sql : string)
| CallJobResult
| CallToDataframe
| CallStoreQueryPair (question sql : string) (execution_time : number)
    (was_successful : bool) (result_preview : option string).

(** The collection in its natural order, and the trace, newest call first. *)
Record World `{Carriers} := {
  collection : list Stored;
  trace : list Event;
}.

(** The collaborators.  [inl msg] is a raised exception whose [str] is [msg];
    each collaborator reads the trace of the calls made before it answers.

    - [model_encode t text]: [self.model.encode(text).tolist()];
    - [datetime_now t]: [datetime.now()];
    - [aggregate t coll queryVector numCandidates limit]: the
      [$vectorSearch] pipeline of [_vector_search] on the collection [coll];
    - [find_fault t]: the exception [collection.find] raises, if it does;
    - [engine_search regex options subject]: whether the store's engine
      finds [regex] in [subject] under [options], for the patterns, options
      and subjects that [Regex] does not cover;
    - [replace_fault t]: the exception [collection.replace_one] raises, if it
      does (the collection is then left as it was);
    - [vn_generate_sql t question examples allow_llm_to_see_data]:
      [self.vn.generate_sql];
    - [time_time t]: [time.time()], and [float_sub] the difference of two
      floats;
    - [bq_query t sql], [job_result t job], [to_dataframe t rows]:
      [self.bq_client.query(sql)], [query_job.result()] and
      [results.to_dataframe()];
    - [df_empty df], [df_head_to_string n df]: [df.empty] and
      [df.head(n).to_string()]. *)
Record Env `{Carriers} := {
  model_encode : list Event -> string -> string + Embedding;
  datetime_now : list Event -> Timestamp;
  aggregate :
    list Event -> list Stored -> Embedding -> Z -> Z ->
    string + list SimilarQuery;
  find_fault : list Event -> option string;
  engine_search : string -> string -> string -> bool;
  replace_fault : list Event -> option string;
  vn_generate_sql :
    list Event -> string -> option (list Example) -> bool -> string + string;
  time_time : list Event -> float;
  float_sub : float -> float -> float;
  bq_query : list Event -> string -> string + QueryJob;
  job_result : list Event -> QueryJob -> string + RowIterator;
  to_dataframe : list Event -> RowIterator -> string + DataFrame;
  df_empty : DataFrame -> bool;
  df_head_to_string : Z -> DataFrame -> string;
}.

(** Whether the store finds [regex] in [subject] under [options]. *)
Definition regex_search `{Carriers} (E : Env) (regex options subject : string) : bool :=
  if Regex.plain regex && String.eqb options "i"
     && (Regex.ascii_only subject || bool_decide ("" ∈ Regex.alternatives regex))
  then Regex.search regex subject
  else engine_search E regex options subject.

(** ** The monad of the agent's methods *)

Inductive Outcome (A : Type) :=
| Returned (a : A)
| Raised (e : Exception).
Arguments Returned {A} a.
Arguments Raised {A} e.

Definition M `{Carriers} (A : Type) : Type := World -> Outcome A * World.

#[global] Instance M_ret `{Carriers} : MRet M :=
  fun A (a : A) w => (Returned a, w).

#[global] Instance M_bind `{Carriers} : MBind M :=
  fun A B (k : A -> M B) (m : M A) w =>
    match m w with
    | (Returned a, w') => k a w'
    | (Raised e, w') => (Raised e, w')
    end.

(** [try: body except Exception as e: handler e] *)
Definition try_except `{Carriers} {A} (body : M A) (handler : Exception -> M A) : M A :=
  fun w =>
    match body w with
    | (Returned a, w') => (Returned a, w')
    | (Raised e, w') => handler e w'
    end.

Definition emit `{Carriers} (ev : Event) : M unit :=
  fun w => (Returned tt, {| collection := collection w; trace := ev :: trace w |}).

(** A call that may raise and leaves the collection alone. *)
Definition perform `{Carriers} {A} (o : Origin) (f : World -> string + A) : M A :=
  fun w =>
    match f w with
    | inl msg => (Raised {| origin := o; str := msg |}, w)
    | inr a => (Returned a, w)
    end.

(** A call that never raises. *)
Definition ask `{Carriers} {A} (f : World -> A) : M A := fun w => (Returned (f w), w).

(** ** The MongoDB collection *)

(** [cursor.limit(n)] of pymongo: a limit of 0 means no limit, and a negative
    limit is the positive one served in a single batch. *)
Definition cursor_limit {A} (n : Z) (l : list A) : list A :=
  if n =? 0 then l else take (Z.to_nat (Z.abs n)) l.

(** The projection [{"_id": 0, "question": 1, "sql": 1, "was_successful": 1,
    "execution_time": 1}]. *)
Definition project `{Carriers} (d : Stored) : SimilarQuery :=
  {| sq_question := st_question d;
     sq_sql := st_sql d;
     sq_was_successful := st_was_successful d;
     sq_execution_time := st_execution_time d;
     sq_score := None |}.

(** [replace_one({"_id": id}, document, upsert=True)] on the documents: the
    first document whose [_id] is [id] is replaced where it stands; without
    one, [document] is inserted. *)
Fixpoint replace_upsert `{Carriers} (id : string) (document : Document)
    (coll : list Stored) : list Stored :=
  match coll with
  | [] => [as_stored document]
  | d :: rest =>
      if bool_decide (st_id d = IdStr id) then as_stored document :: rest
      else d :: replace_upsert id document rest
  end.

(** The filter [{"question": {"$regex": regex, "$options": options}}]: the
    document has a question in which the store finds [regex]. *)
Definition matches `{Carriers} (E : Env) (regex options : string) (d : Stored) : bool :=
  match st_question d with
  | Some question => regex_search E regex options question
  | None => false
  end.

(** [d[key]] on a field of a dictionary; [inl] is the message of the
    [KeyError] of a missing key. *)
Definition getitem {A} (key : string) (field : option A) : string + A :=
  match field with
  | Some value => inr value
  | None => inl ("'" +:+ key +:+ "'")
  end.

Definition set_collection `{Carriers} (coll : list Stored) : M unit :=
  fun w => (Returned tt, {| collection := coll; trace := trace w |}).

(** ** The agent *)

Section Methods.

Context `{Carriers} (E : Env).

(** [self.model.encode(text).tolist()] *)
Definition encode (text : string) : M Embedding :=
  emit (CallEncode text);;
  perform Embedder (fun w => model_encode E (trace w) text).

(** [self.collection.replace_one({"_id": id}, document, upsert=True)] *)
Definition replace_one (id : string) (document : Document) : M unit :=
  emit (CallReplaceOne id document);;
  perform Store (fun w =>
    match replace_fault E (trace w) with
    | Some msg => inl msg
    | None => inr tt
    end);;
  coll ← ask collection;
  set_collection (replace_upsert id document coll).

(** [list(self.collection.find({"question": {"$regex": regex, "$options":
    options}}, projection).limit(limit))] *)
Definition find_regex (regex options : string) (limit : Z) : M (list SimilarQuery) :=
  emit (CallFind regex options limit);;
  perform Store (fun w =>
    match find_fault E (trace w) with
    | Some msg => inl msg
    | None =>
        inr (cursor_limit limit
               (project <$>
                  filter (fun d => matches E regex options d) (collection w)))
    end).

(** The truth value of [result_preview : Optional[str]]. *)
Definition truthy (result_preview : option string) : bool :=
  match result_preview with
  | Some (String _ _) => true
  | _ => false
  end.

(** The dictionary [document] that [store_query_pair] builds. *)
Definition new_document (question sql : string) (execution_time : number)
    (was_successful : bool) (result_preview : option string)
    (embedding : Embedding) (now : Timestamp) : Document :=
  {| doc_id := Hashlib.md5_hexdigest question;
     doc_question := question;
     doc_sql := sql;
     doc_embedding := embedding;
     doc_execution_time := execution_time;
     doc_was_successful := was_successful;
     doc_timestamp := now;
     doc_result_preview := if truthy result_preview then result_preview else None |}.

Definition store_query_pair (question sql : string) (execution_time : number)
    (was_successful : bool) (result_preview : option string) : M unit :=
  emit (CallStoreQueryPair question sql execution_time was_successful result_preview);;
  embedding ← encode question;
  perform Interpreter (fun _ =>
    match Py.encode_error question with
    | Some msg => inl msg
    | None => inr tt
    end);;
  now ← ask (fun w => datetime_now E (trace w));
  let document :=
    new_document question sql execution_time was_successful result_preview
      embedding now in
  let id := Hashlib.md5_hexdigest question in
  replace_one id document.

Definition _vector_search (embedding : Embedding) (top_k : Z) : M (list SimilarQuery) :=
  try_except
    (emit (CallAggregate embedding (top_k * 10) top_k);;
     perform VectorIndex (fun w =>
       aggregate E (trace w) (collection w) embedding (top_k * 10) top_k))
    (fun e => mret []).

Definition keywords (question : string) : list string :=
  filter (fun word => Py.len word > 3) (Py.split (Py.lower question)).

Definition _text_search (question : string) (top_k : Z) : M (list SimilarQuery) :=
  find_regex (Py.join "|" (keywords question)) "i" top_k.

Definition find_similar_queries (question : string) (top_k : Z) : M (list SimilarQuery) :=
  embedding ← encode question;
  found ← try_except
    (similar_queries ← _vector_search embedding top_k;
     match similar_queries with
     | [] => mret None
     | _ => mret (Some similar_queries)
     end)
    (fun e => mret None);
  match found with
  | Some similar_queries => mret similar_queries
  | None => _text_search question top_k
  end.

(** The loop that fills [example_pairs], from the pairs it holds already;
    [inl] is the message of a [KeyError]. *)
Fixpoint fill (example_pairs : list Example) (similar_queries : list SimilarQuery)
    : string + list Example :=
  match similar_queries with
  | [] => inr example_pairs
  | query :: rest =>
      match getitem "was_successful" (sq_was_successful query) with
      | inl msg => inl msg
      | inr false => fill example_pairs rest
      | inr true =>
          match getitem "question" (sq_question query) with
          | inl msg => inl msg
          | inr question =>
              match getitem "sql" (sq_sql query) with
              | inl msg => inl msg
              | inr sql =>
                  fill (example_pairs ++ [{| ex_question := question; ex_sql := sql |}])
                    rest
              end
          end
      end
  end.

Definition example_pairs (similar_queries : list SimilarQuery) : string + list Example :=
  fill [] similar_queries.

(** [self.vn.generate_sql(question=.., [examples=..,] allow_llm_to_see_data=True)] *)
Definition vanna_generate_sql (question : string) (examples : option (list Example))
    (allow_llm_to_see_data : bool) : M string :=
  emit (CallVannaGenerateSql question examples allow_llm_to_see_data);;
  perform Generator (fun w =>
    vn_generate_sql E (trace w) question examples allow_llm_to_see_data).

Definition generate_sql (question : string) : M (string * list SimilarQuery) :=
  similar_queries ← find_similar_queries question 3;
  example_pairs ← perform Interpreter (fun _ => example_pairs similar_queries);
  sql ← match example_pairs with
        | _ :: _ => vanna_generate_sql question (Some example_pairs) true
        | [] => vanna_generate_sql question None true
        end;
  mret (sql, similar_queries).

Definition execute_query (sql : string) : M (RowIterator * float) :=
  emit (CallExecuteQuery sql);;
  start_time ← ask (fun w => time_time E (trace w));
  emit (CallBigQuery sql);;
  query_job ← perform Warehouse (fun w => bq_query E (trace w) sql);
  emit CallJobResult;;
  results ← perform Warehouse (fun w => job_result E (trace w) query_job);
  end_time ← ask (fun w => time_time E (trace w));
  mret (results, float_sub E end_time start_time).

(** [results.to_dataframe()] *)
Definition results_to_dataframe (results : RowIterator) : M DataFrame :=
  emit CallToDataframe;;
  perform Warehouse (fun w => to_dataframe E (trace w) results).

(** [df.head(5).to_string() if not df.empty else "No results"] *)
Definition preview (df : DataFrame) : string :=
  if negb (df_empty E df) then df_head_to_string E 5 df else "No results".

(** [None] or a string, as a dictionary value. *)
Definition optional_str (o : option string) : Value :=
  match o with
  | Some s => VStr s
  | None => VNone
  end.

(** The [try] block of [query] and what its [except] clause leaves in
    [was_successful], [error_message], [execution_time], [df] and
    [result_preview]. *)
Definition attempt (sql : string)
    : M (bool * option string * number * Value * option string) :=
  try_except
    ('(results, execution_time) ← execute_query sql;
     df ← results_to_dataframe results;
     let result_preview := preview df in
     mret (true, None, Float execution_time, VFrame df, Some result_preview))
    (fun e => mret (false, Some (str e), Int 0, VNone, None)).

(** The dictionary returned while approval is awaited. *)
Definition awaiting_response (question sql : string)
    (similar_queries : list SimilarQuery) : gmap string Value :=
  list_to_map
    [("question", VStr question);
     ("sql", VStr sql);
     ("requires_approval", VBool true);
     ("was_successful", VNone);
     ("execution_time", VNum (Int 0));
     ("similar_queries", VSimilar similar_queries);
     ("awaiting_approval", VBool true)].

(** The dictionary [response] before the outcome is added to it. *)
Definition base_response (question sql : string) (was_successful : bool)
    (execution_time : number) (similar_queries : list SimilarQuery)
    (require_approval approved : bool) : gmap string Value :=
  list_to_map
    [("question", VStr question);
     ("sql", VStr sql);
     ("was_successful", VBool was_successful);
     ("execution_time", VNum execution_time);
     ("similar_queries", VSimilar similar_queries);
     ("requires_approval", VBool require_approval);
     ("approved", VBool approved)].

Definition query (question : string) (store_results require_approval approved : bool)
    : M (gmap string Value) :=
  '(sql, similar_queries) ← generate_sql question;
  if require_approval && negb approved then
    mret (awaiting_response question sql similar_queries)
  else
    '(was_successful, error_message, execution_time, df, result_preview) ← attempt sql;
    (if store_results
     then store_query_pair question sql execution_time was_successful result_preview
     else mret tt);;
    let response :=
      base_response question sql was_successful execution_time similar_queries
        require_approval approved in
    mret (if was_successful
          then <["result_preview" := optional_str result_preview]>
                 (<["results" := df]> response)
          else <["error_message" := optional_str error_message]> response).

(** The endpoint [store_question_sql_pair] of [api.py], on the fields of
    its request. *)
Definition store_question_sql_pair (question sql : string) (store_results : bool)
    : M (gmap string Value) :=
  try_except
    ('(results, execution_time) ← execute_query sql;
     df ← results_to_dataframe results;
     let result_preview := preview df in
     let was_successful := true in
     (if store_results
      then store_query_pair question sql (Float execution_time) was_successful
             (Some result_preview)
      else mret tt);;
     mret (list_to_map
             [("question", VStr question);
              ("sql", VStr sql);
              ("was_successful", VBool was_successful);
              ("execution_time", VNum (Float execution_time));
              ("results", VRecords df);
              ("result_preview", VStr result_preview);
              ("stored", VBool store_results)]))
    (fun e =>
       let error_message := str e in
       error_message ←
         (if store_results
          then try_except
                 (store_query_pair question sql (Int 0) false None;;
                  mret error_message)
                 (fun store_error =>
                    mret (error_message
                          +:+ " (Additionally, failed to store query: "
                          +:+ str store_error +:+ ")"))
          else mret error_message);
       mret (list_to_map
               [("question", VStr question);
                ("sql", VStr sql);
                ("was_successful", VBool false);
                ("error_message", VStr error_message);
                ("stored",
                 VBool (store_results
                        && negb (Py.contains "failed to store" error_message)))])).

End Methods.

(** ** The history of the queries *)

(** What [get_query_history] needs of the stored timestamps: the order the
    store sorts by on what the documents hold under ["timestamp"], nothing
    included ([timestamp_leb a b] when [a] does not come after [b]), and
    [isoformat()] of a [datetime]. *)
Record Datetime `{Carriers} := {
  timestamp_leb : option Stamp -> option Stamp -> bool;
  isoformat : Timestamp -> string;
}.

(** An entry of the history: the projection [{"_id": 0, "question": 1,
    "sql": 1, "was_successful": 1, "execution_time": 1, "timestamp": 1}] of
    a document, its timestamp, if it has one, as [isoformat()] prints it. *)
Record HistoryEntry `{Carriers} := {
  he_question : option string;
  he_sql : option string;
  he_was_successful : option bool;
  he_execution_time : option number;
  he_timestamp : option string;
}.

Section History.

Context `{Carriers} (E : Env) (D : Datetime).

(** [sort("timestamp", -1)]: the latest document first.  Documents of equal
    timestamps are left in the order of the collection, which is one of the
    orders the store may serve them in. *)
Fixpoint insert_by_timestamp (d : Stored) (sorted : list Stored) : list Stored :=
  match sorted with
  | [] => [d]
  | x :: rest =>
      if timestamp_leb D (st_timestamp x) (st_timestamp d) then d :: x :: rest
      else x :: insert_by_timestamp d rest
  end.

Definition sort_by_timestamp (coll : list Stored) : list Stored :=
  foldr insert_by_timestamp [] coll.

(** [entry["timestamp"].isoformat()]; [inl] is the message of the
    [AttributeError] of a value that is no [datetime]. *)
Definition stamp_isoformat (timestamp : Stamp) : string + string :=
  match timestamp with
  | ADatetime t => inr (isoformat D t)
  | Other type_name _ =>
      inl ("'" +:+ type_name +:+ "' object has no attribute 'isoformat'")
  end.

(** A round of the loop that turns the timestamps into strings:
    [if "timestamp" in entry: entry["timestamp"] =
    entry["timestamp"].isoformat()]. *)
Definition history_entry (d : Stored) : string + HistoryEntry :=
  let entry (timestamp : option string) :=
    {| he_question := st_question d;
       he_sql := st_sql d;
       he_was_successful := st_was_successful d;
       he_execution_time := st_execution_time d;
       he_timestamp := timestamp |} in
  match st_timestamp d with
  | None => inr (entry None)
  | Some timestamp =>
      match stamp_isoformat timestamp with
      | inl msg => inl msg
      | inr printed => inr (entry (Some printed))
      end
  end.

(** The loop, which ends at the first exception. *)
Fixpoint history_entries (history : list Stored) : string + list HistoryEntry :=
  match history with
  | [] => inr []
  | d :: rest =>
      match history_entry d with
      | inl msg => inl msg
      | inr entry =>
          match history_entries rest with
          | inl msg => inl msg
          | inr entries => inr (entry :: entries)
          end
      end
  end.

(** [list(self.collection.find({}, projection).sort("timestamp", -1)
    .limit(limit))], a read of the store that is not among the logged
    calls, and the loop over what it returns. *)
Definition get_query_history (limit : Z) : M (list HistoryEntry) :=
  history ← perform Store (fun w =>
    match find_fault E (trace w) with
    | Some msg => inl msg
    | None => inr (cursor_limit limit (sort_by_timestamp (collection w)))
    end);
  perform Interpreter (fun _ => history_entries history).

End History.

(** ** The suggestions of charts *)

(** What [suggest_visualizations] asks of pandas, an exception being [inl] of
    its message:

    - [Records]: the lists of dictionaries that the endpoint hands over, and
      [pd_DataFrame rows]: [pd.DataFrame(rows)];
    - [df_columns df]: [df.columns], the labels being strings that name
      one column each, as the keys of the dictionaries do;
    - [is_numeric_dtype df col] and [is_datetime64_dtype df col]: the
      predicates of [pd.api.types] on [df[col]];
    - [to_datetime_fault df col]: the exception that
      [pd.to_datetime(df[col], errors='coerce', infer_datetime_format=True)]
      raises, if it does;
    - [nunique df col]: [df[col].nunique()]. *)
Record Pandas `{Carriers} := {
  Records : Type;
  pd_DataFrame : Records -> string + DataFrame;
  df_columns : DataFrame -> list string;
  is_numeric_dtype : DataFrame -> string -> bool;
  is_datetime64_dtype : DataFrame -> string -> bool;
  to_datetime_fault : DataFrame -> string -> option string;
  nunique : DataFrame -> string -> string + Z;
}.

(** The argument [data]: a DataFrame or a list of dictionaries. *)
Inductive Data `{Carriers} (pd : Pandas) :=
| AFrame (df : DataFrame)
| Rows (rows : Records pd).
Arguments AFrame {_ pd} df.
Arguments Rows {_ pd} rows.

(** An entry of [possible_charts]; the table has no [suggested_config], and
    a configuration names a column or [None] under each of its keys. *)
Record Chart := {
  chart_type : string;
  chart_suitability : string;
  chart_reason : string;
  chart_suggested_config : option (list (string * option string));
}.

(** The dictionary [suggestions], [column_roles] flattened into [metrics]
    and [dimensions]. *)
Record Suggestions := {
  recommended_chart : option string;
  possible_charts : list Chart;
  metrics : list string;
  dimensions : list string;
}.

(** What [suggest_visualizations] returns: [{"error": ..}] or [suggestions]. *)
Inductive Advice :=
| NoChart (error : string)
| Suggested (suggestions : Suggestions).

(** [suggestions["possible_charts"].append(chart)] *)
Definition append_chart (chart : Chart) (suggestions : Suggestions) : Suggestions :=
  {| recommended_chart := recommended_chart suggestions;
     possible_charts := possible_charts suggestions ++ [chart];
     metrics := metrics suggestions;
     dimensions := dimensions suggestions |}.

(** [suggestions["recommended_chart"] = name] *)
Definition recommend (name : string) (suggestions : Suggestions) : Suggestions :=
  {| recommended_chart := Some name;
     possible_charts := possible_charts suggestions;
     metrics := metrics suggestions;
     dimensions := dimensions suggestions |}.

(** [if not suggestions["recommended_chart"]: suggestions["recommended_chart"]
    = name] *)
Definition recommend_if_none (name : string) (suggestions : Suggestions) : Suggestions :=
  if truthy (recommended_chart suggestions) then suggestions
  else recommend name suggestions.

Section Visualizations.

Context `{Carriers} (E : Env) (pd : Pandas).

(** [try: pd.to_datetime(series, errors='coerce', ..); return True
    except: return False] *)
Definition _is_datetime (df : DataFrame) (col : string) : bool :=
  match to_datetime_fault pd df col with
  | None => true
  | Some _ => false
  end.

(** [[col for col in df.columns if pd.api.types.is_numeric_dtype(df[col])]] *)
Definition numeric_columns (df : DataFrame) : list string :=
  List.filter (is_numeric_dtype pd df) (df_columns pd df).

(** The loop that fills [categorical_columns] and [datetime_columns], in
    this order in the pair. *)
Definition other_columns (df : DataFrame) : list string * list string :=
  fold_left
    (fun lists col =>
       let '(categorical_columns, datetime_columns) := lists in
       if bool_decide (col ∈ numeric_columns df) then lists
       else if is_datetime64_dtype pd df col || _is_datetime df col
       then (categorical_columns, datetime_columns ++ [col])
       else (categorical_columns ++ [col], datetime_columns))
    (df_columns pd df) ([], []).

(** [df[categorical_columns[0]].nunique() if categorical_columns else 0] *)
Definition category_count (df : DataFrame) (categorical_columns : list string)
    : string + Z :=
  match categorical_columns with
  | first :: _ => nunique pd df first
  | [] => inr 0
  end.

Definition line_chart (datetime_columns numeric_columns categorical_columns : list string)
    : Chart :=
  {| chart_type := "line";
     chart_suitability := "high";
     chart_reason := "Time series data detected";
     chart_suggested_config :=
       Some [("x_axis", head datetime_columns);
             ("y_axis", head numeric_columns);
             ("series", head categorical_columns)] |}.

Definition bar_chart (category_count : Z) (categorical_columns numeric_columns : list string)
    : Chart :=
  {| chart_type := "bar";
     chart_suitability := if category_count <=? 10 then "high" else "medium";
     chart_reason := "Categorical data with " +:+ pretty category_count +:+ " categories";
     chart_suggested_config :=
       Some [("x_axis", head categorical_columns);
             ("y_axis", head numeric_columns);
             ("group_by", categorical_columns !! 1%nat)] |}.

Definition pie_chart (category_count : Z) (categorical_columns numeric_columns : list string)
    : Chart :=
  {| chart_type := "pie";
     chart_suitability := "high";
     chart_reason := "Small number of categories (" +:+ pretty category_count +:+ ")";
     chart_suggested_config :=
       Some [("name", head categorical_columns);
             ("value", head numeric_columns)] |}.

Definition scatter_chart (numeric_columns categorical_columns : list string) : Chart :=
  {| chart_type := "scatter";
     chart_suitability := "medium";
     chart_reason := "Multiple numeric columns available";
     chart_suggested_config :=
       Some [("x_axis", head numeric_columns);
             ("y_axis", numeric_columns !! 1%nat);
             ("size", numeric_columns !! 2%nat);
             ("color", head categorical_columns)] |}.

Definition table_chart : Chart :=
  {| chart_type := "table";
     chart_suitability := "high";
     chart_reason := "Data structure best represented as a table";
     chart_suggested_config := None |}.

(** The line chart suggestion. *)
Definition suggest_line (datetime_columns numeric_columns categorical_columns : list string)
    (suggestions : Suggestions) : Suggestions :=
  match datetime_columns, numeric_columns with
  | _ :: _, _ :: _ =>
      recommend_if_none "line"
        (append_chart (line_chart datetime_columns numeric_columns categorical_columns)
           suggestions)
  | _, _ => suggestions
  end.

(** The bar chart suggestion. *)
Definition suggest_bar (df : DataFrame) (categorical_columns numeric_columns : list string)
    (suggestions : Suggestions) : string + Suggestions :=
  match categorical_columns, numeric_columns with
  | _ :: _, _ :: _ =>
      match category_count df categorical_columns with
      | inl msg => inl msg
      | inr category_count =>
          if (1 <=? category_count) && (category_count <=? 20)
          then inr (recommend_if_none "bar"
                      (append_chart
                         (bar_chart category_count categorical_columns numeric_columns)
                         suggestions))
          else inr suggestions
      end
  | _, _ => inr suggestions
  end.

(** The pie chart suggestion. *)
Definition suggest_pie (df : DataFrame) (categorical_columns numeric_columns : list string)
    (suggestions : Suggestions) : string + Suggestions :=
  match categorical_columns, numeric_columns with
  | _ :: _, _ :: _ =>
      match category_count df categorical_columns with
      | inl msg => inl msg
      | inr category_count =>
          if (2 <=? category_count) && (category_count <=? 6)
          then
            let suggestions :=
              append_chart (pie_chart category_count categorical_columns numeric_columns)
                suggestions in
            inr (if (category_count <=? 5) && negb (truthy (recommended_chart suggestions))
                 then recommend "pie" suggestions
                 else suggestions)
          else inr suggestions
      end
  | _, _ => inr suggestions
  end.

(** The scatter plot suggestion. *)
Definition suggest_scatter (numeric_columns categorical_columns : list string)
    (suggestions : Suggestions) : Suggestions :=
  if (2 <=? length numeric_columns)%nat
  then append_chart (scatter_chart numeric_columns categorical_columns) suggestions
  else suggestions.

(** The default to a table. *)
Definition suggest_table (df : DataFrame) (suggestions : Suggestions) : Suggestions :=
  if negb (truthy (recommended_chart suggestions))
     && (0 <? length (df_columns pd df))%nat
  then append_chart table_chart (recommend "table" suggestions)
  else suggestions.

(** [df = pd.DataFrame(data)], unless [data] is a DataFrame already. *)
Definition frame_of (data : Data pd) : string + DataFrame :=
  match data with
  | AFrame df => inr df
  | Rows rows => pd_DataFrame pd rows
  end.

Definition suggest_visualizations (data : Data pd) : string + Advice :=
  match frame_of data with
  | inl msg => inl msg
  | inr df =>
      if df_empty E df then inr (NoChart "No data to visualize")
      else
        let numeric_columns := numeric_columns df in
        let '(categorical_columns, datetime_columns) := other_columns df in
        let suggestions :=
          {| recommended_chart := None;
             possible_charts := [];
             metrics := numeric_columns;
             dimensions := categorical_columns ++ datetime_columns |} in
        let suggestions :=
          suggest_line datetime_columns numeric_columns categorical_columns suggestions in
        match suggest_bar df categorical_columns numeric_columns suggestions with
        | inl msg => inl msg
        | inr suggestions =>
            match suggest_pie df categorical_columns numeric_columns suggestions with
            | inl msg => inl msg
            | inr suggestions =>
                let suggestions :=
                  suggest_scatter numeric_columns categorical_columns suggestions in
                inr (Suggested (suggest_table df suggestions))
            end
        end
  end.

End Visualizations.

(** ** The endpoints of [api.py]

    An endpoint answers with a body or, where it raises an [HTTPException],
    with the error that FastAPI makes of it. *)

(** [HTTPException(status_code=.., detail=..)] *)
Record HTTPException := {
  status_code : Z;
  detail : string;
}.

(** [type(v).__name__] *)
Definition type_name `{Carriers} (v : Value) : string :=
  match v with
  | VNone => "NoneType"
  | VBool _ => "bool"
  | VNum (Int _) => "int"
  | VNum (Float _) => "float"
  | VStr _ => "str"
  | VSimilar _ => "list"
  | VFrame _ => "DataFrame"
  | VRecords _ => "list"
  end.

(** [v.to_dict(orient="records")]: the records of a DataFrame; another value
    has no such attribute, and [inl] is the message of the
    [AttributeError]. *)
Definition to_dict `{Carriers} (v : Value) : string + Value :=
  match v with
  | VFrame df => inr (VRecords df)
  | _ => inl ("'" +:+ type_name v +:+ "' object has no attribute 'to_dict'")
  end.

Module Api.

Section Endpoints.

Context `{Carriers} (E : Env) (D : Datetime) (pd : Pandas).

(** [raise HTTPException(status_code=500, detail=str(e))] *)
Definition internal_error {A} (e : Exception) : M (HTTPException + A) :=
  mret (inl {| status_code := 500; detail := str e |}).

(** [suggest_visualizations], on the [data] of its request. *)
Definition suggest_visualizations (data : Records pd) : M (HTTPException + Advice) :=
  match suggest_visualizations E pd (Rows data) with
  | inr visualization_suggestions => mret (inr visualization_suggestions)
  | inl msg => mret (inl {| status_code := 500; detail := msg |})
  end.

(** [query], on the fields of its request.  An exception of [to_dict] is
    raised inside the [try], so that it ends as the others do. *)
Definition query (question : string) (store_results require_approval approved : bool)
    : M (HTTPException + gmap string Value) :=
  try_except
    (result ← query E question store_results require_approval approved;
     match result !! "results" with
     | None | Some VNone => mret (inr result)
     | Some results =>
         match to_dict results with
         | inr records => mret (inr (<["results" := records]> result))
         | inl msg => mret (inl {| status_code := 500; detail := msg |})
         end
     end)
    internal_error.

(** [get_similar_queries], on its path and query parameters. *)
Definition get_similar_queries (question : string) (top_k : Z)
    : M (HTTPException + gmap string Value) :=
  try_except
    (similar_queries ← find_similar_queries E question top_k;
     mret (inr (list_to_map [("similar_queries", VSimilar similar_queries)])))
    internal_error.

(** [get_history], whose body [{"history": history}] is given by
    [history]. *)
Definition get_history (limit : Z) : M (HTTPException + list HistoryEntry) :=
  try_except
    (history ← get_query_history E D limit;
     mret (inr history))
    internal_error.

(** [generate_sql], on the fields of its request, of which it reads the
    question only. *)
Definition generate_sql (question : string) (store_results require_approval approved : bool)
    : M (HTTPException + gmap string Value) :=
  try_except
    ('(sql, similar_queries) ← generate_sql E question;
     mret (inr (list_to_map
                  [("question", VStr question);
                   ("sql", VStr sql);
                   ("similar_queries", VSimilar similar_queries)])))
    internal_error.

(** [direct_sql], on the fields of its request. *)
Definition direct_sql (sql : string) (store_results : bool) : M (gmap string Value) :=
  try_except
    ('(results, execution_time) ← execute_query E sql;
     df ← results_to_dataframe E results;
     mret (list_to_map
             [("sql", VStr sql);
              ("was_successful", VBool true);
              ("execution_time", VNum (Float execution_time));
              ("results", VRecords df)]))
    (fun e =>
       mret (list_to_map
               [("sql", VStr sql);
                ("was_successful", VBool false);
                ("error_message", VStr (str e))])).

End Endpoints.

End Api.

(** ** Classifying the calls *)

Definition is_execute_query `{Carriers} (ev : Event) : bool :=
  match ev with CallExecuteQuery _ => true | _ => false end.

Definition is_store_query_pair `{Carriers} (ev : Event) : bool :=
  match ev with CallStoreQueryPair _ _ _ _ _ => true | _ => false end.

Definition is_generate `{Carriers} (ev : Event) : bool :=
  match ev with CallVannaGenerateSql _ _ _ => true | _ => false end.

(** The calls of Transition 1: the embedder, the two searches and the
    generator. *)
Definition is_generating `{Carriers} (ev : Event) : bool :=
  match ev with
  | CallEncode _ | CallAggregate _ _ _ | CallFind _ _ _
  | CallVannaGenerateSql _ _ _ => true
  | _ => false
  end.

(** The calls of retrieval alone. *)
Definition is_retrieval `{Carriers} (ev : Event) : bool :=
  match ev with
  | CallEncode _ | CallAggregate _ _ _ | CallFind _ _ _ => true
  | _ => false
  end.

(** How many of the calls [evs] satisfy [p]. *)
Definition count_calls `{Carriers} (p : Event -> bool) (evs : list Event) : nat :=
  length (List.filter p evs).

Definition is_replace_one `{Carriers} (ev : Event) : bool :=
  match ev with CallReplaceOne _ _ => true | _ => false end.

(** The calls of Transition 3. *)
Definition is_executing `{Carriers} (ev : Event) : bool :=
  match ev with
  | CallExecuteQuery _ | CallBigQuery _ | CallJobResult | CallToDataframe => true
  | _ => false
  end.

(** The calls of Transition 4. *)
Definition is_storing `{Carriers} (ev : Event) : bool :=
  match ev with
  | CallStoreQueryPair _ _ _ _ _ | CallEncode _ | CallReplaceOne _ _ => true
  | _ => false
  end.

(** An entry that has the fields [generate_sql] reads of it: whether it was
    successful and, for a successful one, the question and the SQL. *)
Definition complete `{Carriers} (query : SimilarQuery) : Prop :=
  match sq_was_successful query with
  | Some true => is_Some (sq_question query) /\ is_Some (sq_sql query)
  | Some false => True
  | None => False
  end.

#[global] Instance complete_dec `{Carriers} (query : SimilarQuery) : Decision (complete query).
Proof. unfold complete. destruct (sq_was_successful query) as [[] |]; apply _. Defined.

(** The examples as the specification words them: the entries of [similar]
    that were successful, in their order, as question and SQL pairs. *)
Definition successful_examples `{Carriers} (similar : list SimilarQuery) : list Example :=
  omap
    (fun query =>
       question ← sq_question query;
       sql ← sq_sql query;
       Some {| ex_question := question; ex_sql := sql |})
    (List.filter (fun query => bool_decide (sq_was_successful query = Some true)) similar).

(** The [examples] argument the generator is to receive: none at all when no
    entry was successful. *)
Definition examples_argument `{Carriers} (similar : list SimilarQuery)
    : option (list Example) :=
  match successful_examples similar with
  | [] => None
  | examples => Some examples
  end.

(** ** Test doubles

    Concrete collaborators, in the manner of the mocks of
    [tests/test_agent.py], on which the agent can be run. *)

Module Mock.

Definition carriers : Carriers :=
  {| float := Q;
     Embedding := list Q;
     Timestamp := nat;
     QueryJob := string;
     RowIterator := list (list string);
     DataFrame := list (list string) |}.
#[local] Existing Instance carriers.

(** What the mocked transformer of the tests returns. *)
Definition embedding : Embedding := [1 # 10; 2 # 10; 3 # 10]%Q.

(** [vector] is the answer of the vector index, [generator] the answer of
    Vanna, [warehouse] the answer of BigQuery and [replace] the fault of
    [replace_one], if any. *)
Definition env (vector : string + list SimilarQuery)
    (generator : list Event -> string + string)
    (warehouse : string + list (list string))
    (replace : option string) : Env :=
  {| model_encode := fun _ _ => inr embedding;
     datetime_now := fun t => length t;
     aggregate := fun _ _ _ _ _ => vector;
     find_fault := fun _ => None;
     engine_search := fun _ _ _ => false;
     replace_fault := fun _ => replace;
     vn_generate_sql := fun t _ _ _ => generator t;
     time_time := fun t => (Z.of_nat (length t) # 40)%Q;
     float_sub := fun a b => Qred (a - b)%Q;
     bq_query := fun _ sql =>
       match warehouse with inl msg => inl msg | inr _ => inr sql end;
     job_result := fun _ _ => warehouse;
     to_dataframe := fun _ rows => inr rows;
     df_empty := fun df => match df with [] => true | _ => false end;
     df_head_to_string := fun n df =>
       Py.join (String "010" "") (Py.join " " <$> take (Z.to_nat n) df) |}.

Definition no_vector_index : string + list SimilarQuery :=
  inl "$vectorSearch is only allowed on MongoDB Atlas".

Definition test_sql : string := "SELECT * FROM test_table LIMIT 10".

Definition generator_ok : list Event -> string + string := fun _ => inr test_sql.

Definition document (question sql : string) (was_successful : bool) : Document :=
  {| doc_id := Hashlib.md5_hexdigest question;
     doc_question := question;
     doc_sql := sql;
     doc_embedding := embedding;
     doc_execution_time := Float (1 # 10)%Q;
     doc_was_successful := was_successful;
     doc_timestamp := 0%nat;
     doc_result_preview := None |}.

Definition history : list Stored :=
  [as_stored (document "Show me top records" "SELECT * FROM t LIMIT 5" true);
   as_stored (document "List all orders" "SELECT * FROM orders" true);
   as_stored (document "Count the customers" "SELECT COUNT(*) FROM customer" false)].

Definition world : World := {| collection := history; trace := [] |}.

(** The world once the calls [evs] have been made on [history]. *)
Definition after (evs : list Event) : World :=
  {| collection := history; trace := evs |}.

Definition projected (question sql : string) (was_successful : bool) : SimilarQuery :=
  project (as_stored (document question sql was_successful)).

Definition rows : list (list string) := [["1"; "a"]; ["2"; "b"]].

Definition half_a_second : number := Float (1 # 2)%Q.

(** Everything works, but there is no vector index. *)
Definition working : Env := env no_vector_index generator_ok (inr rows) None.

(** BigQuery rejects the query. *)
Definition failing_query : Env :=
  env no_vector_index generator_ok (inl "Query failed") None.

(** BigQuery rejects the query and the store refuses the write. *)
Definition failing_query_and_store : Env :=
  env no_vector_index generator_ok (inl "Query failed") (Some "connection refused").

(** Vanna cannot be reached. *)
Definition failing_generator : Env :=
  env no_vector_index (fun _ => inl "Vanna is unreachable") (inr rows) None.

(** The question of [test_query_execution_error] and its run. *)
Definition sales_question : string := "Show me sales data".

Definition top_records : SimilarQuery :=
  projected "Show me top records" "SELECT * FROM t LIMIT 5" true.

(** The calls of a generation for [sales_question], newest first. *)
Definition generated : list Event :=
  [CallVannaGenerateSql sales_question
     (Some [{| ex_question := "Show me top records";
               ex_sql := "SELECT * FROM t LIMIT 5" |}]) true;
   CallFind "show|sales|data" "i" 3;
   CallAggregate embedding 30 3;
   CallEncode sales_question].

(** ... followed by an execution that BigQuery rejects, *)
Definition rejected : list Event :=
  [CallBigQuery test_sql; CallExecuteQuery test_sql] ++ generated.

Definition failed_document : Document :=
  {| doc_id := "4e8fa57c78d6a5eaf528ac927e15c6a2";
     doc_question := sales_question;
     doc_sql := test_sql;
     doc_embedding := embedding;
     doc_execution_time := Int 0;
     doc_was_successful := false;
     doc_timestamp := 8%nat;
     doc_result_preview := None |}.

(** ... followed by the storing of the failure. *)
Definition stored_failure : list Event :=
  [CallReplaceOne "4e8fa57c78d6a5eaf528ac927e15c6a2" failed_document;
   CallEncode sales_question;
   CallStoreQueryPair sales_question test_sql (Int 0) false None] ++ rejected.

(** The SQL, the preview, the document and the calls of an approved run
    whose generator answers [approved_sql]. *)
Definition approved_sql : string := "SELECT * FROM sales LIMIT 10".

Definition preview_text : string := "1 a" +:+ String "010" "2 b".

Definition stored_document : Document :=
  {| doc_id := "4e8fa57c78d6a5eaf528ac927e15c6a2";
     doc_question := sales_question;
     doc_sql := approved_sql;
     doc_embedding := embedding;
     doc_execution_time := Float (1 # 20)%Q;
     doc_was_successful := true;
     doc_timestamp := 14%nat;
     doc_result_preview := Some preview_text |}.

Definition approved_run : list Event :=
  [CallReplaceOne "4e8fa57c78d6a5eaf528ac927e15c6a2" stored_document;
   CallEncode sales_question;
   CallStoreQueryPair sales_question approved_sql (Float (1 # 20)%Q) true
     (Some preview_text);
   CallToDataframe;
   CallJobResult;
   CallBigQuery approved_sql;
   CallExecuteQuery approved_sql] ++ generated.

Definition approved_response : gmap string Value :=
  <["result_preview" := VStr preview_text]>
    (<["results" := VFrame rows]>
       (base_response sales_question approved_sql true (Float (1 # 20)%Q)
          [top_records] true true)).

(** A generator that answers differently the second time it is asked. *)
Definition fickle_generator : Env :=
  env no_vector_index
    (fun t => inr (if (count_calls is_generate t <=? 1)%nat
                   then "SELECT * FROM sales"
                   else "SELECT * FROM sales LIMIT 10"))
    (inr rows) None.

(** What the clock of the test doubles measures for a query. *)
Definition a_twentieth : float := (1 # 20)%Q.

(** BigQuery rejects the query with a message that speaks of storing. *)
Definition failing_with_words : Env :=
  env no_vector_index generator_ok
    (inl "Quota exceeded: failed to store the result set") None.

(** The store refuses the first write and takes the next ones. *)
Definition flaky_store : Env :=
  {| model_encode := model_encode working;
     datetime_now := datetime_now working;
     aggregate := aggregate working;
     find_fault := find_fault working;
     engine_search := engine_search working;
     replace_fault := fun t =>
       if (count_calls is_replace_one t <=? 1)%nat then Some "connection reset"
       else None;
     vn_generate_sql := vn_generate_sql working;
     time_time := time_time working;
     float_sub := float_sub working;
     bq_query := bq_query working;
     job_result := job_result working;
     to_dataframe := to_dataframe working;
     df_empty := df_empty working;
     df_head_to_string := df_head_to_string working |}.

(** The vector index answers with four entries. *)
Definition four_entries : list SimilarQuery :=
  [projected "Show me top records" "SELECT * FROM t LIMIT 5" true;
   projected "List all orders" "SELECT * FROM orders" true;
   projected "Count the customers" "SELECT COUNT(*) FROM customer" false;
   projected "Show me top records" "SELECT * FROM t LIMIT 5" true].

Definition indexed : Env := env (inr four_entries) generator_ok (inr rows) None.

(** Timestamps are numbers, printed in decimal; in the order of the store a
    document without a timestamp comes before a value that is no
    [datetime], which comes before every [datetime]. *)
Definition datetime : Datetime :=
  {| timestamp_leb := fun a b =>
       match a, b with
       | None, _ => true
       | Some (Other _ _), None => false
       | Some (Other _ _), Some _ => true
       | Some (ADatetime s), Some (ADatetime t) => Nat.leb s t
       | Some (ADatetime _), _ => false
       end;
     isoformat := fun t => pretty t |}.

Definition dated (question sql : string) (was_successful : bool) (timestamp : nat)
    : Document :=
  {| doc_id := Hashlib.md5_hexdigest question;
     doc_question := question;
     doc_sql := sql;
     doc_embedding := embedding;
     doc_execution_time := Float (1 # 10)%Q;
     doc_was_successful := was_successful;
     doc_timestamp := timestamp;
     doc_result_preview := None |}.

(** Three documents, the second being the latest. *)
Definition dated_history : list Stored :=
  [as_stored (dated "Show me top records" "SELECT * FROM t LIMIT 5" true 3);
   as_stored (dated "List all orders" "SELECT * FROM orders" true 7);
   as_stored (dated "Count the customers" "SELECT COUNT(*) FROM customer" false 5)].

Definition dated_world : World := {| collection := dated_history; trace := [] |}.

(** The document that [tests/mongodb_test.py] inserts: the store gives it
    its [_id], and its timestamp is a string. *)
Definition connection_test : Stored :=
  {| st_id := IdObject "65a1f0c2e4b0a1b2c3d4e5f6";
     st_question := Some "Test question for MongoDB connection";
     st_sql := Some "SELECT * FROM test";
     st_embedding := Some embedding;
     st_execution_time := Some (Float (1 # 10)%Q);
     st_was_successful := Some true;
     st_timestamp := Some (Other "str" "'2023-01-01T00:00:00'");
     st_result_preview := None |}.

(** A document of another writer, which tells a question and an SQL query
    only. *)
Definition bare : Stored :=
  {| st_id := IdObject "65a1f0c2e4b0a1b2c3d4e5f7";
     st_question := Some "Show me sales by region";
     st_sql := Some "SELECT region, SUM(sales) FROM sales GROUP BY region";
     st_embedding := None;
     st_execution_time := None;
     st_was_successful := None;
     st_timestamp := None;
     st_result_preview := None |}.

(** A frame with the columns [columns], of which [numeric] are numeric and
    [dates] hold dates; on the others [pd.to_datetime] raises [fault], if
    any, and every column has [count] distinct values. *)
Definition pandas (columns numeric dates : list string) (fault : option string)
    (count : string + Z) : Pandas :=
  {| Records := list (list string);
     pd_DataFrame := fun rows => inr rows;
     df_columns := fun _ => columns;
     is_numeric_dtype := fun _ col => bool_decide (col ∈ numeric);
     is_datetime64_dtype := fun _ col => bool_decide (col ∈ dates);
     to_datetime_fault := fun _ _ => fault;
     nunique := fun _ _ => count |}.

(** The sales of three regions, the regions being told from dates. *)
Definition sales_by_region : Pandas :=
  pandas ["region"; "sales"] ["sales"] [] (Some "Unknown datetime string format")
    (inr 3).

(** The same frame when [pd.to_datetime] coerces what it cannot parse. *)
Definition coerced_sales : Pandas :=
  pandas ["region"; "sales"] ["sales"] [] None (inr 3).

(** A question of the history stored once more, with a preview, and then a
    second time, as a failure. *)
Definition asked_again : Document :=
  {| doc_id := Hashlib.md5_hexdigest "List all orders";
     doc_question := "List all orders";
     doc_sql := "SELECT 1";
     doc_embedding := embedding;
     doc_execution_time := half_a_second;
     doc_was_successful := true;
     doc_timestamp := 2%nat;
     doc_result_preview := Some "1" |}.

Definition asked_twice : Document :=
  {| doc_id := Hashlib.md5_hexdigest "List all orders";
     doc_question := "List all orders";
     doc_sql := "SELECT 2";
     doc_embedding := embedding;
     doc_execution_time := Int 0;
     doc_was_successful := false;
     doc_timestamp := 5%nat;
     doc_result_preview := None |}.

Definition first_write : World :=
  {| collection :=
       [as_stored (document "Show me top records" "SELECT * FROM t LIMIT 5" true);
        as_stored asked_again;
        as_stored (document "Count the customers" "SELECT COUNT(*) FROM customer" false)];
     trace :=
       [CallReplaceOne (Hashlib.md5_hexdigest "List all orders") asked_again;
        CallEncode "List all orders";
        CallStoreQueryPair "List all orders" "SELECT 1" half_a_second true (Some "1")] |}.

Definition second_write : World :=
  {| collection :=
       [as_stored (document "Show me top records" "SELECT * FROM t LIMIT 5" true);
        as_stored asked_twice;
        as_stored (document "Count the customers" "SELECT COUNT(*) FROM customer" false)];
     trace :=
       [CallReplaceOne (Hashlib.md5_hexdigest "List all orders") asked_twice;
        CallEncode "List all orders";
        CallStoreQueryPair "List all orders" "SELECT 2" (Int 0) false None]
       ++ trace first_write |}.

(** The history with the two documents of other writers. *)
Definition shared_world : World :=
  {| collection := history ++ [connection_test; bare]; trace := [] |}.

End Mock.

(** The generator raises [msg] when [generate_sql] reaches it. *)
Definition generator_raises `{Carriers} (E : Env) (question : string) (w : World)
    (msg : string) : Prop :=
  exists similar w1,
    find_similar_queries E question 3 w = (Returned similar, w1) /\
    Forall complete similar /\
    vn_generate_sql E
      (CallVannaGenerateSql question (examples_argument similar) true :: trace w1)
      question (examples_argument similar) true = inl msg.

(** The embedder raises [msg] at the first step of the retrieval. *)
Definition embedder_raises `{Carriers} (E : Env) (question : string) (w : World)
    (msg : string) : Prop :=
  model_encode E (CallEncode question :: trace w) question = inl msg.

(** ** Effects of a computation *)

(** [reads P m]: whatever the world, [m] leaves the collection as it found
    it and makes only calls that satisfy [P]. *)
Definition reads `{Carriers} (P : Event -> Prop) {A} (m : M A) : Prop :=
  forall w r w', m w = (r, w') ->
    collection w = collection w' /\
    exists evs, trace w' = evs ++ trace w /\ Forall P evs.

(** [raises P m]: whatever the world, an exception that leaves [m] has its
    origin in [P]. *)
Definition raises `{Carriers} (P : Origin -> Prop) {A} (m : M A) : Prop :=
  forall w e w', m w = (Raised e, w') -> P (origin e).

(** [preserves I m]: whatever the world and the outcome, [m] leaves a
    collection that satisfies [I] when it found one. *)
Definition preserves `{Carriers} (I : list Stored -> Prop) {A} (m : M A) : Prop :=
  forall w r w', m w = (r, w') -> I (collection w) -> I (collection w').

(** ** What the theorems speak of *)

(** The collection is keyed by its questions: no two documents share an
    [_id], and the [_id] of a document is the MD5 of its question. *)
Definition keyed_by_question `{Carriers} (coll : list Stored) : Prop :=
  NoDup (st_id <$> coll) /\
  Forall
    (fun d =>
       exists question,
         st_question d = Some question /\
         st_id d = IdStr (Hashlib.md5_hexdigest question))
    coll.

(** A value that JSON cannot carry. *)
Definition is_frame `{Carriers} (v : Value) : bool :=
  match v with VFrame _ => true | _ => false end.


(** The recommended chart, if any, is a line, a bar or a table, and it is
    one of the possible charts. *)
Definition well_recommended (suggestions : Suggestions) : Prop :=
  match recommended_chart suggestions with
  | None => True
  | Some name =>
      name ∈ ["line"; "bar"; "table"] /\
      name ∈ chart_type <$> possible_charts suggestions
  end.

(** [not any(c.isspace() for c in s)] *)
Definition spaceless (s : string) : bool :=
  forallb (fun c => negb (Py.isspace c)) (Py.chars s).

(** A string of continuation bytes. *)
Fixpoint continuations (s : string) : bool :=
  match s with
  | EmptyString => true
  | String b s' => Py.continuation (Py.ord b) && continuations s'
  end.

(** A first byte with continuation bytes only. *)
Definition is_char (c : string) : bool :=
  match c with
  | EmptyString => false
  | String _ rest => continuations rest
  end.

(** Characters that follow one another in a string: each but the first
    starts with a first byte. *)
Definition consecutive (cs : list string) : Prop :=
  Forall (fun c => is_char c = true) cs /\
  Forall (fun c => Py.continues c = false) (tail cs).

(** A character that [lower] leaves as it is, wherever it stands. *)
Definition settled (c : string) : bool :=
  match Py.code_point c with
  | Some n =>
      negb (n =? 0x3a3)%N && negb (n =? 0x130)%N
      && match Py.lower_in Py.lowercase n with Some _ => false | None => true end
  | None => true
  end.

(** The images of an entry of [lowercase]. *)
Definition images (entry : N * N * N * N) : list N :=
  let '(first, last, step, image) := entry in
  (fun k => image + step * N.of_nat k)%N <$> seq 0 (S (N.to_nat ((last - first) / step))).

(** What [lower] puts for a letter: one character, which encodes the code
    point and which [lower] leaves as it is. *)
Definition lowered (n : N) : bool :=
  is_char (Py.chr n) && negb (Py.continues (Py.chr n)) && settled (Py.chr n).

(** A digit of [hexdigest()]. *)
Definition is_hex_digit (c : ascii) : bool :=
  let n := Py.ord c in
  ((48 <=? n) && (n <=? 57) || (97 <=? n) && (n <=? 102))%N.

Section Effects.

Context `{Carriers} (P : Event -> Prop).

Lemma reads_mret {A} (a : A) : reads P (mret a).
Proof.
  intros w r w' Hrun. inversion Hrun; subst.
  split; [reflexivity | exists []; split; [reflexivity | constructor]].
Qed.

Lemma reads_ask {A} (f : World -> A) : reads P (ask f).
Proof.
  intros w r w' Hrun. inversion Hrun; subst.
  split; [reflexivity | exists []; split; [reflexivity | constructor]].
Qed.

Lemma reads_perform {A} o (f : World -> string + A) : reads P (perform o f).
Proof.
  intros w r w' Hrun. unfold perform in Hrun.
  destruct (f w); inversion Hrun; subst;
    (split; [reflexivity | exists []; split; [reflexivity | constructor]]).
Qed.

Lemma reads_emit ev : P ev -> reads P (emit ev).
Proof.
  intros HP w r w' Hrun. inversion Hrun; subst. simpl.
  split; [reflexivity |].
  exists [ev]. split; [reflexivity | repeat constructor; exact HP].
Qed.

Lemma reads_bind {A B} (m : M A) (k : A -> M B) :
  reads P m -> (forall a, reads P (k a)) -> reads P (m ≫= k).
Proof.
  intros Hm Hk w r w' Hrun. unfold mbind, M_bind in Hrun.
  destruct (m w) as [[a | e] w1] eqn:Em.
  - destruct (Hm _ _ _ Em) as [Hc (evs1 & Ht & HP1)].
    destruct (Hk a _ _ _ Hrun) as [Hc' (evs2 & Ht' & HP2)].
    split; [congruence |].
    exists (evs2 ++ evs1). split.
    + rewrite Ht', Ht. apply app_assoc.
    + apply Forall_app; split; assumption.
  - inversion Hrun; subst. exact (Hm _ _ _ Em).
Qed.

Lemma reads_try_except {A} (body : M A) handler :
  reads P body -> (forall e, reads P (handler e)) -> reads P (try_except body handler).
Proof.
  intros Hm Hk w r w' Hrun. unfold try_except in Hrun.
  destruct (body w) as [[a | e] w1] eqn:Em.
  - inversion Hrun; subst. exact (Hm _ _ _ Em).
  - destruct (Hm _ _ _ Em) as [Hc (evs1 & Ht & HP1)].
    destruct (Hk e _ _ _ Hrun) as [Hc' (evs2 & Ht' & HP2)].
    split; [congruence |].
    exists (evs2 ++ evs1). split.
    + rewrite Ht', Ht. apply app_assoc.
    + apply Forall_app; split; assumption.
Qed.

Lemma reads_weaken (Q : Event -> Prop) {A} (m : M A) :
  (forall ev, P ev -> Q ev) -> reads P m -> reads Q m.
Proof.
  intros HPQ Hm w r w' Hrun.
  destruct (Hm _ _ _ Hrun) as [Hc (evs & Ht & HP)].
  split; [exact Hc |]. exists evs. split; [exact Ht |].
  eapply Forall_impl; eauto.
Qed.

End Effects.

(** Splits a computation into its primitive steps and settles each. *)
Ltac reads_steps :=
  repeat first
    [ apply reads_bind
    | apply reads_try_except
    | apply reads_mret
    | apply reads_ask
    | apply reads_perform
    | apply reads_emit; reflexivity
    | match goal with
      | |- reads _ (match ?x with _ => _ end) => destruct x
      | |- reads _ (if ?x then _ else _) => destruct x
      | |- forall _, _ => intro
      end ].

(** ** Facts on Python strings *)

Section Strings.

Lemma append_cons c s1 s2 : String c s1 +:+ s2 = String c (s1 +:+ s2).
Proof. reflexivity. Qed.

Lemma append_nil_r s : s +:+ "" = s.
Proof.
  induction s as [| c s IH]; [reflexivity |]. rewrite append_cons, IH. reflexivity.
Qed.

Lemma append_assoc s1 s2 s3 : (s1 +:+ s2) +:+ s3 = s1 +:+ s2 +:+ s3.
Proof.
  induction s1 as [| c s1 IH]; [reflexivity |]. rewrite !append_cons, IH. reflexivity.
Qed.

Lemma concat_cons c cs : String.concat "" (c :: cs) = c +:+ String.concat "" cs.
Proof. destruct cs; [symmetry; apply append_nil_r | reflexivity]. Qed.

Lemma concat_app cs1 cs2 :
  String.concat "" (cs1 ++ cs2) = String.concat "" cs1 +:+ String.concat "" cs2.
Proof.
  induction cs1 as [| c cs1 IH]; [reflexivity |].
  rewrite <- app_comm_cons, !concat_cons, IH, append_assoc. reflexivity.
Qed.

(** *** The characters of a string *)

Lemma chars_char c s :
  is_char c = true -> Py.continues s = false -> Py.chars (c +:+ s) = c :: Py.chars s.
Proof.
  destruct c as [| b rest]; [discriminate |]. cbn [is_char]. revert b.
  induction rest as [| b' rest IH]; intros b Hrest Hs.
  - change (String b "" +:+ s) with (String b s). cbn [Py.chars].
    destruct (Py.chars s) as [| c' cs]; [reflexivity |]. rewrite Hs. reflexivity.
  - cbn [continuations] in Hrest. apply andb_true_iff in Hrest as [Hb' Hrest].
    rewrite append_cons. cbn [Py.chars]. rewrite (IH b' Hrest Hs).
    rewrite append_cons. cbn [Py.continues]. rewrite Hb'. reflexivity.
Qed.

Lemma is_char_continues c cs :
  Forall (fun c => is_char c = true) (c :: cs) ->
  Py.continues (String.concat "" (c :: cs)) = Py.continues c.
Proof.
  intros Hcs. apply Forall_cons in Hcs as [Hc _]. rewrite concat_cons.
  destruct c; [discriminate | reflexivity].
Qed.

(** Consecutive characters are the characters of the string they make. *)
Lemma chars_concat cs : consecutive cs -> Py.chars (String.concat "" cs) = cs.
Proof.
  intros [Hchars Hfirst]. induction cs as [| c cs IH]; [reflexivity |].
  rewrite concat_cons. apply Forall_cons in Hchars as [Hc Hchars].
  cbn [tail] in Hfirst. rewrite chars_char.
  - f_equal. apply IH; [exact Hchars |].
    destruct cs; [constructor | apply Forall_cons in Hfirst as [_ ?]; assumption].
  - exact Hc.
  - destruct cs as [| c' cs]; [reflexivity |].
    rewrite (is_char_continues _ _ Hchars).
    apply Forall_cons in Hfirst as [? _]. assumption.
Qed.

Lemma chars_spec s :
  consecutive (Py.chars s) /\ String.concat "" (Py.chars s) = s /\
  match Py.chars s with
  | c :: _ => Py.continues c = Py.continues s
  | [] => s = ""
  end.
Proof.
  induction s as [| b s (Hcs & Hconcat & Hhead)];
    [split; [split; constructor | split; reflexivity] |].
  cbn [Py.chars]. destruct (Py.chars s) as [| c cs].
  - subst s. split; [split; repeat constructor | split; reflexivity].
  - destruct Hcs as [Hchars Hfirst].
    pose proof Hchars as Hchars'. apply Forall_cons in Hchars' as [Hc Hcs].
    destruct (Py.continues s) eqn:Hs.
    + split; [split |].
      * constructor; [| exact Hcs]. cbn [is_char].
        destruct c as [| b' rest]; [discriminate |]. cbn [continuations].
        cbn [Py.continues] in Hhead. rewrite Hhead. exact Hc.
      * exact Hfirst.
      * split; [| reflexivity]. rewrite concat_cons, append_cons, <- concat_cons.
        rewrite Hconcat. reflexivity.
    + split; [split |].
      * constructor; [reflexivity | exact Hchars].
      * cbn [tail]. constructor; [exact Hhead | exact Hfirst].
      * split; [| reflexivity]. rewrite concat_cons, Hconcat. reflexivity.
Qed.

Lemma consecutive_chars s : consecutive (Py.chars s).
Proof. apply chars_spec. Qed.

Lemma concat_chars s : String.concat "" (Py.chars s) = s.
Proof. apply chars_spec. Qed.

Lemma consecutive_app cs1 cs2 :
  consecutive (cs1 ++ cs2) -> consecutive cs1 /\ consecutive cs2.
Proof.
  intros [Hchars Hfirst]. apply Forall_app in Hchars as [H1 H2].
  split; split; try assumption.
  - destruct cs1 as [| c cs1]; [constructor |]. cbn [tail app] in *.
    apply Forall_app in Hfirst as [? _]. assumption.
  - destruct cs1 as [| c cs1]; [exact Hfirst |]. cbn [tail app] in Hfirst.
    apply Forall_app in Hfirst as [_ Hfirst].
    destruct cs2; [constructor | apply Forall_cons in Hfirst as [_ ?]; assumption].
Qed.


(** *** The lower case *)

Lemma lower_in_images table n image :
  Py.lower_in table n = Some image -> exists entry, entry ∈ table /\ image ∈ images entry.
Proof.
  induction table as [| [[[first last] step] image'] table IH]; [discriminate |].
  cbn [Py.lower_in].
  destruct ((first <=? n) && (n <=? last) && ((n - first) mod step =? 0))%N eqn:Hin.
  - intros [= <-]. exists (first, last, step, image'). split; [apply list_elem_of_here |].
    apply andb_true_iff in Hin as [Hin Hmod]. apply andb_true_iff in Hin as [Hfirst Hlast].
    apply N.leb_le in Hfirst, Hlast. apply N.eqb_eq in Hmod.
    unfold images. apply list_elem_of_fmap.
    exists (N.to_nat ((n - first) / step)). split.
    + rewrite N2Nat.id. f_equal.
      destruct (N.eq_dec step 0%N) as [-> | Hstep].
      * rewrite N.mod_0_r in Hmod. rewrite Hmod. reflexivity.
      * pose proof (N.div_mod (n - first) step Hstep) as Hdiv. rewrite Hmod in Hdiv. lia.
    + apply elem_of_seq. split; [apply Nat.le_0_l |].
      assert ((n - first) / step <= (last - first) / step)%N; [| lia].
      destruct (N.eq_dec step 0%N) as [-> | Hstep].
      * rewrite !N.div_0_r. lia.
      * apply N.Div0.div_le_mono; lia.
  - intros Hrest. destruct (IH Hrest) as (entry & Hentry & Himage).
    exists entry. split; [apply list_elem_of_further; exact Hentry | exact Himage].
Qed.

Lemma images_lowered :
  forallb (fun entry => forallb lowered (images entry)) Py.lowercase = true.
Proof. vm_compute. reflexivity. Qed.

Lemma lower_in_lowered n image :
  Py.lower_in Py.lowercase n = Some image -> lowered image = true.
Proof.
  intros Hn. destruct (lower_in_images _ _ _ Hn) as (entry & Hentry & Himage).
  pose proof images_lowered as Hall. rewrite forallb_forall in Hall.
  specialize (Hall entry (proj1 (list_elem_of_In _ _) Hentry)).
  rewrite forallb_forall in Hall. apply Hall, list_elem_of_In. exact Himage.
Qed.

Lemma settled_lower_char before c after :
  settled c = true -> Py.lower_char before c after = [c].
Proof.
  unfold settled, Py.lower_char. destruct (Py.code_point c) as [n |]; [| reflexivity].
  destruct (n =? 0x3a3)%N; [discriminate |]. destruct (n =? 0x130)%N; [discriminate |].
  destruct (Py.lower_in Py.lowercase n); [discriminate | reflexivity].
Qed.

(** What [lower] puts for a character: characters that it leaves as they
    are, each starting with a first byte unless it is the character itself. *)
Lemma lower_char_spec before c after :
  is_char c = true ->
  Forall (fun c' => is_char c' = true /\ settled c' = true
                    /\ (Py.continues c' = true -> Py.continues c = true))
    (Py.lower_char before c after)
  /\ Py.lower_char before c after <> [].
Proof.
  intros Hc. unfold Py.lower_char.
  destruct (Py.code_point c) as [n |] eqn:Hn.
  2: { split; [| discriminate]. repeat constructor; [exact Hc | | auto].
       unfold settled. rewrite Hn. reflexivity. }
  destruct (n =? 0x3a3)%N eqn:Hsigma.
  { split; [| discriminate]. destruct (Py.final_sigma before after);
      repeat constructor; try reflexivity; discriminate. }
  destruct (n =? 0x130)%N eqn:Hdotted.
  { split; [| discriminate]. repeat constructor; try reflexivity; discriminate. }
  destruct (Py.lower_in Py.lowercase n) as [image |] eqn:Himage.
  - split; [| discriminate]. apply lower_in_lowered in Himage. unfold lowered in Himage.
    apply andb_true_iff in Himage as [Himage Hsettled].
    apply andb_true_iff in Himage as [Hchar Hfirst]. apply negb_true_iff in Hfirst.
    repeat constructor; try assumption. congruence.
  - split; [| discriminate]. repeat constructor; [exact Hc | | auto].
    unfold settled. rewrite Hn, Hsigma, Hdotted, Himage. reflexivity.
Qed.

Lemma lower_from_spec before cs :
  consecutive cs ->
  consecutive (Py.lower_from before cs) /\
  Forall (fun c => settled c = true) (Py.lower_from before cs).
Proof.
  revert before. induction cs as [| c cs IH]; intros before Hcs;
    [split; [split |]; constructor |].
  cbn [Py.lower_from].
  destruct Hcs as [Hchars Hfirst]. apply Forall_cons in Hchars as [Hc Hchars].
  cbn [tail] in Hfirst.
  destruct (IH (c :: before)) as [[Hchars' Hfirst'] Hsettled'].
  { split; [exact Hchars |].
    destruct cs; [constructor | apply Forall_cons in Hfirst as [_ ?]; assumption]. }
  destruct (lower_char_spec before c cs Hc) as [Hlower Hne].
  split; [split |].
  - apply Forall_app. split; [| exact Hchars'].
    eapply Forall_impl; [exact Hlower |]. intros c' (? & _). assumption.
  - (* every character but the first starts with a first byte *)
    destruct (Py.lower_char before c cs) as [| c1 rest] eqn:Hlc; [congruence |].
    cbn [app tail]. apply Forall_app. split.
    + (* the characters of the table start with a first byte *)
      clear Hne. unfold Py.lower_char in Hlc.
      destruct (Py.code_point c) as [n |]; [| inversion Hlc; constructor].
      destruct (n =? 0x3a3)%N; [inversion Hlc; constructor |].
      destruct (n =? 0x130)%N; [inversion Hlc; repeat constructor |].
      destruct (Py.lower_in Py.lowercase n); inversion Hlc; constructor.
    + destruct (Py.lower_from (c :: before) cs) as [| c2 rest2] eqn:Hrest;
        [constructor |].
      constructor; [| exact Hfirst'].
      (* the first character of what follows *)
      destruct cs as [| c' cs']; [discriminate |]. cbn [Py.lower_from] in Hrest.
      apply Forall_cons in Hfirst as [Hc' _].
      apply Forall_cons in Hchars as [Hchar' _].
      destruct (lower_char_spec (c :: before) c' cs' Hchar') as [Hl' Hne'].
      destruct (Py.lower_char (c :: before) c' cs') as [| c3 rest3]; [congruence |].
      cbn [app] in Hrest. inversion Hrest; subst.
      apply Forall_cons in Hl' as [(_ & _ & Hcont) _].
      destruct (Py.continues c2); [| reflexivity]. rewrite Hcont in Hc'; congruence.
  - apply Forall_app. split; [| exact Hsettled'].
    eapply Forall_impl; [exact Hlower |]. intros c' (_ & ? & _). assumption.
Qed.

Lemma lower_from_settled before cs :
  Forall (fun c => settled c = true) cs -> Py.lower_from before cs = cs.
Proof.
  revert before. induction cs as [| c cs IH]; intros before Hcs; [reflexivity |].
  apply Forall_cons in Hcs as [Hc Hcs]. cbn [Py.lower_from].
  rewrite (settled_lower_char _ _ _ Hc), (IH _ Hcs). reflexivity.
Qed.

(** The characters of a string in lower case. *)
Lemma chars_lower s : Py.chars (Py.lower s) = Py.lower_from [] (Py.chars s).
Proof.
  unfold Py.lower. apply chars_concat, lower_from_spec, consecutive_chars.
Qed.

Lemma lower_lower s : Py.lower (Py.lower s) = Py.lower s.
Proof.
  unfold Py.lower at 1. rewrite chars_lower. rewrite lower_from_settled; [reflexivity |].
  apply lower_from_spec, consecutive_chars.
Qed.

(** *** The words of a string *)

(** What the loop of [split] returns: words of consecutive characters among
    those it has read and will read, none of them whitespace. *)
Lemma split_from_spec (P : string -> Prop) cur read cs :
  cur = String.concat "" read ->
  consecutive (read ++ cs) ->
  Forall (fun c => Py.isspace c = false) read ->
  Forall P (read ++ cs) ->
  Forall
    (fun word =>
       exists letters,
         word = String.concat "" letters /\ Py.chars word = letters /\ letters <> []
         /\ Forall (fun c => Py.isspace c = false) letters /\ Forall P letters)
    (Py.split_from cur cs).
Proof.
  revert cur read. induction cs as [| c cs IH]; intros cur read Hcur Hcs Hread HP.
  - cbn [Py.split_from]. rewrite app_nil_r in Hcs, HP.
    assert (cur <> "" -> exists letters,
              cur = String.concat "" letters /\ Py.chars cur = letters /\ letters <> []
              /\ Forall (fun c => Py.isspace c = false) letters /\ Forall P letters)
      as Hword.
    { intros Hne. exists read. split; [exact Hcur |].
      split; [rewrite Hcur; apply chars_concat; exact Hcs |].
      split; [intros ->; apply Hne; exact Hcur | split; assumption]. }
    destruct cur; [constructor |]. constructor; [apply Hword; discriminate | constructor].
  - cbn [Py.split_from]. destruct (Py.isspace c) eqn:Hc.
    + assert (Forall
                (fun word =>
                   exists letters,
                     word = String.concat "" letters /\ Py.chars word = letters
                     /\ letters <> []
                     /\ Forall (fun c => Py.isspace c = false) letters
                     /\ Forall P letters)
                (Py.split_from "" cs)) as Hrest.
      { apply (IH "" []); [reflexivity | | constructor |].
        - apply consecutive_app in Hcs as [_ Hcs].
          apply (consecutive_app [c] cs). exact Hcs.
        - apply Forall_app in HP as [_ HP]. apply Forall_cons in HP as [_ HP]. exact HP. }
      assert (cur <> "" -> exists letters,
                cur = String.concat "" letters /\ Py.chars cur = letters /\ letters <> []
                /\ Forall (fun c => Py.isspace c = false) letters /\ Forall P letters)
        as Hword.
      { intros Hne. exists read. split; [exact Hcur |].
        split; [rewrite Hcur; apply chars_concat;
                apply consecutive_app in Hcs as [Hcs _]; exact Hcs |].
        split; [intros ->; apply Hne; exact Hcur |].
        split; [exact Hread |]. apply Forall_app in HP as [HP _]. exact HP. }
      destruct cur; [exact Hrest |]. constructor; [apply Hword; discriminate | exact Hrest].
    + apply (IH _ (read ++ [c])).
      * rewrite concat_app, Hcur. cbn [String.concat]. reflexivity.
      * rewrite <- app_assoc. exact Hcs.
      * apply Forall_app. split; [exact Hread | repeat constructor; exact Hc].
      * rewrite <- app_assoc. exact HP.
Qed.

(** The words of a string are runs of its characters without whitespace. *)
Lemma split_spec (P : string -> Prop) s :
  Forall P (Py.chars s) ->
  Forall
    (fun word =>
       exists letters,
         word = String.concat "" letters /\ Py.chars word = letters /\ letters <> []
         /\ Forall (fun c => Py.isspace c = false) letters /\ Forall P letters)
    (Py.split s).
Proof.
  intros HP. apply (split_from_spec P "" []); [reflexivity | | constructor | exact HP].
  apply consecutive_chars.
Qed.

(** *** The keywords *)

Lemma filter_none {A} (P : A -> Prop) `{!forall x, Decision (P x)} (l : list A) :
  Forall (fun x => ~ P x) l -> filter P l = [].
Proof.
  induction 1 as [| x l Hx _ IH]; [reflexivity |].
  rewrite filter_cons_False by exact Hx. exact IH.
Qed.

Lemma filter_all {A} (P : A -> Prop) `{!forall x, Decision (P x)} (l : list A) :
  Forall P l -> filter P l = l.
Proof.
  induction 1 as [| x l Hx _ IH]; [reflexivity |].
  rewrite filter_cons_True by exact Hx. rewrite IH. reflexivity.
Qed.

(** The keywords are words of the question in lower case, longer than 3
    characters. *)
Lemma keywords_lowered question :
  Forall
    (fun keyword =>
       Py.len keyword > 3 /\ spaceless keyword = true /\ Py.lower keyword = keyword)
    (keywords question).
Proof.
  unfold keywords. apply Forall_forall. intros keyword Hin.
  apply list_elem_of_filter in Hin as [Hlen Hin]. split; [exact Hlen |].
  pose proof (split_spec (fun c => settled c = true) (Py.lower question)) as Hwords.
  rewrite chars_lower in Hwords.
  specialize (Hwords (proj2 (lower_from_spec [] _ (consecutive_chars question)))).
  rewrite Forall_forall in Hwords.
  destruct (Hwords keyword Hin) as (letters & Hword & Hchars & _ & Hspace & Hsettled).
  split.
  - unfold spaceless. rewrite Hchars. apply forallb_forall. intros c Hc.
    rewrite Forall_forall in Hspace. rewrite (Hspace c); [reflexivity |].
    apply list_elem_of_In. exact Hc.
  - unfold Py.lower. rewrite Hchars, (lower_from_settled _ _ Hsettled). symmetry. exact Hword.
Qed.






(** *** Plain patterns *)









(** *** ASCII strings *)










End Strings.

Section Theory.

Context `{Carriers} (E : Env).

Lemma find_similar_queries_reads question top_k :
  reads (fun ev => is_retrieval ev = true) (find_similar_queries E question top_k).
Proof.
  unfold find_similar_queries, encode, _vector_search, _text_search, find_regex.
  reads_steps.
Qed.

Lemma generate_sql_reads question :
  reads (fun ev => is_generating ev = true) (generate_sql E question).
Proof.
  unfold generate_sql. apply reads_bind.
  - eapply reads_weaken; [| apply find_similar_queries_reads].
    intros []; simpl; congruence.
  - unfold vanna_generate_sql. reads_steps.
Qed.

Lemma count_calls_none (p : Event -> bool) evs :
  Forall (fun ev => p ev = false) evs -> count_calls p evs = 0%nat.
Proof.
  unfold count_calls. induction 1 as [| ev evs Hev _ IH]; simpl; [reflexivity |].
  rewrite Hev. exact IH.
Qed.

Lemma count_calls_app (p : Event -> bool) evs1 evs2 :
  count_calls p (evs1 ++ evs2) = (count_calls p evs1 + count_calls p evs2)%nat.
Proof. unfold count_calls. rewrite List.filter_app. apply length_app. Qed.

(** *** Transition 1 *)

(** On complete entries the loop selects the successful ones. *)
Lemma fill_complete pairs (similar : list SimilarQuery) :
  Forall complete similar -> fill pairs similar = inr (pairs ++ successful_examples similar).
Proof.
  intros Hsimilar. revert pairs. unfold successful_examples.
  induction Hsimilar as [| query similar Hquery _ IH]; intros pairs.
  - simpl. rewrite app_nil_r. reflexivity.
  - unfold complete in Hquery. cbn [fill List.filter].
    destruct (sq_was_successful query) as [[] |]; [| | contradiction].
    + destruct Hquery as [[question Hquestion] [sql Hsql]].
      rewrite Hquestion, Hsql. cbn [getitem]. rewrite IH.
      rewrite bool_decide_true by reflexivity. cbn [omap list_omap].
      rewrite Hquestion, Hsql. cbn [mbind option_bind].
      rewrite <- app_assoc. reflexivity.
    + cbn [getitem]. rewrite IH. rewrite bool_decide_false by discriminate. reflexivity.
Qed.

(** On an entry that lacks a field it reads, the loop ends with the
    [KeyError] of a key. *)
Lemma fill_incomplete pairs (similar : list SimilarQuery) :
  ~ Forall complete similar ->
  exists key,
    key ∈ ["was_successful"; "question"; "sql"] /\
    fill pairs similar = inl ("'" +:+ key +:+ "'").
Proof.
  revert pairs. induction similar as [| query similar IH]; intros pairs Hsimilar.
  - exfalso. apply Hsimilar. constructor.
  - destruct (decide (complete query)) as [Hquery | Hquery].
    + assert (~ Forall complete similar) as Hrest.
      { intros Hrest. apply Hsimilar. constructor; assumption. }
      unfold complete in Hquery. cbn [fill].
      destruct (sq_was_successful query) as [[] |]; [| | contradiction].
      * destruct Hquery as [[question Hquestion] [sql Hsql]].
        rewrite Hquestion, Hsql. cbn [getitem]. apply IH. exact Hrest.
      * cbn [getitem]. apply IH. exact Hrest.
    + unfold complete in Hquery. cbn [fill].
      destruct (sq_was_successful query) as [[] |].
      * destruct (sq_question query) as [question |]; cbn [getitem].
        -- destruct (sq_sql query) as [sql |]; cbn [getitem].
           ++ exfalso. apply Hquery. split; eexists; reflexivity.
           ++ exists "sql". split; [| reflexivity].
              do 2 apply list_elem_of_further. apply list_elem_of_here.
        -- exists "question". split; [| reflexivity].
           apply list_elem_of_further, list_elem_of_here.
      * exfalso. apply Hquery. exact I.
      * exists "was_successful". split; [apply list_elem_of_here | reflexivity].
Qed.

Lemma example_pairs_spec (similar : list SimilarQuery) :
  Forall complete similar -> example_pairs similar = inr (successful_examples similar).
Proof. intros Hsimilar. unfold example_pairs. apply (fill_complete [] _ Hsimilar). Qed.

Lemma vanna_generate_sql_run question examples allow w :
  vanna_generate_sql E question examples allow w =
    let t := CallVannaGenerateSql question examples allow :: trace w in
    (match vn_generate_sql E t question examples allow with
     | inl msg => Raised {| origin := Generator; str := msg |}
     | inr sql => Returned sql
     end, {| collection := collection w; trace := t |}).
Proof.
  unfold vanna_generate_sql, mbind, M_bind, emit, perform. simpl.
  destruct (vn_generate_sql E _ question examples allow); reflexivity.
Qed.

(** What [generate_sql] does once retrieval has returned [similar], on
    complete entries. *)
Lemma generate_sql_after_retrieval question w similar w1 :
  find_similar_queries E question 3 w = (Returned similar, w1) ->
  Forall complete similar ->
  generate_sql E question w =
    let examples := examples_argument similar in
    let t := CallVannaGenerateSql question examples true :: trace w1 in
    (match vn_generate_sql E t question examples true with
     | inl msg => Raised {| origin := Generator; str := msg |}
     | inr sql => Returned (sql, similar)
     end, {| collection := collection w1; trace := t |}).
Proof.
  intros Hfind Hsimilar. unfold generate_sql, mbind at 1, M_bind at 1. rewrite Hfind.
  unfold mbind at 1, M_bind at 1, perform. rewrite (example_pairs_spec _ Hsimilar).
  unfold examples_argument.
  destruct (successful_examples similar) as [| ex examples];
    unfold mbind, M_bind; rewrite vanna_generate_sql_run; simpl;
    destruct (vn_generate_sql E _ question _ true); reflexivity.
Qed.

(** On an entry that lacks a field, [generate_sql] raises the [KeyError]
    where retrieval has left the world: the generator is not called. *)
Lemma generate_sql_incomplete question w similar w1 :
  find_similar_queries E question 3 w = (Returned similar, w1) ->
  ~ Forall complete similar ->
  exists key,
    key ∈ ["was_successful"; "question"; "sql"] /\
    generate_sql E question w
    = (Raised {| origin := Interpreter; str := "'" +:+ key +:+ "'" |}, w1).
Proof.
  intros Hfind Hsimilar.
  destruct (fill_incomplete [] _ Hsimilar) as (key & Hkey & Hfill).
  exists key. split; [exact Hkey |].
  unfold generate_sql, mbind at 1, M_bind at 1. rewrite Hfind.
  unfold mbind, M_bind, perform, example_pairs. rewrite Hfill. reflexivity.
Qed.

Lemma generate_sql_retrieval_raised question w e w1 :
  find_similar_queries E question 3 w = (Raised e, w1) ->
  generate_sql E question w = (Raised e, w1).
Proof.
  intros Hfind. unfold generate_sql, mbind at 1, M_bind at 1. rewrite Hfind.
  reflexivity.
Qed.

(** *** Transition 2: the approval gate *)

Lemma query_awaiting_reads question store_results :
  reads (fun ev => is_generating ev = true)
    (query E question store_results true false).
Proof.
  unfold query. apply reads_bind.
  - apply generate_sql_reads.
  - intros [sql similar_queries]. simpl. apply reads_mret.
Qed.

(** C1.  With [require_approval=True] and [approved=False], whatever the
    question, whatever [store_results] and whatever the collaborators do, a
    call to [query] makes no call to [execute_query] and no call to
    [store_query_pair]: every call it makes belongs to generation (embedder,
    searches, generator), [replace_one] is not called and the collection is
    left as it was. *)
Theorem approval_gate_blocks_execution question store_results w :
  let w' := (query E question store_results true false w).2 in
  collection w' = collection w /\
  exists evs,
    trace w' = evs ++ trace w /\
    Forall (fun ev => is_generating ev = true) evs /\
    count_calls is_execute_query evs = 0%nat /\
    count_calls is_store_query_pair evs = 0%nat /\
    count_calls is_replace_one evs = 0%nat.
Proof.
  simpl.
  destruct (query E question store_results true false w) as [r w'] eqn:Hrun.
  destruct (query_awaiting_reads _ _ _ _ _ Hrun) as [Hcoll (evs & Htrace & Hevs)].
  split; [symmetry; exact Hcoll |].
  exists evs. split; [exact Htrace |]. split; [exact Hevs |].
  repeat split; apply count_calls_none;
    (eapply Forall_impl; [exact Hevs |]); intros []; simpl; congruence.
Qed.

(** C4.  Once retrieval has returned [similar], every entry having the
    fields that are read of it, [generate_sql] calls the generator exactly
    once, and the [examples] it passes are the entries of [similar] with
    [was_successful] true, in their order, as question and SQL pairs; when
    there is none, the generator is called without an [examples] argument,
    never with an empty list.  What [generate_sql] then returns or raises is
    the answer of the generator to this very call.  (On an entry that lacks
    [was_successful], or a successful one that lacks its question or its
    SQL, the loop raises the [KeyError] and the generator is not called.) *)
Theorem generator_receives_successful_examples question w similar w1 :
  find_similar_queries E question 3 w = (Returned similar, w1) ->
  exists evs,
    trace w1 = evs ++ trace w /\
    Forall (fun ev => is_generate ev = false) evs /\
    (Forall complete similar ->
     exists examples,
       let t := CallVannaGenerateSql question examples true :: trace w1 in
       examples = match successful_examples similar with
                  | [] => None
                  | pairs => Some pairs
                  end /\
       examples <> Some [] /\
       example_pairs similar = inr (successful_examples similar) /\
       generate_sql E question w
       = (match vn_generate_sql E t question examples true with
          | inl msg => Raised {| origin := Generator; str := msg |}
          | inr sql => Returned (sql, similar)
          end, {| collection := collection w1; trace := t |})) /\
    (~ Forall complete similar ->
     exists key,
       key ∈ ["was_successful"; "question"; "sql"] /\
       example_pairs similar = inl ("'" +:+ key +:+ "'") /\
       generate_sql E question w
       = (Raised {| origin := Interpreter; str := "'" +:+ key +:+ "'" |}, w1)).
Proof.
  intros Hfind.
  destruct (find_similar_queries_reads _ _ _ _ _ Hfind) as [_ (evs & Htrace & Hevs)].
  exists evs. split; [exact Htrace |].
  split; [eapply Forall_impl; [exact Hevs |]; intros []; simpl; congruence |].
  split.
  - intros Hsimilar. exists (examples_argument similar). cbn zeta.
    split; [reflexivity |]. split; [| split].
    + unfold examples_argument. destruct (successful_examples similar); congruence.
    + apply example_pairs_spec. exact Hsimilar.
    + apply (generate_sql_after_retrieval _ _ _ _ Hfind Hsimilar).
  - intros Hsimilar.
    destruct (fill_incomplete [] _ Hsimilar) as (key & Hkey & Hfill).
    exists key. split; [exact Hkey |]. split; [exact Hfill |].
    unfold generate_sql, mbind at 1, M_bind at 1. rewrite Hfind.
    unfold mbind, M_bind, perform, example_pairs. rewrite Hfill. reflexivity.
Qed.

(** The answer of [query] while approval is awaited. *)
Lemma query_awaiting question store_results w sql similar w1 :
  generate_sql E question w = (Returned (sql, similar), w1) ->
  query E question store_results true false w
  = (Returned (awaiting_response question sql similar), w1).
Proof.
  intros Hgen. unfold query, mbind, M_bind. rewrite Hgen. reflexivity.
Qed.

(** C9, amended.  While approval is awaited, [query] returns the dictionary
    with the keys [question], [sql], [requires_approval: True],
    [was_successful: None], [execution_time: 0], [similar_queries] and
    [awaiting_approval: True], and no other key: it carries no [approved]
    key. *)
Theorem awaiting_approval_response question store_results w sql similar w1 :
  generate_sql E question w = (Returned (sql, similar), w1) ->
  exists response,
    query E question store_results true false w = (Returned response, w1) /\
    response = list_to_map
                 [("question", VStr question);
                  ("sql", VStr sql);
                  ("requires_approval", VBool true);
                  ("was_successful", VNone);
                  ("execution_time", VNum (Int 0));
                  ("similar_queries", VSimilar similar);
                  ("awaiting_approval", VBool true)] /\
    response !! "approved" = None /\
    response !! "awaiting_approval" = Some (VBool true) /\
    size response = 7%nat.
Proof.
  intros Hgen. exists (awaiting_response question sql similar).
  split; [apply query_awaiting; exact Hgen |].
  split; [reflexivity |].
  unfold awaiting_response. repeat split; vm_compute; reflexivity.
Qed.

(** *** Failures of Transition 1 *)

Lemma query_generation_raised question store_results require_approval approved w e w1 :
  generate_sql E question w = (Raised e, w1) ->
  query E question store_results require_approval approved w = (Raised e, w1).
Proof.
  intros Hgen. unfold query, mbind, M_bind. rewrite Hgen. reflexivity.
Qed.

Lemma encode_run question w :
  encode E question w =
    let t := CallEncode question :: trace w in
    (match model_encode E t question with
     | inl msg => Raised {| origin := Embedder; str := msg |}
     | inr embedding => Returned embedding
     end, {| collection := collection w; trace := t |}).
Proof.
  unfold encode, mbind, M_bind, emit, perform. simpl.
  destruct (model_encode E _ question); reflexivity.
Qed.

Lemma find_similar_queries_embedder_raised question top_k w msg :
  embedder_raises E question w msg ->
  find_similar_queries E question top_k w
  = (Raised {| origin := Embedder; str := msg |},
     {| collection := collection w; trace := CallEncode question :: trace w |}).
Proof.
  unfold embedder_raises. intros Henc.
  unfold find_similar_queries, mbind at 1, M_bind at 1.
  rewrite encode_run. simpl. rewrite Henc. reflexivity.
Qed.

(** C8.  When the generator raises, or when the embedding step of the
    retrieval raises, [query] does not catch it: the same exception reaches
    the caller of [query], no response is returned, the collection is left
    as it was, and neither [store_query_pair] nor [replace_one] has been
    called. *)
Theorem generation_failure_propagates question store_results require_approval
    approved w msg e :
  generator_raises E question w msg /\ e = {| origin := Generator; str := msg |}
  \/ embedder_raises E question w msg /\ e = {| origin := Embedder; str := msg |} ->
  exists w',
    query E question store_results require_approval approved w = (Raised e, w') /\
    collection w' = collection w /\
    exists evs,
      trace w' = evs ++ trace w /\
      count_calls is_store_query_pair evs = 0%nat /\
      count_calls is_replace_one evs = 0%nat /\
      count_calls is_execute_query evs = 0%nat.
Proof.
  intros Hfail.
  assert (exists w', generate_sql E question w = (Raised e, w')) as [w' Hgen].
  { destruct Hfail as [[(similar & w1 & Hfind & Hsimilar & Hvn) ->] | [Henc ->]].
    - eexists. rewrite (generate_sql_after_retrieval _ _ _ _ Hfind Hsimilar). simpl.
      rewrite Hvn. reflexivity.
    - eexists. apply generate_sql_retrieval_raised.
      apply find_similar_queries_embedder_raised. exact Henc. }
  exists w'. split; [apply query_generation_raised; exact Hgen |].
  destruct (generate_sql_reads _ _ _ _ Hgen) as [Hcoll (evs & Htrace & Hevs)].
  split; [symmetry; exact Hcoll |].
  exists evs. split; [exact Htrace |].
  repeat split; apply count_calls_none;
    (eapply Forall_impl; [exact Hevs |]); intros []; simpl; congruence.
Qed.

(** *** Transition 3: execution *)

Lemma execute_query_reads sql :
  reads (fun ev => is_executing ev = true) (execute_query E sql).
Proof. unfold execute_query. reads_steps. Qed.

Lemma attempt_reads sql :
  reads (fun ev => is_executing ev = true) (attempt E sql).
Proof.
  unfold attempt. apply reads_try_except.
  - apply reads_bind; [apply execute_query_reads |].
    intros [results execution_time]. unfold results_to_dataframe. reads_steps.
  - reads_steps.
Qed.

(** The [try] block of [query] catches whatever is raised inside it. *)
Lemma attempt_returns sql w : exists v, (attempt E sql w).1 = Returned v.
Proof.
  unfold attempt, try_except.
  match goal with |- context [match ?run with _ => _ end] =>
    destruct run as [[v | e] w'] end; eexists; reflexivity.
Qed.

Lemma attempt_execute_raised sql w e w1 :
  execute_query E sql w = (Raised e, w1) ->
  attempt E sql w = (Returned (false, Some (str e), Int 0, VNone, None), w1).
Proof.
  intros Hexec. unfold attempt, try_except, mbind, M_bind. rewrite Hexec.
  reflexivity.
Qed.

(** *** Transition 4: storage *)

Lemma replace_one_run id document w :
  replace_one E id document w =
    let t := CallReplaceOne id document :: trace w in
    match replace_fault E t with
    | Some msg =>
        (Raised {| origin := Store; str := msg |},
         {| collection := collection w; trace := t |})
    | None =>
        (Returned tt,
         {| collection := replace_upsert id document (collection w); trace := t |})
    end.
Proof.
  unfold replace_one, mbind, M_bind, emit, perform, ask, set_collection. simpl.
  destruct (replace_fault E _); reflexivity.
Qed.

(** The four ways [store_query_pair] can go: the embedder raises, the
    question cannot be encoded, the store raises, or the document is
    written. *)
Lemma store_query_pair_run question sql execution_time was_successful result_preview w :
  store_query_pair E question sql execution_time was_successful result_preview w =
    let t1 := CallEncode question
              :: CallStoreQueryPair question sql execution_time was_successful
                   result_preview
              :: trace w in
    match model_encode E t1 question with
    | inl msg =>
        (Raised {| origin := Embedder; str := msg |},
         {| collection := collection w; trace := t1 |})
    | inr embedding =>
        match Py.encode_error question with
        | Some msg =>
            (Raised {| origin := Interpreter; str := msg |},
             {| collection := collection w; trace := t1 |})
        | None =>
            let document :=
              new_document question sql execution_time was_successful result_preview
                embedding (datetime_now E t1) in
            let t2 := CallReplaceOne (Hashlib.md5_hexdigest question) document :: t1 in
            match replace_fault E t2 with
            | Some msg =>
                (Raised {| origin := Store; str := msg |},
                 {| collection := collection w; trace := t2 |})
            | None =>
                (Returned tt,
                 {| collection :=
                      replace_upsert (Hashlib.md5_hexdigest question) document
                        (collection w);
                    trace := t2 |})
            end
        end
    end.
Proof.
  unfold store_query_pair. unfold mbind at 1, M_bind at 1, emit.
  unfold mbind at 1, M_bind at 1. rewrite encode_run. simpl.
  destruct (model_encode E _ question) as [msg | embedding]; [reflexivity |].
  unfold mbind at 1, M_bind at 1, perform.
  destruct (Py.encode_error question) as [msg |]; [reflexivity |].
  unfold mbind, M_bind, ask. rewrite replace_one_run. simpl.
  destruct (replace_fault E _); reflexivity.
Qed.

(** [store_query_pair] logs its own call first, and then calls only the
    embedder and [replace_one]. *)
Lemma store_query_pair_trace question sql execution_time was_successful
    result_preview w :
  exists evs,
    trace (store_query_pair E question sql execution_time was_successful
             result_preview w).2
    = evs ++ CallStoreQueryPair question sql execution_time was_successful
               result_preview :: trace w /\
    Forall (fun ev => is_storing ev = true /\ is_store_query_pair ev = false) evs.
Proof.
  rewrite store_query_pair_run. simpl.
  destruct (model_encode E _ question) as [msg | embedding]; simpl.
  - exists [CallEncode question]. split; [reflexivity |]. repeat constructor.
  - destruct (Py.encode_error question) as [msg |]; simpl.
    + exists [CallEncode question]. split; [reflexivity |]. repeat constructor.
    + destruct (replace_fault E _); simpl;
        (eexists [CallReplaceOne _ _; CallEncode question];
         split; [reflexivity | repeat constructor]).
Qed.

(** *** The failure branch of [query] *)

(** After a failed execution, [query] stores the failure and answers only
    if the store call returns. *)
Lemma query_execution_failed question require_approval approved w sql similar
    w1 e w2 :
  generate_sql E question w = (Returned (sql, similar), w1) ->
  require_approval && negb approved = false ->
  execute_query E sql w1 = (Raised e, w2) ->
  query E question true require_approval approved w =
    match store_query_pair E question sql (Int 0) false None w2 with
    | (Returned _, w3) =>
        (Returned
           (<["error_message" := VStr (str e)]>
              (base_response question sql false (Int 0) similar
                 require_approval approved)), w3)
    | (Raised e', w3) => (Raised e', w3)
    end.
Proof.
  intros Hgen Hgate Hexec. unfold query, mbind, M_bind.
  rewrite Hgen, Hgate, (attempt_execute_raised _ _ _ _ Hexec).
  destruct (store_query_pair E question sql (Int 0) false None w2) as [[[] | e'] w3];
    reflexivity.
Qed.

(** C2.  In [query], a store call that raises after a failed execution is
    not caught: its exception reaches the caller of [query], and no
    response, hence no word of the failed query, is returned. *)
Theorem store_failure_escapes_query question require_approval approved
    w sql similar w1 e w2 e' w3 :
  generate_sql E question w = (Returned (sql, similar), w1) ->
  require_approval && negb approved = false ->
  execute_query E sql w1 = (Raised e, w2) ->
  store_query_pair E question sql (Int 0) false None w2 = (Raised e', w3) ->
  query E question true require_approval approved w = (Raised e', w3).
Proof.
  intros Hgen Hgate Hexec Hstore.
  rewrite (query_execution_failed _ _ _ _ _ _ _ _ _ Hgen Hgate Hexec), Hstore.
  reflexivity.
Qed.

(** The endpoint [store_question_sql_pair] does catch it: the store's
    message is appended to the message of the failed query, and the
    response is returned. *)
Lemma endpoint_reports_store_failure question sql w e w1 e' w2 :
  execute_query E sql w = (Raised e, w1) ->
  store_query_pair E question sql (Int 0) false None w1 = (Raised e', w2) ->
  exists response error_message,
    store_question_sql_pair E question sql true w = (Returned response, w2) /\
    error_message
    = str e +:+ " (Additionally, failed to store query: " +:+ str e' +:+ ")" /\
    response !! "was_successful" = Some (VBool false) /\
    response !! "error_message" = Some (VStr error_message).
Proof.
  intros Hexec Hstore. eexists _, _.
  unfold store_question_sql_pair, try_except, mbind, M_bind.
  rewrite Hexec. simpl. rewrite Hstore. simpl.
  split; [reflexivity |]. split; [reflexivity |].
  split; vm_compute; reflexivity.
Qed.

(** C3.  When generation has returned, the gate is open, [execute_query]
    raises [e] and [store_results] is true, [query] calls [store_query_pair]
    exactly once, with [was_successful=False], [execution_time=0] and no
    [result_preview].  The response with [was_successful: False],
    [execution_time: 0] and [error_message: str(e)], without [results] and
    without [result_preview], is returned when that store call returns, the
    document written being the failed one.  When the store call raises, its
    exception leaves [query] and the failed execution is not reported,
    whereas the endpoint [store_question_sql_pair], called where [query]
    has come to execute, reports both failures. *)
Theorem execution_failure_stored_then_reported question require_approval approved
    w sql similar w1 e w2 :
  generate_sql E question w = (Returned (sql, similar), w1) ->
  require_approval && negb approved = false ->
  execute_query E sql w1 = (Raised e, w2) ->
  let stored := store_query_pair E question sql (Int 0) false None w2 in
  let response : gmap string Value :=
    list_to_map
      [("error_message", VStr (str e));
       ("question", VStr question);
       ("sql", VStr sql);
       ("was_successful", VBool false);
       ("execution_time", VNum (Int 0));
       ("similar_queries", VSimilar similar);
       ("requires_approval", VBool require_approval);
       ("approved", VBool approved)] in
  (exists evs,
     trace (query E question true require_approval approved w).2 = evs ++ trace w /\
     count_calls is_store_query_pair evs = 1%nat /\
     CallStoreQueryPair question sql (Int 0) false None ∈ evs) /\
  response !! "results" = None /\
  response !! "result_preview" = None /\
  match stored.1 with
  | Returned _ =>
      query E question true require_approval approved w = (Returned response, stored.2) /\
      exists document,
        collection stored.2
        = replace_upsert (Hashlib.md5_hexdigest question) document (collection w) /\
        doc_question document = question /\
        doc_sql document = sql /\
        doc_was_successful document = false /\
        doc_execution_time document = Int 0 /\
        doc_result_preview document = None
  | Raised e' =>
      query E question true require_approval approved w = (Raised e', stored.2) /\
      collection stored.2 = collection w /\
      exists answer,
        store_question_sql_pair E question sql true w1 = (Returned answer, stored.2) /\
        answer !! "was_successful" = Some (VBool false) /\
        answer !! "error_message"
        = Some (VStr (str e +:+ " (Additionally, failed to store query: "
                      +:+ str e' +:+ ")"))
  end.
Proof.
  intros Hgen Hgate Hexec stored response.
  pose proof (query_execution_failed _ _ _ _ _ _ _ _ _ Hgen Hgate Hexec) as Hquery.
  destruct (generate_sql_reads _ _ _ _ Hgen) as [Hc1 (evs1 & Ht1 & Hevs1)].
  destruct (execute_query_reads _ _ _ _ Hexec) as [Hc2 (evs2 & Ht2 & Hevs2)].
  destruct (store_query_pair_trace question sql (Int 0) false None w2)
    as (evs3 & Ht3 & Hevs3).
  fold stored in Ht3. split; [| split; [| split]].
  - exists (evs3 ++ CallStoreQueryPair question sql (Int 0) false None :: evs2 ++ evs1).
    split; [| split].
    + replace (trace (query E question true require_approval approved w).2)
        with (trace stored.2).
      * rewrite Ht3, Ht2, Ht1. rewrite <- !app_assoc. simpl.
        rewrite <- !app_assoc. reflexivity.
      * rewrite Hquery. fold stored. destruct stored as [[[] | e'] w3]; reflexivity.
    + rewrite count_calls_app. change (?x :: ?l ++ ?l') with ([x] ++ l ++ l').
      rewrite !count_calls_app.
      rewrite (count_calls_none is_store_query_pair evs3),
              (count_calls_none is_store_query_pair evs2),
              (count_calls_none is_store_query_pair evs1); [reflexivity | | |].
      * eapply Forall_impl; [exact Hevs1 |]. intros []; simpl; congruence.
      * eapply Forall_impl; [exact Hevs2 |]. intros []; simpl; congruence.
      * eapply Forall_impl; [exact Hevs3 |]. intros ev [_ Hev]. exact Hev.
    + apply list_elem_of_In, in_or_app. right. left. reflexivity.
  - vm_compute. reflexivity.
  - vm_compute. reflexivity.
  - destruct stored as [[[] | e'] w3] eqn:Hstored; cbn [fst snd].
    + split; [rewrite Hquery; fold stored; rewrite Hstored; reflexivity |].
      subst stored. rewrite store_query_pair_run in Hstored. cbn zeta in Hstored.
      destruct (model_encode E _ question) as [msg | embedding]; [discriminate |].
      destruct (Py.encode_error question); [discriminate |].
      destruct (replace_fault E _); [discriminate |].
      inversion Hstored; subst. eexists.
      split; [simpl; rewrite Hc1, Hc2; reflexivity |]. repeat split.
    + split; [rewrite Hquery; fold stored; rewrite Hstored; reflexivity |].
      split.
      { subst stored. rewrite store_query_pair_run in Hstored. cbn zeta in Hstored.
        destruct (model_encode E _ question); [inversion Hstored; subst; simpl; congruence |].
        destruct (Py.encode_error question); [inversion Hstored; subst; simpl; congruence |].
        destruct (replace_fault E _); inversion Hstored; subst; simpl; congruence. }
      destruct (endpoint_reports_store_failure _ _ _ _ _ _ _ Hexec Hstored)
        as (answer & message & Hanswer & -> & Hfailed & Hmessage).
      exists answer. repeat split; assumption.
Qed.

(** *** One generator call per call to [query] *)

Lemma generate_sql_returned question w sql similar w1 :
  generate_sql E question w = (Returned (sql, similar), w1) ->
  exists evs,
    trace w1
    = CallVannaGenerateSql question (examples_argument similar) true
        :: evs ++ trace w /\
    Forall (fun ev => is_retrieval ev = true) evs /\
    vn_generate_sql E (trace w1) question (examples_argument similar) true = inr sql.
Proof.
  intros Hgen.
  destruct (find_similar_queries E question 3 w) as [[found | e] w0] eqn:Hfind.
  - destruct (decide (Forall complete found)) as [Hfound | Hfound].
    2: { destruct (generate_sql_incomplete _ _ _ _ Hfind Hfound) as (key & _ & Hraised).
         rewrite Hraised in Hgen. discriminate. }
    destruct (find_similar_queries_reads _ _ _ _ _ Hfind) as [_ (evs & Ht & Hevs)].
    rewrite (generate_sql_after_retrieval _ _ _ _ Hfind Hfound) in Hgen. simpl in Hgen.
    destruct (vn_generate_sql E _ question _ true) as [msg | sql'] eqn:Hvn;
      [discriminate |].
    inversion Hgen; subst. simpl. exists evs.
    split; [rewrite Ht; reflexivity |]. split; [exact Hevs | exact Hvn].
  - rewrite (generate_sql_retrieval_raised _ _ _ _ Hfind) in Hgen. discriminate.
Qed.

(** A call to [query] that returns has generated its SQL itself, and has
    not called the generator again afterwards. *)
Lemma query_returned question store_results require_approval approved w response w' :
  query E question store_results require_approval approved w = (Returned response, w') ->
  exists sql similar w1 evs,
    generate_sql E question w = (Returned (sql, similar), w1) /\
    response !! "sql" = Some (VStr sql) /\
    trace w' = evs ++ trace w1 /\
    Forall (fun ev => is_generate ev = false) evs.
Proof.
  intros Hq. unfold query in Hq. unfold mbind at 1, M_bind at 1 in Hq.
  destruct (generate_sql E question w) as [[[sql similar] | e] w1]; [| discriminate].
  exists sql, similar, w1.
  destruct (require_approval && negb approved).
  { inversion Hq; subst. exists []. repeat split; constructor. }
  unfold mbind at 1, M_bind at 1 in Hq.
  destruct (attempt E sql w1) as [[[[[[ws em] et] df] rp] | e] w2] eqn:Hatt;
    [| discriminate].
  destruct (attempt_reads _ _ _ _ Hatt) as [_ (evs2 & Ht2 & Hevs2)].
  assert (Forall (fun ev => is_generate ev = false) evs2) as Hgen2.
  { eapply Forall_impl; [exact Hevs2 |]. intros []; simpl; congruence. }
  unfold mbind, M_bind in Hq. destruct store_results.
  - pose proof (store_query_pair_trace question sql et ws rp w2) as (evs3 & Ht3 & Hevs3).
    destruct (store_query_pair E question sql et ws rp w2) as [[[] | e] w3];
      [| discriminate].
    inversion Hq; subst. simpl in Ht3.
    exists (evs3 ++ CallStoreQueryPair question sql et ws rp :: evs2).
    split; [reflexivity |]. split; [destruct ws; vm_compute; reflexivity |].
    split; [rewrite Ht3, Ht2, <- app_assoc; reflexivity |].
    apply Forall_app. split.
    + eapply Forall_impl; [exact Hevs3 |]. intros [] [Hev _]; simpl in *; congruence.
    + constructor; [reflexivity | exact Hgen2].
  - inversion Hq; subst. exists evs2.
    split; [reflexivity |]. split; [destruct ws; vm_compute; reflexivity |].
    split; [exact Ht2 | exact Hgen2].
Qed.

Lemma query_returned_generates_once question store_results require_approval approved
    w response w' :
  query E question store_results require_approval approved w = (Returned response, w') ->
  exists evs sql t examples,
    trace w' = evs ++ trace w /\
    count_calls is_generate evs = 1%nat /\
    CallVannaGenerateSql question examples true ∈ evs /\
    (exists before, t = before ++ trace w /\ before <> []) /\
    vn_generate_sql E t question examples true = inr sql /\
    response !! "sql" = Some (VStr sql).
Proof.
  intros Hq.
  destruct (query_returned _ _ _ _ _ _ _ Hq)
    as (sql & similar & w1 & evs2 & Hgen & Hsql & Ht2 & Hevs2).
  destruct (generate_sql_returned _ _ _ _ _ Hgen) as (evs1 & Ht1 & Hevs1 & Hvn).
  set (call := CallVannaGenerateSql question (examples_argument similar) true) in *.
  exists (evs2 ++ call :: evs1), sql, (trace w1), (examples_argument similar).
  split; [rewrite Ht2, Ht1, <- app_assoc; reflexivity |].
  split; [| split; [| split; [| split]]].
  - change (call :: evs1) with ([call] ++ evs1). rewrite !count_calls_app.
    rewrite (count_calls_none is_generate evs2 Hevs2).
    rewrite (count_calls_none is_generate evs1); [reflexivity |].
    eapply Forall_impl; [exact Hevs1 |]. intros []; simpl; congruence.
  - apply list_elem_of_In, in_or_app. right. left. reflexivity.
  - exists (call :: evs1). split; [exact Ht1 | discriminate].
  - exact Hvn.
  - exact Hsql.
Qed.

(** C7.  When [query] is called for a preview ([require_approval=True],
    [approved=False]) and then again with [approved=True], and both calls
    return, the generator has been called exactly twice, once in each call;
    the SQL of the second response is what the generator answered during
    the second call, not the SQL of the preview. *)
Theorem approval_gate_regenerates question store_results1 store_results2
    w0 preview w1 response w2 :
  query E question store_results1 true false w0 = (Returned preview, w1) ->
  query E question store_results2 true true w1 = (Returned response, w2) ->
  exists evs1 evs2 sql2 t2 examples2,
    trace w1 = evs1 ++ trace w0 /\
    trace w2 = evs2 ++ trace w1 /\
    count_calls is_generate evs1 = 1%nat /\
    count_calls is_generate evs2 = 1%nat /\
    count_calls is_generate (evs2 ++ evs1) = 2%nat /\
    CallVannaGenerateSql question examples2 true ∈ evs2 /\
    (exists before, t2 = before ++ trace w1 /\ before <> []) /\
    vn_generate_sql E t2 question examples2 true = inr sql2 /\
    response !! "sql" = Some (VStr sql2).
Proof.
  intros Hfirst Hsecond.
  destruct (query_returned_generates_once _ _ _ _ _ _ _ Hfirst)
    as (evs1 & _ & _ & _ & Ht1 & Hn1 & _).
  destruct (query_returned_generates_once _ _ _ _ _ _ _ Hsecond)
    as (evs2 & sql2 & t2 & examples2 & Ht2 & Hn2 & Hin & Hafter & Hvn & Hsql).
  exists evs1, evs2, sql2, t2, examples2.
  repeat (split; [assumption |]).
  split; [rewrite count_calls_app, Hn1, Hn2; reflexivity |].
  repeat (split; [assumption |]). exact Hsql.
Qed.

(** *** The content-addressed upsert *)

Lemma filter_id_absent id (coll : list Stored) :
  id ∉ st_id <$> coll -> filter (fun d => st_id d = id) coll = [].
Proof.
  induction coll as [| d coll IH]; intros Hid; [reflexivity |].
  rewrite fmap_cons, not_elem_of_cons in Hid. destruct Hid as [Hne Hid].
  rewrite filter_cons_False; [auto | congruence].
Qed.

Lemma replace_upsert_ids id document coll :
  doc_id document = id ->
  st_id <$> replace_upsert id document coll
  = if decide (IdStr id ∈ st_id <$> coll) then st_id <$> coll
    else (st_id <$> coll) ++ [IdStr id].
Proof.
  intros Hid. induction coll as [| d coll IH].
  - simpl. rewrite Hid. reflexivity.
  - cbn [replace_upsert]. case_bool_decide as Heq; rewrite !fmap_cons.
    + cbn [as_stored st_id]. rewrite Hid, Heq.
      rewrite decide_True; [reflexivity | apply list_elem_of_here].
    + rewrite IH. destruct (decide (IdStr id ∈ st_id <$> coll)) as [Hin | Hout].
      * rewrite decide_True; [reflexivity | apply list_elem_of_further; exact Hin].
      * rewrite decide_False; [reflexivity |].
        rewrite not_elem_of_cons. split; [congruence | exact Hout].
Qed.

Lemma replace_upsert_present id document coll :
  doc_id document = id -> IdStr id ∈ st_id <$> replace_upsert id document coll.
Proof.
  intros Hid. rewrite (replace_upsert_ids _ _ _ Hid).
  destruct (decide (IdStr id ∈ st_id <$> coll)); [assumption |].
  apply elem_of_app. right. apply list_elem_of_here.
Qed.

Lemma replace_upsert_NoDup id document coll :
  doc_id document = id ->
  NoDup (st_id <$> coll) -> NoDup (st_id <$> replace_upsert id document coll).
Proof.
  intros Hid Hnd. rewrite (replace_upsert_ids _ _ _ Hid).
  destruct (decide (IdStr id ∈ st_id <$> coll)) as [Hin | Hout]; [exact Hnd |].
  apply NoDup_app. split; [exact Hnd |]. split; [| apply NoDup_singleton].
  intros x Hx Hx'. apply list_elem_of_singleton in Hx'. congruence.
Qed.

Lemma replace_upsert_length id document coll :
  IdStr id ∈ st_id <$> coll ->
  length (replace_upsert id document coll) = length coll.
Proof.
  induction coll as [| d coll IH]; simpl; intros Hin.
  - apply elem_of_nil in Hin. contradiction.
  - case_bool_decide as Heq; simpl; [reflexivity |].
    f_equal. apply IH. apply elem_of_cons in Hin.
      destruct Hin as [Heq' | Hin]; [congruence | exact Hin].
Qed.

(** After the upsert exactly one document carries the id: the new one. *)
Lemma replace_upsert_one id document coll :
  doc_id document = id ->
  NoDup (st_id <$> coll) ->
  filter (fun d => st_id d = IdStr id) (replace_upsert id document coll)
  = [as_stored document].
Proof.
  intros Hid. assert (st_id (as_stored document) = IdStr id) as Hid'.
  { cbn [as_stored st_id]. rewrite Hid. reflexivity. }
  induction coll as [| d coll IH]; simpl; intros Hnd.
  - rewrite filter_cons_True by exact Hid'. reflexivity.
  - rewrite NoDup_cons in Hnd. destruct Hnd as [Hd Hnd].
    case_bool_decide as Heq.
    + rewrite filter_cons_True by exact Hid'.
      rewrite filter_id_absent; [reflexivity | rewrite <- Heq; exact Hd].
    + rewrite filter_cons_False by exact Heq. apply IH. exact Hnd.
Qed.

(** The documents of the other ids stay as and where they were. *)
Lemma replace_upsert_others id document coll :
  doc_id document = id ->
  filter (fun d => st_id d <> IdStr id) (replace_upsert id document coll)
  = filter (fun d => st_id d <> IdStr id) coll.
Proof.
  intros Hid. assert (st_id (as_stored document) = IdStr id) as Hid'.
  { cbn [as_stored st_id]. rewrite Hid. reflexivity. }
  induction coll as [| d coll IH]; simpl.
  - rewrite filter_cons_False; [reflexivity | intros Hne; exact (Hne Hid')].
  - case_bool_decide as Heq.
    + rewrite !filter_cons_False; [reflexivity | | ]; intros Hne; congruence.
    + rewrite !filter_cons_True by exact Heq. rewrite IH. reflexivity.
Qed.

Lemma replace_upsert_Forall (P : Stored -> Prop) id document coll :
  P (as_stored document) -> Forall P coll -> Forall P (replace_upsert id document coll).
Proof.
  intros Hdoc. induction 1 as [| d coll Hd Hcoll IH]; simpl.
  - repeat constructor. exact Hdoc.
  - case_bool_decide; constructor; assumption.
Qed.

Lemma filter_within (P Q : Stored -> Prop)
    `{!forall d, Decision (P d), !forall d, Decision (Q d)} (coll : list Stored) :
  Forall (fun d => P d -> Q d) coll ->
  filter P coll = filter P (filter Q coll).
Proof.
  induction 1 as [| d coll Hd _ IH]; [reflexivity |].
  destruct (decide (P d)) as [HP | HP].
  - rewrite (filter_cons_True Q) by auto. rewrite !filter_cons_True by exact HP.
    rewrite IH. reflexivity.
  - rewrite (filter_cons_False P) by exact HP.
    destruct (decide (Q d)) as [HQ | HQ].
    + rewrite (filter_cons_True Q) by exact HQ.
      rewrite filter_cons_False by exact HP. exact IH.
    + rewrite (filter_cons_False Q) by exact HQ. exact IH.
Qed.

(** A call to [store_query_pair] that returns has written its document
    under the hash of the question. *)
Lemma store_query_pair_returned question sql execution_time was_successful
    result_preview w w' :
  store_query_pair E question sql execution_time was_successful result_preview w
  = (Returned tt, w') ->
  exists embedding now,
    let document :=
      new_document question sql execution_time was_successful result_preview
        embedding now in
    collection w'
    = replace_upsert (Hashlib.md5_hexdigest question) document (collection w) /\
    trace w' !! 0%nat = Some (CallReplaceOne (Hashlib.md5_hexdigest question) document).
Proof.
  rewrite store_query_pair_run. simpl. intros Hrun.
  destruct (model_encode E _ question) as [msg | embedding]; [discriminate |].
  destruct (Py.encode_error question); [discriminate |].
  destruct (replace_fault E _); [discriminate |].
  inversion Hrun; subst. simpl. eexists _, _. split; reflexivity.
Qed.

(** ... with the embedding and the time that the collaborators gave during
    the call. *)
Lemma store_query_pair_written question sql execution_time was_successful
    result_preview w w' :
  store_query_pair E question sql execution_time was_successful result_preview w
  = (Returned tt, w') ->
  let t := CallEncode question
           :: CallStoreQueryPair question sql execution_time was_successful
                result_preview
           :: trace w in
  exists embedding,
    let document :=
      new_document question sql execution_time was_successful result_preview
        embedding (datetime_now E t) in
    model_encode E t question = inr embedding /\
    collection w'
    = replace_upsert (Hashlib.md5_hexdigest question) document (collection w) /\
    trace w' = CallReplaceOne (Hashlib.md5_hexdigest question) document :: t.
Proof.
  rewrite store_query_pair_run. cbn zeta. intros Hrun.
  destruct (model_encode E _ question) as [msg | embedding]; [discriminate |].
  destruct (Py.encode_error question); [discriminate |].
  destruct (replace_fault E _); [discriminate |].
  inversion Hrun; subst. simpl. exists embedding. repeat split.
Qed.

Lemma encode_bytes s :
  Hashlib.encode s = (fun c => Z.of_N (N_of_ascii c)) <$> list_ascii_of_string s.
Proof. induction s as [| c s IH]; [reflexivity |]. simpl. rewrite IH. reflexivity. Qed.

(** C5.  The id under which [store_query_pair] writes is the MD5 of the
    bytes of the question text as it is given, nothing in it being changed
    or left out (so that a change of case or of a space gives another id),
    the same in every call and every world.  When the collection holds no
    two documents of one id and [store_query_pair] is called twice with the
    question [Q], both calls returning, both calls write under that one id;
    afterwards exactly one document carries it, and its fields are those of
    the second call, every one of them: the question, the SQL, the
    execution time, the outcome and the preview that were passed (an empty
    preview being left out), with the embedding and the time of the second
    call.  The collection has not grown with the second call, and the
    documents of the other ids are untouched.  When every document was
    stored under the hash of its question, that document is also the only
    one whose question is [Q]. *)
Theorem upsert_is_idempotent_on_question Q
    sql1 execution_time1 was_successful1 result_preview1
    sql2 execution_time2 was_successful2 result_preview2 w w1 w2 :
  NoDup (st_id <$> collection w) ->
  store_query_pair E Q sql1 execution_time1 was_successful1 result_preview1 w
  = (Returned tt, w1) ->
  store_query_pair E Q sql2 execution_time2 was_successful2 result_preview2 w1
  = (Returned tt, w2) ->
  let id := Hashlib.md5_hexdigest Q in
  let t2 := CallEncode Q
            :: CallStoreQueryPair Q sql2 execution_time2 was_successful2 result_preview2
            :: trace w1 in
  id = Hashlib.hex
         (Hashlib.md5 ((fun c => Z.of_N (N_of_ascii c)) <$> list_ascii_of_string Q)) /\
  Hashlib.md5_hexdigest "List all orders" <> Hashlib.md5_hexdigest "list all orders" /\
  Hashlib.md5_hexdigest "List all orders" <> Hashlib.md5_hexdigest "List all  orders" /\
  Hashlib.md5_hexdigest "List all orders" <> Hashlib.md5_hexdigest "List all orders " /\
  exists first embedding,
    let second :=
      {| doc_id := id;
         doc_question := Q;
         doc_sql := sql2;
         doc_embedding := embedding;
         doc_execution_time := execution_time2;
         doc_was_successful := was_successful2;
         doc_timestamp := datetime_now E t2;
         doc_result_preview := match result_preview2 with
                               | Some "" => None
                               | _ => result_preview2
                               end |} in
    model_encode E t2 Q = inr embedding /\
    trace w1 !! 0%nat = Some (CallReplaceOne id first) /\
    trace w2 !! 0%nat = Some (CallReplaceOne id second) /\
    doc_id first = id /\
    filter (fun d => st_id d = IdStr id) (collection w2) = [as_stored second] /\
    length (collection w2) = length (collection w1) /\
    filter (fun d => st_id d <> IdStr id) (collection w2)
    = filter (fun d => st_id d <> IdStr id) (collection w) /\
    NoDup (st_id <$> collection w2) /\
    (keyed_by_question (collection w) ->
     filter (fun d => st_question d = Some Q) (collection w2) = [as_stored second]).
Proof.
  intros Hnd Hfirst Hsecond id t2.
  destruct (store_query_pair_returned _ _ _ _ _ _ _ Hfirst)
    as (embedding1 & now1 & Hc1 & Ht1).
  destruct (store_query_pair_written _ _ _ _ _ _ _ Hsecond)
    as (embedding2 & Henc2 & Hc2 & Ht2).
  cbn zeta in Hc1, Ht1, Hc2, Ht2, Henc2. fold t2 in Henc2, Hc2, Ht2. fold id in Hc1, Ht1, Hc2, Ht2.
  set (first := new_document Q sql1 _ _ _ embedding1 now1) in *.
  assert (new_document Q sql2 execution_time2 was_successful2 result_preview2
            embedding2 (datetime_now E t2)
          = {| doc_id := id;
               doc_question := Q;
               doc_sql := sql2;
               doc_embedding := embedding2;
               doc_execution_time := execution_time2;
               doc_was_successful := was_successful2;
               doc_timestamp := datetime_now E t2;
               doc_result_preview := match result_preview2 with
                                     | Some "" => None
                                     | _ => result_preview2
                                     end |}) as Hdocument.
  { unfold new_document. fold id. f_equal.
    destruct result_preview2 as [[| c text] |]; reflexivity. }
  rewrite Hdocument in Hc2, Ht2. clear Hdocument.
  set (second := {| doc_id := id; doc_question := Q |}) in *.
  assert (doc_id first = id) as Hid1 by reflexivity.
  assert (doc_id second = id) as Hid2 by reflexivity.
  assert (NoDup (st_id <$> collection w1)) as Hnd1.
  { rewrite Hc1. apply replace_upsert_NoDup; assumption. }
  assert (filter (fun d => st_id d = IdStr id) (collection w2) = [as_stored second])
    as Hone.
  { rewrite Hc2. apply replace_upsert_one; assumption. }
  split; [unfold id, Hashlib.md5_hexdigest; rewrite encode_bytes; reflexivity |].
  do 3 (split; [vm_compute; congruence |]).
  exists first, embedding2. cbn zeta. fold second.
  split; [exact Henc2 |]. split; [exact Ht1 |]. split; [rewrite Ht2; reflexivity |].
  split; [exact Hid1 |]. split; [exact Hone |].
  split; [rewrite Hc2; apply replace_upsert_length; rewrite Hc1;
          apply replace_upsert_present; exact Hid1 |].
  split; [rewrite Hc2, Hc1, !replace_upsert_others by assumption; reflexivity |].
  split; [rewrite Hc2; apply replace_upsert_NoDup; assumption |].
  intros [_ Hwf].
  assert (Forall
            (fun d =>
               exists question,
                 st_question d = Some question /\
                 st_id d = IdStr (Hashlib.md5_hexdigest question))
            (collection w2)) as Hwf2.
  { rewrite Hc2, Hc1. repeat apply replace_upsert_Forall; try (exists Q; split; reflexivity).
    exact Hwf. }
  transitivity (filter (fun d => st_question d = Some Q)
                  (filter (fun d => st_id d = IdStr id) (collection w2))).
  - apply filter_within. eapply Forall_impl; [exact Hwf2 |].
    intros d (question & Hquestion & Hd) HQ. simpl in *. unfold id.
    rewrite Hd. congruence.
  - rewrite Hone. rewrite filter_cons_True by reflexivity. reflexivity.
Qed.

(** *** Retrieval *)

Lemma _vector_search_run embedding top_k w :
  _vector_search E embedding top_k w =
    let t := CallAggregate embedding (top_k * 10) top_k :: trace w in
    (Returned
       match aggregate E t (collection w) embedding (top_k * 10) top_k with
       | inl _ => []
       | inr similar_queries => similar_queries
       end, {| collection := collection w; trace := t |}).
Proof.
  unfold _vector_search, try_except, mbind, M_bind, emit, perform. simpl.
  destruct (aggregate E _ (collection w) embedding (top_k * 10) top_k); reflexivity.
Qed.


(** The three ways [find_similar_queries] can go: the embedder raises, the
    vector search finds something, or the keyword search takes over. *)
Lemma find_similar_queries_run question top_k w :
  find_similar_queries E question top_k w =
    let t1 := CallEncode question :: trace w in
    match model_encode E t1 question with
    | inl msg =>
        (Raised {| origin := Embedder; str := msg |},
         {| collection := collection w; trace := t1 |})
    | inr embedding =>
        let t2 := CallAggregate embedding (top_k * 10) top_k :: t1 in
        match aggregate E t2 (collection w) embedding (top_k * 10) top_k with
        | inr (first :: others) =>
            (Returned (first :: others), {| collection := collection w; trace := t2 |})
        | _ => _text_search E question top_k {| collection := collection w; trace := t2 |}
        end
    end.
Proof.
  unfold find_similar_queries. unfold mbind at 1, M_bind at 1.
  rewrite encode_run. simpl.
  destruct (model_encode E _ question) as [msg | embedding]; [reflexivity |].
  unfold mbind, M_bind, try_except. rewrite _vector_search_run. simpl.
  destruct (aggregate E _ (collection w) embedding (top_k * 10) top_k)
    as [msg | [| first others]]; reflexivity.
Qed.





End Theory.

(** ** Further properties of the pipeline and of what stands around it *)

Section Pipeline.

Context `{Carriers} (E : Env).

(** *** Where exceptions come from *)

Lemma raises_mret (P : Origin -> Prop) {A} (a : A) : raises P (mret a).
Proof. intros w e w' Hrun. discriminate. Qed.

Lemma raises_ask (P : Origin -> Prop) {A} (f : World -> A) : raises P (ask f).
Proof. intros w e w' Hrun. discriminate. Qed.

Lemma raises_emit (P : Origin -> Prop) ev : raises P (emit ev).
Proof. intros w e w' Hrun. discriminate. Qed.

Lemma raises_perform (P : Origin -> Prop) {A} o (f : World -> string + A) :
  P o -> raises P (perform o f).
Proof.
  intros Ho w e w' Hrun. unfold perform in Hrun.
  destruct (f w); inversion Hrun; subst; exact Ho.
Qed.

Lemma raises_bind (P : Origin -> Prop) {A B} (m : M A) (k : A -> M B) :
  raises P m -> (forall a, raises P (k a)) -> raises P (m ≫= k).
Proof.
  intros Hm Hk w e w' Hrun. unfold mbind, M_bind in Hrun.
  destruct (m w) as [[a | e1] w1] eqn:Hmw.
  - exact (Hk a _ _ _ Hrun).
  - inversion Hrun; subst. exact (Hm _ _ _ Hmw).
Qed.

Lemma raises_try_except (P : Origin -> Prop) {A} (body : M A) handler :
  (forall e, raises P (handler e)) -> raises P (try_except body handler).
Proof.
  intros Hh w e w' Hrun. unfold try_except in Hrun.
  destruct (body w) as [[a | e1] w1]; [discriminate |].
  exact (Hh e1 _ _ _ Hrun).
Qed.

Lemma find_similar_queries_raises question top_k :
  raises (fun o => o = Embedder \/ o = Store) (find_similar_queries E question top_k).
Proof.
  unfold find_similar_queries, encode, _text_search, find_regex.
  apply raises_bind.
  - apply raises_bind; [apply raises_emit |]. intros _.
    apply raises_perform. left. reflexivity.
  - intros embedding. apply raises_bind.
    + apply raises_try_except. intros e. apply raises_mret.
    + intros [similar |]; [apply raises_mret |].
      apply raises_bind; [apply raises_emit |]. intros _.
      apply raises_perform. right. reflexivity.
Qed.

Lemma generate_sql_raises question :
  raises (fun o => o = Embedder \/ o = Store \/ o = Generator \/ o = Interpreter)
    (generate_sql E question).
Proof.
  unfold generate_sql. apply raises_bind.
  - intros w e w' Hrun.
    destruct (find_similar_queries_raises _ _ _ _ _ Hrun) as [-> | ->]; auto.
  - intros similar. apply raises_bind; [apply raises_perform; auto |].
    intros pairs. apply raises_bind; [| intros sql; apply raises_mret].
    unfold vanna_generate_sql.
    destruct pairs;
      (apply raises_bind; [apply raises_emit |]; intros _;
       apply raises_perform; auto).
Qed.

(** A [KeyError] that leaves [generate_sql] is that of a retrieved entry
    without a field. *)
Lemma generate_sql_key_error question w e w' :
  generate_sql E question w = (Raised e, w') ->
  origin e = Interpreter ->
  exists similar key,
    find_similar_queries E question 3 w = (Returned similar, w') /\
    ~ Forall complete similar /\
    key ∈ ["was_successful"; "question"; "sql"] /\
    str e = "'" +:+ key +:+ "'".
Proof.
  intros Hgen Horigin.
  destruct (find_similar_queries E question 3 w) as [[similar | e1] w1] eqn:Hfind.
  - destruct (decide (Forall complete similar)) as [Hsimilar | Hsimilar].
    + rewrite (generate_sql_after_retrieval E _ _ _ _ Hfind Hsimilar) in Hgen.
      cbn zeta in Hgen. destruct (vn_generate_sql E _ question _ true);
        inversion Hgen; subst. discriminate.
    + destruct (generate_sql_incomplete E _ _ _ _ Hfind Hsimilar) as (key & Hkey & Hraised).
      rewrite Hraised in Hgen. inversion Hgen; subst.
      exists similar, key. repeat split; assumption.
  - rewrite (generate_sql_retrieval_raised E _ _ _ _ Hfind) in Hgen.
    inversion Hgen; subst.
    destruct (find_similar_queries_raises _ _ _ _ _ Hfind) as [Ho | Ho]; congruence.
Qed.

Lemma store_query_pair_raises question sql execution_time was_successful result_preview :
  raises (fun o => o = Embedder \/ o = Store \/ o = Interpreter)
    (store_query_pair E question sql execution_time was_successful result_preview).
Proof.
  intros w e w' Hrun. rewrite store_query_pair_run in Hrun. simpl in Hrun.
  destruct (model_encode E _ question); [inversion Hrun; subst; auto |].
  destruct (Py.encode_error question); [inversion Hrun; subst; auto |].
  destruct (replace_fault E _); inversion Hrun; subst; auto.
Qed.

(** The exception of the interpreter that leaves [store_query_pair] is the
    [UnicodeEncodeError] of the question. *)
Lemma store_query_pair_encode_error question sql execution_time was_successful
    result_preview w e w' :
  store_query_pair E question sql execution_time was_successful result_preview w
  = (Raised e, w') ->
  origin e = Interpreter ->
  Py.encode_error question = Some (str e).
Proof.
  intros Hrun Horigin. rewrite store_query_pair_run in Hrun. simpl in Hrun.
  destruct (model_encode E _ question); [inversion Hrun; subst; discriminate |].
  destruct (Py.encode_error question); [inversion Hrun; subst; reflexivity |].
  destruct (replace_fault E _); inversion Hrun; subst; discriminate.
Qed.

(** *** The outcome of the [try] block of [query] *)

Lemma attempt_cases sql w :
  exists w',
    (exists msg,
       attempt E sql w = (Returned (false, Some msg, Int 0, VNone, None), w'))
    \/ (exists t df,
          attempt E sql w
          = (Returned (true, None, Float t, VFrame df, Some (preview E df)), w')).
Proof.
  unfold attempt, try_except, mbind, M_bind.
  destruct (execute_query E sql w) as [[[results t] | e] w1].
  - destruct (results_to_dataframe E results w1) as [[df | e] w2].
    + exists w2. right. exists t, df. reflexivity.
    + exists w2. left. exists (str e). reflexivity.
  - exists w1. left. exists (str e). reflexivity.
Qed.

(** What [query] does once the SQL is generated and the gate is open. *)
Lemma query_executed question store_results require_approval approved w sql similar w1 :
  generate_sql E question w = (Returned (sql, similar), w1) ->
  require_approval && negb approved = false ->
  exists was_successful error_message execution_time df result_preview w2,
    attempt E sql w1
    = (Returned (was_successful, error_message, execution_time, df, result_preview), w2) /\
    query E question store_results require_approval approved w =
      match (if store_results
             then store_query_pair E question sql execution_time was_successful
                    result_preview
             else mret tt) w2 with
      | (Returned _, w3) =>
          (Returned
             (let response :=
                base_response question sql was_successful execution_time similar
                  require_approval approved in
              if was_successful
              then <["result_preview" := optional_str result_preview]>
                     (<["results" := df]> response)
              else <["error_message" := optional_str error_message]> response), w3)
      | (Raised e, w3) => (Raised e, w3)
      end.
Proof.
  intros Hgen Hgate.
  destruct (attempt_cases sql w1) as (w2 & [(msg & Hatt) | (t & df & Hatt)]).
  - exists false, (Some msg), (Int 0), VNone, None, w2. split; [exact Hatt |].
    unfold query, mbind, M_bind. rewrite Hgen, Hgate, Hatt.
    destruct store_results; [| reflexivity].
    destruct (store_query_pair E question sql (Int 0) false None w2) as [[[] | e] w3];
      reflexivity.
  - exists true, None, (Float t), (VFrame df), (Some (preview E df)), w2.
    split; [exact Hatt |].
    unfold query, mbind, M_bind. rewrite Hgen, Hgate, Hatt.
    destruct store_results; [| reflexivity].
    destruct (store_query_pair E question sql (Float t) true (Some (preview E df)) w2)
      as [[[] | e] w3]; reflexivity.
Qed.

(** X7.  A response of [query] past the gate either reports a success, with
    [results], [result_preview] and the measured [execution_time] but no
    [error_message], or a failure, with [error_message] and
    [execution_time: 0] but neither [results] nor [result_preview]. *)
Theorem executed_response_reports_results_or_error question store_results
    require_approval approved w response w' :
  require_approval && negb approved = false ->
  query E question store_results require_approval approved w = (Returned response, w') ->
  response !! "awaiting_approval" = None /\
  response !! "requires_approval" = Some (VBool require_approval) /\
  response !! "approved" = Some (VBool approved) /\
  (response !! "was_successful" = Some (VBool true) /\
   (exists df,
      response !! "results" = Some (VFrame df) /\
      response !! "result_preview" = Some (VStr (preview E df))) /\
   (exists t, response !! "execution_time" = Some (VNum (Float t))) /\
   response !! "error_message" = None
   \/
   response !! "was_successful" = Some (VBool false) /\
   (exists msg, response !! "error_message" = Some (VStr msg)) /\
   response !! "execution_time" = Some (VNum (Int 0)) /\
   response !! "results" = None /\
   response !! "result_preview" = None).
Proof.
  intros Hgate Hq.
  destruct (generate_sql E question w) as [[[sql similar] | e] w1] eqn:Hgen.
  2: { unfold query, mbind, M_bind in Hq. rewrite Hgen in Hq. discriminate. }
  destruct (query_executed question store_results _ _ _ _ _ _ Hgen Hgate)
    as (ws & em & et & df & rp & w2 & Hatt & Hrun).
  rewrite Hrun in Hq. clear Hrun.
  match type of Hq with context [let (_, _) := ?run in _] =>
    destruct run as [[u | e] w3] end; [| discriminate].
  inversion Hq; subst. clear Hq.
  destruct (attempt_cases sql w1) as (w2' & [(msg & Hatt') | (t & frame & Hatt')]);
    rewrite Hatt' in Hatt; inversion Hatt; subst.
  - repeat (split; [vm_compute; reflexivity |]). right.
    split; [vm_compute; reflexivity |]. split; [exists msg; vm_compute; reflexivity |].
    repeat split; vm_compute; reflexivity.
  - repeat (split; [vm_compute; reflexivity |]). left.
    split; [vm_compute; reflexivity |].
    split; [exists frame; split; vm_compute; reflexivity |].
    split; [exists t; vm_compute; reflexivity |]. vm_compute; reflexivity.
Qed.

(** *** Calls that store nothing *)

Lemma generating_or_executing {A} (m : M A) :
  reads (fun ev => is_generating ev = true) m \/ reads (fun ev => is_executing ev = true) m ->
  reads (fun ev => is_generating ev = true \/ is_executing ev = true) m.
Proof.
  intros [Hm | Hm]; (eapply reads_weaken; [| exact Hm]); intros ev Hev; auto.
Qed.

Lemma query_without_store_reads question require_approval approved :
  reads (fun ev => is_generating ev = true \/ is_executing ev = true)
    (query E question false require_approval approved).
Proof.
  unfold query. apply reads_bind.
  - apply generating_or_executing. left. apply generate_sql_reads.
  - intros [sql similar]. destruct (require_approval && negb approved).
    + apply reads_mret.
    + apply reads_bind.
      * apply generating_or_executing. right. apply attempt_reads.
      * intros [[[[ws em] et] df] rp]. apply reads_bind; [apply reads_mret |].
        intros _. apply reads_mret.
Qed.

(** X8.  With [store_results=False], [query] writes nothing: it calls
    neither [store_query_pair] nor [replace_one], the collection is left as
    it was, and the only exception that can leave it is one of
    [generate_sql]: a failed execution is always answered. *)
Theorem query_without_store_results question require_approval approved w :
  let run := query E question false require_approval approved w in
  collection run.2 = collection w /\
  (exists evs,
     trace run.2 = evs ++ trace w /\
     Forall (fun ev => is_generating ev = true \/ is_executing ev = true) evs /\
     count_calls is_store_query_pair evs = 0%nat /\
     count_calls is_replace_one evs = 0%nat) /\
  (forall e, run.1 = Raised e -> generate_sql E question w = (Raised e, run.2)).
Proof.
  intros run. subst run.
  destruct (query E question false require_approval approved w) as [r w'] eqn:Hrun.
  destruct (query_without_store_reads _ _ _ _ _ _ Hrun) as [Hcoll (evs & Ht & Hevs)].
  simpl. split; [symmetry; exact Hcoll |]. split.
  - exists evs. split; [exact Ht |]. split; [exact Hevs |].
    split; apply count_calls_none; (eapply Forall_impl; [exact Hevs |]);
      intros [] [Hev | Hev]; simpl in *; congruence.
  - intros e ->. unfold query, mbind, M_bind in Hrun.
    destruct (generate_sql E question w) as [[[sql similar] | e'] w1];
      [| congruence].
    destruct (require_approval && negb approved); [discriminate |].
    destruct (attempt_cases sql w1) as (w2 & [(msg & Hatt) | (t & df & Hatt)]);
      rewrite Hatt in Hrun; discriminate.
Qed.

(** X9.  An exception that leaves [query] comes from the embedder, the store
    or the generator, or it is one of two exceptions of the interpreter: the
    [KeyError] that [generate_sql] raises on a retrieved entry without
    [was_successful], or without the question or the SQL of a successful
    one, and the [UnicodeEncodeError] that [store_query_pair] raises on a
    question with surrogates.  It never comes from BigQuery or the vector
    index.  When nothing is to be stored, or the gate is closed, it comes
    from [generate_sql]. *)
Theorem query_raises_from_generation_or_storage question store_results
    require_approval approved w e w' :
  query E question store_results require_approval approved w = (Raised e, w') ->
  (origin e = Embedder \/ origin e = Store \/ origin e = Generator
   \/ origin e = Interpreter) /\
  (origin e = Interpreter ->
   (generate_sql E question w = (Raised e, w') /\
    exists similar key,
      find_similar_queries E question 3 w = (Returned similar, w') /\
      ~ Forall complete similar /\
      key ∈ ["was_successful"; "question"; "sql"] /\
      str e = "'" +:+ key +:+ "'")
   \/ (store_results = true /\
       require_approval && negb approved = false /\
       Py.encode_error question = Some (str e))) /\
  (store_results = false \/ require_approval && negb approved = true ->
   generate_sql E question w = (Raised e, w')).
Proof.
  intros Hq.
  destruct (generate_sql E question w) as [[[sql similar] | e'] w1] eqn:Hgen.
  - destruct (require_approval && negb approved) eqn:Hgate.
    { unfold query, mbind, M_bind in Hq. rewrite Hgen, Hgate in Hq. discriminate. }
    destruct (query_executed question store_results _ _ _ _ _ _ Hgen Hgate)
      as (ws & em & et & df & rp & w2 & Hatt & Hrun).
    rewrite Hrun in Hq. destruct store_results; [| discriminate].
    destruct (store_query_pair E question sql et ws rp w2) as [[[] | e'] w3] eqn:Hstore;
      [discriminate |].
    inversion Hq; subst. split; [| split].
    + destruct (store_query_pair_raises _ _ _ _ _ _ _ _ Hstore) as [-> | [-> | ->]]; auto.
    + intros Ho. right. split; [reflexivity |]. split; [reflexivity |].
      exact (store_query_pair_encode_error _ _ _ _ _ _ _ _ Hstore Ho).
    + intros [? | ?]; discriminate.
  - unfold query, mbind, M_bind in Hq. rewrite Hgen in Hq. inversion Hq; subst.
    split; [exact (generate_sql_raises _ _ _ _ Hgen) |]. split.
    + intros Ho. left. split; [reflexivity |].
      exact (generate_sql_key_error _ _ _ _ Hgen Ho).
    + intros _. reflexivity.
Qed.

(** X10.  What [query] stores is what it answers: when it returns past the
    gate with [store_results=True], the document written under the hash of
    the question carries the question, the SQL, the outcome and the
    execution time of the response, and its preview when there is one. *)
Theorem stored_document_agrees_with_response question require_approval approved
    w response w' :
  require_approval && negb approved = false ->
  query E question true require_approval approved w = (Returned response, w') ->
  exists document,
    collection w'
    = replace_upsert (Hashlib.md5_hexdigest question) document (collection w) /\
    trace w' !! 0%nat = Some (CallReplaceOne (Hashlib.md5_hexdigest question) document) /\
    response !! "question" = Some (VStr (doc_question document)) /\
    response !! "sql" = Some (VStr (doc_sql document)) /\
    response !! "was_successful" = Some (VBool (doc_was_successful document)) /\
    response !! "execution_time" = Some (VNum (doc_execution_time document)) /\
    (forall p, response !! "result_preview" = Some (VStr p) -> p <> "" ->
       doc_result_preview document = Some p) /\
    (response !! "result_preview" = None -> doc_result_preview document = None).
Proof.
  intros Hgate Hq.
  destruct (generate_sql E question w) as [[[sql similar] | e] w1] eqn:Hgen.
  2: { unfold query, mbind, M_bind in Hq. rewrite Hgen in Hq. discriminate. }
  destruct (generate_sql_reads E _ _ _ _ Hgen) as [Hc1 _].
  destruct (query_executed question true _ _ _ _ _ _ Hgen Hgate)
    as (ws & em & et & df & rp & w2 & Hatt & Hrun).
  destruct (attempt_reads E _ _ _ _ Hatt) as [Hc2 _].
  rewrite Hrun in Hq. clear Hrun.
  destruct (store_query_pair E question sql et ws rp w2) as [[[] | e] w3] eqn:Hstore;
    [| discriminate].
  inversion Hq; subst. clear Hq.
  destruct (store_query_pair_returned E _ _ _ _ _ _ _ Hstore)
    as (embedding & now & Hcoll & Htrace).
  exists (new_document question sql et ws rp embedding now).
  split; [rewrite Hc1, Hc2; exact Hcoll |]. split; [exact Htrace |].
  destruct (attempt_cases sql w1) as (w2' & [(msg & Hatt') | (t & frame & Hatt')]);
    rewrite Hatt' in Hatt; inversion Hatt; subst.
  - repeat (split; [vm_compute; reflexivity |]). split.
    + intros p Hp. vm_compute in Hp. discriminate.
    + reflexivity.
  - repeat (split; [vm_compute; reflexivity |]). split.
    + intros p Hp Hne.
      clear Hstore Htrace Hcoll Hatt Hatt'.
      remember (preview E frame) as text eqn:Htext. clear Htext.
      vm_compute in Hp. assert (text = p) as -> by congruence.
      destruct p; [congruence | reflexivity].
    + intros Hp. vm_compute in Hp. discriminate.
Qed.

(** *** The key of the collection *)

Lemma reads_preserves (I : list Stored -> Prop) (P : Event -> Prop) {A} (m : M A) :
  reads P m -> preserves I m.
Proof. intros Hm w r w' Hrun HI. destruct (Hm _ _ _ Hrun) as [<- _]. exact HI. Qed.

Lemma preserves_bind (I : list Stored -> Prop) {A B} (m : M A) (k : A -> M B) :
  preserves I m -> (forall a, preserves I (k a)) -> preserves I (m ≫= k).
Proof.
  intros Hm Hk w r w' Hrun HI. unfold mbind, M_bind in Hrun.
  destruct (m w) as [[a | e] w1] eqn:Hmw.
  - exact (Hk a _ _ _ Hrun (Hm _ _ _ Hmw HI)).
  - inversion Hrun; subst. exact (Hm _ _ _ Hmw HI).
Qed.

Lemma preserves_try_except (I : list Stored -> Prop) {A} (body : M A) handler :
  preserves I body -> (forall e, preserves I (handler e)) ->
  preserves I (try_except body handler).
Proof.
  intros Hb Hh w r w' Hrun HI. unfold try_except in Hrun.
  destruct (body w) as [[a | e] w1] eqn:Hbw.
  - inversion Hrun; subst. exact (Hb _ _ _ Hbw HI).
  - exact (Hh e _ _ _ Hrun (Hb _ _ _ Hbw HI)).
Qed.

Lemma preserves_mret (I : list Stored -> Prop) {A} (a : A) : preserves I (mret a).
Proof. intros w r w' Hrun HI. inversion Hrun; subst. exact HI. Qed.

Lemma keyed_replace_upsert question document coll :
  doc_id document = Hashlib.md5_hexdigest question ->
  doc_question document = question ->
  keyed_by_question coll ->
  keyed_by_question (replace_upsert (Hashlib.md5_hexdigest question) document coll).
Proof.
  intros Hid Hquestion [Hnodup Hkeys]. split.
  - apply replace_upsert_NoDup; assumption.
  - apply replace_upsert_Forall; [| exact Hkeys]. exists question.
    cbn [as_stored st_question st_id]. rewrite Hid, Hquestion. split; reflexivity.
Qed.

Lemma store_query_pair_preserves question sql execution_time was_successful
    result_preview :
  preserves keyed_by_question
    (store_query_pair E question sql execution_time was_successful result_preview).
Proof.
  intros w r w' Hrun HI. rewrite store_query_pair_run in Hrun. simpl in Hrun.
  destruct (model_encode E _ question); [inversion Hrun; subst; exact HI |].
  destruct (Py.encode_error question); [inversion Hrun; subst; exact HI |].
  destruct (replace_fault E _); inversion Hrun; subst; simpl; [exact HI |].
  apply keyed_replace_upsert; [reflexivity | reflexivity | exact HI].
Qed.

(** In a keyed collection a question has one document at most. *)
Lemma keyed_one_per_question (coll : list Stored) question :
  keyed_by_question coll ->
  (length (filter (fun d => st_question d = Some question) coll) <= 1)%nat.
Proof.
  intros [Hnodup Hkeys]. induction coll as [| d coll IH]; [simpl; lia |].
  rewrite fmap_cons in Hnodup. apply NoDup_cons in Hnodup as [Hd Hnodup].
  apply Forall_cons in Hkeys as [(asked & Hasked & Hkey) Hkeys].
  rewrite filter_cons. destruct (decide (st_question d = Some question)) as [Hq |];
    [| apply IH; assumption].
  rewrite (filter_none _ coll); [simpl; lia |].
  apply Forall_forall. intros d' Hin Hq'. apply Hd.
  apply list_elem_of_fmap. exists d'. split; [| exact Hin].
  rewrite Forall_forall in Hkeys.
  destruct (Hkeys d' Hin) as (asked' & Hasked' & Hkey'). rewrite Hkey, Hkey'. congruence.
Qed.

(** X3.  [store_query_pair] keeps the collection keyed by its questions,
    whether it returns or raises: the [_id] values stay distinct, each is
    the MD5 of the question of its document, and so no question has two
    documents. *)
Theorem store_query_pair_keeps_the_key question sql execution_time was_successful
    result_preview w :
  keyed_by_question (collection w) ->
  let coll :=
    collection (store_query_pair E question sql execution_time was_successful
                  result_preview w).2 in
  keyed_by_question coll /\
  forall asked,
    (length (filter (fun d => st_question d = Some asked) coll) <= 1)%nat.
Proof.
  intros HI coll.
  assert (keyed_by_question coll) as Hkeyed.
  { subst coll.
    destruct (store_query_pair E question sql execution_time was_successful
                result_preview w) as [r w'] eqn:Hrun.
    exact (store_query_pair_preserves _ _ _ _ _ _ _ _ Hrun HI). }
  split; [exact Hkeyed |]. intros asked. apply keyed_one_per_question. exact Hkeyed.
Qed.

Lemma query_preserves question store_results require_approval approved :
  preserves keyed_by_question (query E question store_results require_approval approved).
Proof.
  unfold query. apply preserves_bind.
  - eapply reads_preserves. apply generate_sql_reads.
  - intros [sql similar]. destruct (require_approval && negb approved).
    + apply preserves_mret.
    + apply preserves_bind; [eapply reads_preserves; apply attempt_reads |].
      intros [[[[ws em] et] df] rp]. apply preserves_bind.
      * destruct store_results; [apply store_query_pair_preserves | apply preserves_mret].
      * intros _. apply preserves_mret.
Qed.

Lemma results_to_dataframe_reads results :
  reads (fun ev => is_executing ev = true) (results_to_dataframe E results).
Proof. unfold results_to_dataframe. reads_steps. Qed.

Lemma store_question_sql_pair_preserves question sql store_results :
  preserves keyed_by_question (store_question_sql_pair E question sql store_results).
Proof.
  unfold store_question_sql_pair. apply preserves_try_except.
  - apply preserves_bind; [eapply reads_preserves; apply execute_query_reads |].
    intros [results execution_time].
    apply preserves_bind; [eapply reads_preserves; apply results_to_dataframe_reads |].
    intros df. apply preserves_bind; [| intros _; apply preserves_mret].
    destruct store_results; [apply store_query_pair_preserves | apply preserves_mret].
  - intros e. apply preserves_bind; [| intros msg; apply preserves_mret].
    destruct store_results; [| apply preserves_mret].
    apply preserves_try_except.
    + apply preserves_bind; [apply store_query_pair_preserves |].
      intros _. apply preserves_mret.
    + intros e'. apply preserves_mret.
Qed.

(** X11.  [query] and the endpoint [store_question_sql_pair] keep the
    collection keyed by its questions, whatever their arguments and
    whatever the collaborators do. *)
Theorem callers_keep_the_key question sql store_results require_approval approved w :
  keyed_by_question (collection w) ->
  keyed_by_question
    (collection (query E question store_results require_approval approved w).2) /\
  keyed_by_question
    (collection (store_question_sql_pair E question sql store_results w).2).
Proof.
  intros HI. split.
  - destruct (query E question store_results require_approval approved w)
      as [r w'] eqn:Hrun.
    exact (query_preserves _ _ _ _ _ _ _ Hrun HI).
  - destruct (store_question_sql_pair E question sql store_results w)
      as [r w'] eqn:Hrun.
    exact (store_question_sql_pair_preserves _ _ _ _ _ _ Hrun HI).
Qed.

(** *** The endpoint that stores a pair *)

Lemma prefix_app sub rest : String.prefix sub (sub +:+ rest) = true.
Proof.
  induction sub as [| c sub IH]; [destruct rest; reflexivity |].
  rewrite append_cons. simpl.
  destruct (ascii_dec c c); [exact IH | congruence].
Qed.

Lemma contains_app sub before rest :
  Py.contains sub (before +:+ sub +:+ rest) = true.
Proof.
  induction before as [| c before IH].
  - change ("" +:+ sub +:+ rest) with (sub +:+ rest).
    pose proof (prefix_app sub rest) as Hprefix.
    destruct (sub +:+ rest); cbn [Py.contains]; rewrite Hprefix; reflexivity.
  - rewrite append_cons. cbn [Py.contains]. rewrite IH. apply orb_true_r.
Qed.

Lemma contains_failed_to_store (error_message store_error : string) :
  Py.contains "failed to store"
    (error_message +:+ " (Additionally, failed to store query: " +:+ store_error +:+ ")")
  = true.
Proof.
  replace (error_message +:+ " (Additionally, failed to store query: "
           +:+ store_error +:+ ")")
    with ((error_message +:+ " (Additionally, ") +:+ "failed to store"
          +:+ (" query: " +:+ store_error +:+ ")")).
  - apply contains_app.
  - induction error_message as [| c msg IH]; [reflexivity |].
    rewrite !append_cons. f_equal. exact IH.
Qed.

(** The runs of the endpoint, one goal for each. *)
Ltac endpoint_runs question sql store_results w :=
  unfold store_question_sql_pair, try_except, mbind, M_bind;
  let results := fresh "results" in
  let t := fresh "t" in
  let e := fresh "e" in
  let w1 := fresh "w1" in
  let Hexec := fresh "Hexec" in
  destruct (execute_query _ sql w) as [[[results t] | e] w1] eqn:Hexec;
  [ let df := fresh "df" in
    let w2 := fresh "w2" in
    let Hframe := fresh "Hframe" in
    destruct (results_to_dataframe _ results w1) as [[df | e] w2] eqn:Hframe;
    [ destruct store_results;
      [ let w3 := fresh "w3" in
        let Hstore := fresh "Hstore" in
        destruct (store_query_pair _ question sql (Float t) true (Some (preview _ df)) w2)
          as [[[] | e] w3] eqn:Hstore;
        [ | let w4 := fresh "w4" in
            let e' := fresh "e'" in
            let Hagain := fresh "Hagain" in
            destruct (store_query_pair _ question sql (Int 0) false None w3)
              as [[[] | e'] w4] eqn:Hagain ]
      | ]
    | destruct store_results;
      [ let w3 := fresh "w3" in
        let e' := fresh "e'" in
        let Hstore := fresh "Hstore" in
        destruct (store_query_pair _ question sql (Int 0) false None w2)
          as [[[] | e'] w3] eqn:Hstore
      | ] ]
  | destruct store_results;
    [ let w2 := fresh "w2" in
      let e' := fresh "e'" in
      let Hstore := fresh "Hstore" in
      destruct (store_query_pair _ question sql (Int 0) false None w1)
        as [[[] | e'] w2] eqn:Hstore
    | ] ];
  cbn [mret M_ret fst snd].

(** X17.  The endpoint [store_question_sql_pair] answers whatever happens:
    no exception of BigQuery, of the embedder or of the store leaves it, and
    its response always tells the question, the SQL, whether the query was
    successful and whether it was stored; it is never stored when
    [store_results] is false. *)
Theorem store_endpoint_always_answers question sql store_results w :
  exists response,
    (store_question_sql_pair E question sql store_results w).1 = Returned response /\
    response !! "question" = Some (VStr question) /\
    response !! "sql" = Some (VStr sql) /\
    (exists was_successful,
       response !! "was_successful" = Some (VBool was_successful) /\
       (response !! "error_message" = None <-> was_successful = true)) /\
    (exists stored,
       response !! "stored" = Some (VBool stored) /\
       (store_results = false -> stored = false)).
Proof.
  endpoint_runs question sql store_results w;
    try match goal with
        | |- context [Py.contains ?sub ?s] => generalize (Py.contains sub s); intros ?
        end;
    (eexists; split; [reflexivity |];
     split; [vm_compute; reflexivity |]; split; [vm_compute; reflexivity |];
     split;
     [ eexists; split; [vm_compute; reflexivity |];
       split; intros Heq; first [reflexivity | vm_compute in Heq; discriminate]
     | eexists; split;
       [vm_compute; reflexivity | intros Heq; first [reflexivity | discriminate]] ]).
Qed.

(** X18.  The [stored] flag of the endpoint is never true in vain: a response
    with [stored: True] was asked to store, and the document for the
    question, with the SQL and the outcome of the response, has just been
    written by a [replace_one] that returned. *)
Theorem stored_flag_is_sound question sql store_results w response w' :
  store_question_sql_pair E question sql store_results w = (Returned response, w') ->
  response !! "stored" = Some (VBool true) ->
  store_results = true /\
  exists document,
    collection w'
    = replace_upsert (Hashlib.md5_hexdigest question) document (collection w) /\
    trace w' !! 0%nat = Some (CallReplaceOne (Hashlib.md5_hexdigest question) document) /\
    doc_question document = question /\
    doc_sql document = sql /\
    response !! "was_successful" = Some (VBool (doc_was_successful document)).
Proof.
  revert response w'.
  assert (forall w1 w2 ws et rp,
            collection w = collection w1 ->
            store_query_pair E question sql et ws rp w1 = (Returned tt, w2) ->
            exists document,
              collection w2
              = replace_upsert (Hashlib.md5_hexdigest question) document (collection w) /\
              trace w2 !! 0%nat
              = Some (CallReplaceOne (Hashlib.md5_hexdigest question) document) /\
              doc_question document = question /\
              doc_sql document = sql /\
              doc_was_successful document = ws) as Hwritten.
  { intros w1 w2 ws et rp Hcoll Hstore.
    destruct (store_query_pair_returned E _ _ _ _ _ _ _ Hstore)
      as (embedding & now & Hc & Ht).
    eexists. rewrite Hcoll. split; [exact Hc |]. split; [exact Ht |].
    repeat split. }
  assert (forall w1 w2 ws et rp e,
            store_query_pair E question sql et ws rp w1 = (Raised e, w2) ->
            collection w2 = collection w1) as Hfailed.
  { intros w1 w2 ws et rp e Hstore. rewrite store_query_pair_run in Hstore.
    simpl in Hstore. destruct (model_encode E _ question); [inversion Hstore; reflexivity |].
    destruct (Py.encode_error question); [inversion Hstore; reflexivity |].
    destruct (replace_fault E _); inversion Hstore; reflexivity. }
  intros response w'.
  endpoint_runs question sql store_results w; intros Hrun Hflag;
    inversion Hrun; subst; clear Hrun;
    repeat match goal with
           | Hx : execute_query _ _ _ = _ |- _ =>
               apply (execute_query_reads E) in Hx as [? _]
           | Hx : results_to_dataframe _ _ _ = _ |- _ =>
               apply results_to_dataframe_reads in Hx as [? _]
           end.
  - split; [reflexivity |].
    destruct (Hwritten w2 w' true (Float t) (Some (preview E df))) as (d & Hd);
      [congruence | assumption |].
    exists d. destruct Hd as (? & ? & ? & ? & ->). repeat (split; [assumption |]).
    vm_compute. reflexivity.
  - split; [reflexivity |].
    destruct (Hwritten w3 w' false (Int 0) None) as (d & Hd);
      [rewrite (Hfailed _ _ _ _ _ _ Hstore); congruence | assumption |].
    exists d. destruct Hd as (? & ? & ? & ? & ->). repeat (split; [assumption |]).
    vm_compute. reflexivity.
  - exfalso. rewrite lookup_insert_ne in Hflag by discriminate.
    revert Hflag. rewrite contains_failed_to_store. vm_compute. discriminate.
  - vm_compute in Hflag. discriminate.
  - split; [reflexivity |].
    destruct (Hwritten w2 w' false (Int 0) None) as (d & Hd);
      [congruence | assumption |].
    exists d. destruct Hd as (? & ? & ? & ? & ->). repeat (split; [assumption |]).
    vm_compute. reflexivity.
  - exfalso. revert Hflag. rewrite contains_failed_to_store. vm_compute. discriminate.
  - vm_compute in Hflag. discriminate.
  - split; [reflexivity |].
    destruct (Hwritten w1 w' false (Int 0) None) as (d & Hd);
      [congruence | assumption |].
    exists d. destruct Hd as (? & ? & ? & ? & ->). repeat (split; [assumption |]).
    vm_compute. reflexivity.
  - exfalso. revert Hflag. rewrite contains_failed_to_store. vm_compute. discriminate.
  - vm_compute in Hflag. discriminate.
Qed.

(** X19.  When the query has run and its result is at hand, but the store
    call of the endpoint raises, the endpoint stores the pair once more, as
    a failed query with an execution time of 0, and answers that the query
    failed with the message of the store: the result is withheld, and the
    history now records a failure. *)
Theorem store_failure_turns_success_into_failure question sql w results t w1 df w2
    e w3 w4 :
  execute_query E sql w = (Returned (results, t), w1) ->
  results_to_dataframe E results w1 = (Returned df, w2) ->
  store_query_pair E question sql (Float t) true (Some (preview E df)) w2
  = (Raised e, w3) ->
  store_query_pair E question sql (Int 0) false None w3 = (Returned tt, w4) ->
  exists response document,
    store_question_sql_pair E question sql true w = (Returned response, w4) /\
    response !! "was_successful" = Some (VBool false) /\
    response !! "error_message" = Some (VStr (str e)) /\
    response !! "results" = None /\
    response !! "result_preview" = None /\
    response !! "stored"
    = Some (VBool (negb (Py.contains "failed to store" (str e)))) /\
    collection w4
    = replace_upsert (Hashlib.md5_hexdigest question) document (collection w3) /\
    doc_question document = question /\
    doc_was_successful document = false /\
    doc_execution_time document = Int 0 /\
    doc_result_preview document = None.
Proof.
  intros Hexec Hframe Hstore Hagain.
  destruct (store_query_pair_returned E _ _ _ _ _ _ _ Hagain)
    as (embedding & now & Hcoll & _).
  eexists _, _. split.
  - unfold store_question_sql_pair, try_except, mbind, M_bind.
    rewrite Hexec, Hframe, Hstore. cbn [mret M_ret]. rewrite Hagain. reflexivity.
  - generalize (Py.contains "failed to store" (str e)). intros b.
    do 4 (split; [vm_compute; reflexivity |]).
    split; [destruct b; vm_compute; reflexivity |].
    split; [exact Hcoll |]. repeat split.
Qed.

(** X20.  The [stored] flag is read off the text of the message: when the
    message of the failed query itself holds the words [failed to store],
    the endpoint answers [stored: False] although the failed query has been
    written. *)
Theorem stored_flag_depends_on_the_message question sql w e w1 w2 :
  execute_query E sql w = (Raised e, w1) ->
  Py.contains "failed to store" (str e) = true ->
  store_query_pair E question sql (Int 0) false None w1 = (Returned tt, w2) ->
  exists response document,
    store_question_sql_pair E question sql true w = (Returned response, w2) /\
    response !! "stored" = Some (VBool false) /\
    response !! "error_message" = Some (VStr (str e)) /\
    collection w2
    = replace_upsert (Hashlib.md5_hexdigest question) document (collection w) /\
    doc_question document = question /\
    doc_sql document = sql.
Proof.
  intros Hexec Hwords Hstore.
  destruct (store_query_pair_returned E _ _ _ _ _ _ _ Hstore)
    as (embedding & now & Hcoll & _).
  destruct (execute_query_reads E _ _ _ _ Hexec) as [Hc _].
  eexists _, _. split.
  - unfold store_question_sql_pair, try_except, mbind, M_bind.
    rewrite Hexec. cbn [mret M_ret]. rewrite Hstore. cbn [mret M_ret].
    rewrite Hwords. reflexivity.
  - split; [vm_compute; reflexivity |]. split; [vm_compute; reflexivity |].
    split; [rewrite Hc; exact Hcoll |]. split; reflexivity.
Qed.

(** *** Retrieval *)

(** X5.  When the vector index answers with at least one entry,
    [find_similar_queries] returns its answer as it is, whatever its length
    and whatever [top_k], after two calls only, the embedder's and the
    index's: the keyword search is not run. *)
Theorem vector_results_are_returned question top_k w embedding first others :
  let t1 := CallEncode question :: trace w in
  let t2 := CallAggregate embedding (top_k * 10) top_k :: t1 in
  model_encode E t1 question = inr embedding ->
  aggregate E t2 (collection w) embedding (top_k * 10) top_k = inr (first :: others) ->
  find_similar_queries E question top_k w
  = (Returned (first :: others), {| collection := collection w; trace := t2 |}).
Proof.
  intros t1 t2 Hencode Hvector. rewrite find_similar_queries_run. simpl.
  fold t1. rewrite Hencode. fold t2. rewrite Hvector. reflexivity.
Qed.

End Pipeline.

Section Storage.

Context `{Carriers} (E : Env).

Lemma replace_upsert_absent id document (coll : list Stored) :
  IdStr id ∉ st_id <$> coll ->
  replace_upsert id document coll = coll ++ [as_stored document].
Proof.
  induction coll as [| d coll IH]; intros Hid; [reflexivity |].
  rewrite fmap_cons in Hid. apply not_elem_of_cons in Hid as [Hd Hid].
  cbn [replace_upsert]. case_bool_decide as Heq.
  - congruence.
  - rewrite IH by exact Hid. reflexivity.
Qed.

(** X1.  [store_query_pair] asks the embedder before it goes to the store,
    and goes there once at most.  After its own call, logged first, it
    calls the embedder, and [replace_one] only when the embedder has
    answered and the question has been encoded: when the embedder raises,
    or the question has surrogates, [replace_one] has not been called.  The
    one [replace_one] is made under the MD5 of the question, with the
    document built from the arguments, the embedding just computed and the
    time of the call.  An exception that leaves [store_query_pair] is the
    embedder's, the [UnicodeEncodeError] of the question or that of this
    [replace_one]. *)
Theorem store_query_pair_embeds_before_it_writes question sql execution_time
    was_successful result_preview w :
  let run :=
    store_query_pair E question sql execution_time was_successful result_preview w in
  let t1 :=
    CallEncode question
    :: CallStoreQueryPair question sql execution_time was_successful result_preview
    :: trace w in
  exists evs,
    trace run.2 = evs ++ trace w /\
    count_calls is_store_query_pair evs = 1%nat /\
    (count_calls is_replace_one evs <= 1)%nat /\
    match model_encode E t1 question, Py.encode_error question with
    | inl msg, _ =>
        run.1 = Raised {| origin := Embedder; str := msg |} /\
        trace run.2 = t1 /\
        count_calls is_replace_one evs = 0%nat
    | inr _, Some msg =>
        run.1 = Raised {| origin := Interpreter; str := msg |} /\
        trace run.2 = t1 /\
        count_calls is_replace_one evs = 0%nat
    | inr embedding, None =>
        let document :=
          new_document question sql execution_time was_successful result_preview
            embedding (datetime_now E t1) in
        trace run.2 = CallReplaceOne (Hashlib.md5_hexdigest question) document :: t1 /\
        count_calls is_replace_one evs = 1%nat /\
        forall e, run.1 = Raised e -> origin e = Store
    end.
Proof.
  cbn zeta. rewrite store_query_pair_run. cbn zeta.
  destruct (model_encode E _ question) as [msg | embedding] eqn:Hencode.
  - eexists [_; _]. split; [reflexivity |]. split; [reflexivity |].
    split; [vm_compute; lia |]. repeat split.
  - destruct (Py.encode_error question) as [msg |].
    + eexists [_; _]. split; [reflexivity |]. split; [reflexivity |].
      split; [vm_compute; lia |]. repeat split.
    + destruct (replace_fault E _) as [msg |];
        (eexists [_; _; _]; split; [reflexivity |]; split; [reflexivity |];
         split; [vm_compute; lia |]; split; [reflexivity |]; split; [reflexivity |]).
      * intros e [= <-]. reflexivity.
      * intros e Hraised. discriminate.
Qed.

(** X2.  A question that is not in the collection yet gets a new document at
    the end of it, the others staying where they were; an empty
    [result_preview] is left out of the document as a missing one is. *)
Theorem new_question_is_appended question sql execution_time was_successful
    result_preview w w' :
  IdStr (Hashlib.md5_hexdigest question) ∉ st_id <$> collection w ->
  store_query_pair E question sql execution_time was_successful result_preview w
  = (Returned tt, w') ->
  exists document,
    collection w' = collection w ++ [as_stored document] /\
    doc_id document = Hashlib.md5_hexdigest question /\
    doc_question document = question /\
    doc_sql document = sql /\
    doc_execution_time document = execution_time /\
    doc_was_successful document = was_successful /\
    doc_result_preview document
    = match result_preview with
      | Some "" => None
      | _ => result_preview
      end.
Proof.
  intros Hnew Hstore.
  destruct (store_query_pair_returned E _ _ _ _ _ _ _ Hstore)
    as (embedding & now & Hcoll & _).
  eexists. split; [rewrite Hcoll; apply replace_upsert_absent; exact Hnew |].
  repeat (split; [reflexivity |]). simpl.
  destruct result_preview as [[| c text] |]; reflexivity.
Qed.

End Storage.

Section Words.

(** *** The keywords *)

(** X6.  The keywords that [_text_search] puts in its pattern are words of
    the question in lower case: each is longer than three characters, has
    no whitespace in it and is in lower case, so that no alternative of the
    pattern is empty; and the case of the question does not change them. *)
Theorem keywords_are_clean question :
  Forall
    (fun keyword =>
       Py.len keyword > 3 /\ spaceless keyword = true /\ Py.lower keyword = keyword)
    (keywords question) /\
  ("" ∉ keywords question) /\
  keywords (Py.lower question) = keywords question.
Proof.
  pose proof (keywords_lowered question) as Hclean.
  split; [exact Hclean |]. split.
  - intros Hin. rewrite Forall_forall in Hclean.
    destruct (Hclean _ Hin) as [Hlen _]. vm_compute in Hlen. discriminate.
  - unfold keywords. rewrite lower_lower. reflexivity.
Qed.

(** *** The identifier of a document *)

Lemma little_endian_bytes n x :
  length (Hashlib.little_endian n x) = n /\
  Forall (fun b => 0 <= b < 256) (Hashlib.little_endian n x).
Proof.
  unfold Hashlib.little_endian. split.
  - rewrite length_fmap. apply length_seq.
  - apply Forall_fmap, Forall_forall. intros i _. simpl.
    apply Z.mod_pos_bound. lia.
Qed.

Lemma md5_bytes message :
  length (Hashlib.md5 message) = 16%nat /\
  Forall (fun b => 0 <= b < 256) (Hashlib.md5 message).
Proof.
  unfold Hashlib.md5.
  destruct (fold_left Hashlib.compress _ _) as [[[a b] c] d].
  split.
  - rewrite !length_app.
    rewrite !(proj1 (little_endian_bytes 4 _)). reflexivity.
  - repeat (apply Forall_app; split); apply little_endian_bytes.
Qed.

Lemma hex_digit_is_hex n : 0 <= n < 16 -> is_hex_digit (Hashlib.hex_digit n) = true.
Proof.
  intros Hn.
  assert (n = 0 \/ n = 1 \/ n = 2 \/ n = 3 \/ n = 4 \/ n = 5 \/ n = 6 \/ n = 7
          \/ n = 8 \/ n = 9 \/ n = 10 \/ n = 11 \/ n = 12 \/ n = 13 \/ n = 14
          \/ n = 15) as Hcases by lia.
  repeat (destruct Hcases as [-> | Hcases]; [reflexivity |]). subst. reflexivity.
Qed.

Lemma hex_spec bytes :
  Forall (fun b => 0 <= b < 256) bytes ->
  String.length (Hashlib.hex bytes) = (2 * length bytes)%nat /\
  Forall (fun c => is_hex_digit c = true) (list_ascii_of_string (Hashlib.hex bytes)).
Proof.
  induction 1 as [| b bytes Hb _ [IHlen IHhex]]; [split; [reflexivity | constructor] |].
  cbn [Hashlib.hex String.length list_ascii_of_string length]. split; [lia |].
  constructor; [| constructor; [| exact IHhex]]; apply hex_digit_is_hex.
  - split; [apply Z.div_pos; lia | apply Z.div_lt_upper_bound; lia].
  - apply Z.mod_pos_bound. lia.
Qed.

End Words.

Section Identifier.

Context `{Carriers}.

(** X4.  The [_id] of the document that [store_query_pair] builds is a
    string of 32 hexadecimal digits in lower case, whatever the question
    (the empty one included), and it depends on the question only. *)
Theorem document_id_is_32_hex_digits question sql execution_time was_successful
    result_preview embedding now :
  let id :=
    doc_id (new_document question sql execution_time was_successful result_preview
              embedding now) in
  id = Hashlib.md5_hexdigest question /\
  String.length id = 32%nat /\
  Forall (fun c => is_hex_digit c = true) (list_ascii_of_string id).
Proof.
  intros id. subst id. cbn [new_document doc_id]. split; [reflexivity |].
  unfold Hashlib.md5_hexdigest.
  destruct (md5_bytes (Hashlib.encode question)) as [Hlen Hbytes].
  destruct (hex_spec _ Hbytes) as [Hhex Hdigits].
  rewrite Hhex, Hlen. split; [reflexivity | exact Hdigits].
Qed.

End Identifier.

Section HistoryTheory.

Context `{Carriers} (E : Env) (D : Datetime).

(** *** The history *)






End HistoryTheory.

Section Charts.

Context `{Carriers} (E : Env) (pd : Pandas).

(** *** The suggestions of charts *)

Lemma well_recommended_truthy suggestions :
  well_recommended suggestions ->
  truthy (recommended_chart suggestions) = false ->
  recommended_chart suggestions = None.
Proof.
  unfold well_recommended. destruct (recommended_chart suggestions) as [name |];
    [| reflexivity].
  intros [Hname _] Htruthy. destruct name; [| discriminate].
  exfalso. revert Hname. rewrite !elem_of_cons, elem_of_nil.
  intros [? | [? | [? | []]]]; discriminate.
Qed.

Lemma well_recommended_append chart suggestions :
  well_recommended suggestions -> well_recommended (append_chart chart suggestions).
Proof.
  unfold well_recommended, append_chart. simpl.
  destruct (recommended_chart suggestions) as [name |]; [| trivial].
  intros [Hname Hin]. split; [exact Hname |].
  rewrite fmap_app. apply elem_of_app. left. exact Hin.
Qed.

Lemma well_recommended_recommend name chart suggestions :
  name ∈ ["line"; "bar"; "table"] ->
  chart_type chart = name ->
  well_recommended suggestions ->
  well_recommended (recommend_if_none name (append_chart chart suggestions)).
Proof.
  intros Hname Hchart Hs. unfold recommend_if_none.
  destruct (truthy _); [apply well_recommended_append; exact Hs |].
  unfold well_recommended, recommend, append_chart. simpl.
  split; [exact Hname |]. rewrite fmap_app. apply elem_of_app. right.
  rewrite <- Hchart. apply list_elem_of_singleton. reflexivity.
Qed.

Lemma recommend_if_none_truthy name chart suggestions :
  name <> "" ->
  truthy (recommended_chart (recommend_if_none name (append_chart chart suggestions)))
  = true.
Proof.
  intros Hname. unfold recommend_if_none.
  destruct (truthy (recommended_chart (append_chart chart suggestions))) eqn:Htruthy;
    [exact Htruthy |].
  simpl. destruct name; [congruence | reflexivity].
Qed.

Lemma suggest_line_well_recommended datetime_columns numeric_columns categorical_columns
    suggestions :
  well_recommended suggestions ->
  well_recommended
    (suggest_line datetime_columns numeric_columns categorical_columns suggestions).
Proof.
  intros Hs. unfold suggest_line.
  destruct datetime_columns; [exact Hs |]. destruct numeric_columns; [exact Hs |].
  apply well_recommended_recommend; [| reflexivity | exact Hs].
  apply list_elem_of_here.
Qed.

(** The pie comes after the bar, which has taken the recommendation. *)
Lemma bar_then_pie_well_recommended df categorical_columns numeric_columns
    suggestions after_bar after_pie :
  well_recommended suggestions ->
  suggest_bar pd df categorical_columns numeric_columns suggestions = inr after_bar ->
  suggest_pie pd df categorical_columns numeric_columns after_bar = inr after_pie ->
  well_recommended after_pie.
Proof.
  intros Hs. unfold suggest_bar, suggest_pie.
  destruct categorical_columns as [| first others]; [congruence |].
  destruct numeric_columns as [| metric metrics]; [congruence |].
  destruct (category_count pd df (first :: others)) as [msg | count]; [discriminate |].
  destruct ((1 <=? count) && (count <=? 20)) eqn:Hbar; intros Hb; inversion Hb; subst;
    clear Hb.
  - destruct ((2 <=? count) && (count <=? 6)); intros Hp; inversion Hp; subst; clear Hp.
    + cbn [recommended_chart append_chart].
      rewrite recommend_if_none_truthy by discriminate.
      rewrite andb_false_r. apply well_recommended_append.
      apply well_recommended_recommend; [| reflexivity | exact Hs].
      apply list_elem_of_further, list_elem_of_here.
    + apply well_recommended_recommend; [| reflexivity | exact Hs].
      apply list_elem_of_further, list_elem_of_here.
  - replace ((2 <=? count) && (count <=? 6)) with false by lia.
    intros Hp; inversion Hp; subst. exact Hs.
Qed.

Lemma suggest_scatter_well_recommended numeric_columns categorical_columns suggestions :
  well_recommended suggestions ->
  well_recommended (suggest_scatter numeric_columns categorical_columns suggestions).
Proof.
  intros Hs. unfold suggest_scatter. destruct (2 <=? _)%nat; [| exact Hs].
  apply well_recommended_append. exact Hs.
Qed.

Lemma suggest_table_well_recommended df suggestions :
  well_recommended suggestions ->
  well_recommended (suggest_table pd df suggestions) /\
  (recommended_chart (suggest_table pd df suggestions) = None <->
   recommended_chart suggestions = None /\ df_columns pd df = []).
Proof.
  intros Hs. unfold suggest_table.
  destruct (truthy (recommended_chart suggestions)) eqn:Htruthy; simpl.
  - split; [exact Hs |]. split; [| tauto].
    intros Hnone. rewrite Hnone in Htruthy. discriminate.
  - pose proof (well_recommended_truthy _ Hs Htruthy) as Hnone.
    destruct (df_columns pd df) as [| col cols]; simpl.
    + split; [exact Hs | tauto].
    + split.
      * unfold well_recommended. simpl. split.
        -- do 2 apply list_elem_of_further. apply list_elem_of_here.
        -- rewrite fmap_app. apply elem_of_app. right. apply list_elem_of_here.
      * split; [discriminate | intros [_ ?]; discriminate].
Qed.

(** The steps of a call that returns suggestions. *)
Lemma suggest_visualizations_suggested data suggestions :
  suggest_visualizations E pd data = inr (Suggested suggestions) ->
  exists df after_bar after_pie,
    let numeric_columns := numeric_columns pd df in
    let categorical_columns := (other_columns pd df).1 in
    let datetime_columns := (other_columns pd df).2 in
    frame_of pd data = inr df /\
    df_empty E df = false /\
    suggest_bar pd df categorical_columns numeric_columns
      (suggest_line datetime_columns numeric_columns categorical_columns
         {| recommended_chart := None;
            possible_charts := [];
            metrics := numeric_columns;
            dimensions := categorical_columns ++ datetime_columns |})
    = inr after_bar /\
    suggest_pie pd df categorical_columns numeric_columns after_bar = inr after_pie /\
    suggestions
    = suggest_table pd df
        (suggest_scatter numeric_columns categorical_columns after_pie).
Proof.
  unfold suggest_visualizations.
  destruct (frame_of pd data) as [msg | df]; [discriminate |].
  destruct (df_empty E df) eqn:Hempty; [discriminate |].
  destruct (other_columns pd df) as [categorical_columns datetime_columns] eqn:Hother.
  destruct (suggest_bar pd df _ _ _) as [msg | after_bar] eqn:Hbar; [discriminate |].
  destruct (suggest_pie pd df _ _ _) as [msg | after_pie] eqn:Hpie; [discriminate |].
  intros Hs. inversion Hs; subst. exists df, after_bar, after_pie.
  rewrite Hother. simpl. repeat split; assumption.
Qed.

Lemma suggested_well_recommended data suggestions :
  suggest_visualizations E pd data = inr (Suggested suggestions) ->
  exists df,
    frame_of pd data = inr df /\
    well_recommended suggestions /\
    (recommended_chart suggestions = None -> df_columns pd df = []).
Proof.
  intros Hs.
  destruct (suggest_visualizations_suggested _ _ Hs)
    as (df & after_bar & after_pie & Hframe & _ & Hbar & Hpie & ->).
  exists df. split; [exact Hframe |].
  assert (well_recommended after_pie) as Hafter.
  { eapply bar_then_pie_well_recommended; [| exact Hbar | exact Hpie].
    apply suggest_line_well_recommended. exact I. }
  apply (suggest_scatter_well_recommended (numeric_columns pd df) (other_columns pd df).1)
    in Hafter.
  destruct (suggest_table_well_recommended df _ Hafter) as [Hwell Hnone].
  split; [exact Hwell |]. intros Hrec. apply Hnone in Hrec as [_ Hcols]. exact Hcols.
Qed.

(** X13.  [suggest_visualizations] never recommends a pie or a scatter plot:
    the recommended chart is a line, a bar or a table, and there is one as
    soon as the frame has a column.  (The pie is suggested only where the
    bar has been, and the bar takes the recommendation first.) *)
Theorem pie_is_never_recommended data suggestions :
  suggest_visualizations E pd data = inr (Suggested suggestions) ->
  recommended_chart suggestions <> Some "pie" /\
  recommended_chart suggestions <> Some "scatter" /\
  (recommended_chart suggestions = Some "line"
   \/ recommended_chart suggestions = Some "bar"
   \/ recommended_chart suggestions = Some "table"
   \/ recommended_chart suggestions = None /\
      exists df, frame_of pd data = inr df /\ df_columns pd df = []).
Proof.
  intros Hs. destruct (suggested_well_recommended _ _ Hs) as (df & Hframe & Hwell & Hnone).
  unfold well_recommended in Hwell.
  destruct (recommended_chart suggestions) as [name |].
  - destruct Hwell as [Hname _]. revert Hname. rewrite !elem_of_cons, elem_of_nil.
    intros [-> | [-> | [-> | []]]]; (split; [discriminate |]); (split; [discriminate |]);
      auto.
  - split; [discriminate |]. split; [discriminate |]. do 3 right.
    split; [reflexivity |]. exists df. auto.
Qed.

(** X14.  The chart that [suggest_visualizations] recommends is one of the
    charts it lists as possible. *)
Theorem recommended_chart_is_possible data suggestions name :
  suggest_visualizations E pd data = inr (Suggested suggestions) ->
  recommended_chart suggestions = Some name ->
  exists chart, chart ∈ possible_charts suggestions /\ chart_type chart = name.
Proof.
  intros Hs Hname. destruct (suggested_well_recommended _ _ Hs) as (df & _ & Hwell & _).
  unfold well_recommended in Hwell. rewrite Hname in Hwell. destruct Hwell as [_ Hin].
  apply list_elem_of_fmap in Hin as (chart & Heq & Hin). exists chart. auto.
Qed.

(** *** The roles of the columns *)

Lemma other_columns_from df columns categorical_columns datetime_columns :
  fold_left
    (fun lists col =>
       let '(categorical_columns, datetime_columns) := lists in
       if bool_decide (col ∈ numeric_columns pd df) then lists
       else if is_datetime64_dtype pd df col || _is_datetime pd df col
       then (categorical_columns, datetime_columns ++ [col])
       else (categorical_columns ++ [col], datetime_columns))
    columns (categorical_columns, datetime_columns)
  = let others :=
      List.filter (fun col => negb (bool_decide (col ∈ numeric_columns pd df))) columns in
    (categorical_columns
     ++ List.filter
          (fun col => negb (is_datetime64_dtype pd df col || _is_datetime pd df col))
          others,
     datetime_columns
     ++ List.filter
          (fun col => is_datetime64_dtype pd df col || _is_datetime pd df col) others).
Proof.
  revert categorical_columns datetime_columns.
  induction columns as [| col columns IH]; intros categorical_columns datetime_columns.
  - simpl. rewrite !app_nil_r. reflexivity.
  - cbn [fold_left List.filter].
    destruct (bool_decide (col ∈ numeric_columns pd df)); cbn [negb]; [apply IH |].
    cbn [List.filter].
    destruct (is_datetime64_dtype pd df col || _is_datetime pd df col); cbn [negb];
      rewrite IH; cbn zeta; rewrite <- app_assoc; reflexivity.
Qed.

Lemma numeric_column df col :
  col ∈ df_columns pd df ->
  bool_decide (col ∈ numeric_columns pd df) = is_numeric_dtype pd df col.
Proof.
  intros Hcol. unfold numeric_columns.
  destruct (is_numeric_dtype pd df col) eqn:Hnumeric.
  - apply bool_decide_eq_true. apply list_elem_of_In, filter_In.
    split; [apply list_elem_of_In; exact Hcol | exact Hnumeric].
  - apply bool_decide_eq_false. intros Hin. apply list_elem_of_In, filter_In in Hin.
    destruct Hin as [_ Hin]. congruence.
Qed.

Lemma filter_ext_elem_of {A} (p q : A -> bool) (l : list A) :
  (forall x, x ∈ l -> p x = q x) -> List.filter p l = List.filter q l.
Proof.
  intros Hpq. apply List.filter_ext_in. intros x Hx. apply Hpq, list_elem_of_In, Hx.
Qed.

Lemma filter_split {A} (p : A -> bool) (l : list A) :
  List.filter p l ++ List.filter (fun x => negb (p x)) l ≡ₚ l.
Proof.
  induction l as [| x l IH]; [reflexivity |]. simpl.
  destruct (p x); simpl.
  - rewrite IH. reflexivity.
  - rewrite <- Permutation_middle, IH. reflexivity.
Qed.

Lemma filter_Forall {A} (p : A -> bool) (l : list A) :
  Forall (fun x => p x = true) (List.filter p l).
Proof.
  apply Forall_forall. intros x Hx. apply list_elem_of_In, filter_In in Hx. tauto.
Qed.

(** What [other_columns] leaves in its two lists. *)
Lemma other_columns_spec df :
  other_columns pd df
  = let others :=
      List.filter (fun col => negb (is_numeric_dtype pd df col)) (df_columns pd df) in
    (List.filter
       (fun col => negb (is_datetime64_dtype pd df col || _is_datetime pd df col))
       others,
     List.filter
       (fun col => is_datetime64_dtype pd df col || _is_datetime pd df col) others).
Proof.
  unfold other_columns. rewrite other_columns_from. cbn zeta. simpl.
  rewrite (filter_ext_elem_of
             (fun col => negb (bool_decide (col ∈ numeric_columns pd df)))
             (fun col => negb (is_numeric_dtype pd df col))); [reflexivity |].
  intros col Hcol. rewrite numeric_column by exact Hcol. reflexivity.
Qed.

Lemma steps_keep_the_roles df suggestions after_bar after_pie :
  let numeric_columns := numeric_columns pd df in
  let categorical_columns := (other_columns pd df).1 in
  let datetime_columns := (other_columns pd df).2 in
  suggest_bar pd df categorical_columns numeric_columns
    (suggest_line datetime_columns numeric_columns categorical_columns suggestions)
  = inr after_bar ->
  suggest_pie pd df categorical_columns numeric_columns after_bar = inr after_pie ->
  let final :=
    suggest_table pd df (suggest_scatter numeric_columns categorical_columns after_pie) in
  metrics final = metrics suggestions /\ dimensions final = dimensions suggestions.
Proof.
  intros numeric categorical datetime Hbar Hpie final.
  assert (metrics after_bar = metrics suggestions
          /\ dimensions after_bar = dimensions suggestions) as [Hm1 Hd1].
  { revert Hbar. unfold suggest_bar, suggest_line, recommend_if_none.
    destruct categorical, datetime, numeric;
      repeat match goal with
             | |- context [match ?x with _ => _ end] => destruct x
             end;
      intros Heq; inversion Heq; subst; split; reflexivity. }
  assert (metrics after_pie = metrics after_bar
          /\ dimensions after_pie = dimensions after_bar) as [Hm2 Hd2].
  { revert Hpie. unfold suggest_pie.
    destruct categorical, numeric;
      repeat match goal with
             | |- context [match ?x with _ => _ end] => destruct x
             end;
      intros Heq; inversion Heq; subst; split; reflexivity. }
  subst final. unfold suggest_table, suggest_scatter.
  repeat match goal with
         | |- context [if ?x then _ else _] => destruct x
         end; simpl; split; congruence.
Qed.

(** X15.  The two roles split the columns: [metrics] are the numeric columns
    in their order, [dimensions] are the others, and every column of the
    frame has exactly one of the two roles. *)
Theorem column_roles_split_the_columns data suggestions :
  suggest_visualizations E pd data = inr (Suggested suggestions) ->
  exists df,
    frame_of pd data = inr df /\
    metrics suggestions = List.filter (is_numeric_dtype pd df) (df_columns pd df) /\
    Forall (fun col => is_numeric_dtype pd df col = false) (dimensions suggestions) /\
    metrics suggestions ++ dimensions suggestions ≡ₚ df_columns pd df.
Proof.
  intros Hs.
  destruct (suggest_visualizations_suggested _ _ Hs)
    as (df & after_bar & after_pie & Hframe & _ & Hbar & Hpie & ->).
  exists df. split; [exact Hframe |].
  destruct (steps_keep_the_roles df _ _ _ Hbar Hpie) as [-> ->]. simpl.
  split; [reflexivity |].
  rewrite other_columns_spec. cbn zeta. simpl.
  set (others := List.filter (fun col => negb (is_numeric_dtype pd df col))
                   (df_columns pd df)).
  pose proof (filter_split
                (fun col => is_datetime64_dtype pd df col || _is_datetime pd df col)
                others) as Hothers.
  rewrite Permutation_app_comm in Hothers. cbv beta in Hothers.
  split.
  - rewrite Hothers. subst others.
    eapply Forall_impl; [apply filter_Forall |]. intros col Hcol. simpl in Hcol.
    apply negb_true_iff. exact Hcol.
  - rewrite Hothers. apply filter_split.
Qed.

(** X16.  [_is_datetime] answers [True] unless [pd.to_datetime] raises, and it
    is asked to coerce what it cannot parse.  So when [pd.to_datetime] does
    not raise, no column is categorical: every column that is not numeric
    is taken for a date, [nunique] is not called, and neither a bar nor a
    pie is suggested. *)
Theorem coerced_dates_leave_no_category df :
  (forall col, to_datetime_fault pd df col = None) ->
  df_empty E df = false ->
  exists suggestions,
    suggest_visualizations E pd (AFrame df) = inr (Suggested suggestions) /\
    (other_columns pd df).1 = [] /\
    dimensions suggestions
    = List.filter (fun col => negb (is_numeric_dtype pd df col)) (df_columns pd df) /\
    Forall (fun chart => chart_type chart ∈ ["line"; "scatter"; "table"])
      (possible_charts suggestions).
Proof.
  intros Hcoerce Hempty.
  assert (other_columns pd df
          = ([], List.filter (fun col => negb (is_numeric_dtype pd df col))
                   (df_columns pd df))) as Hother.
  { rewrite other_columns_spec. cbn zeta.
    set (others := List.filter _ (df_columns pd df)).
    assert (forall col,
              is_datetime64_dtype pd df col || _is_datetime pd df col = true) as Hdated.
    { intros col. unfold _is_datetime. rewrite Hcoerce. apply orb_true_r. }
    f_equal.
    - induction others as [| col others IH]; [reflexivity |].
      simpl. rewrite Hdated. exact IH.
    - induction others as [| col others IH]; [reflexivity |].
      simpl. rewrite Hdated, IH. reflexivity. }
  eexists. split; [| split; [rewrite Hother; reflexivity |]].
  - unfold suggest_visualizations. cbn [frame_of]. rewrite Hempty, Hother.
    cbn [suggest_bar suggest_pie]. reflexivity.
  - unfold suggest_table, suggest_scatter, suggest_line, recommend_if_none.
    repeat match goal with
           | |- context [match ?x with _ => _ end] => destruct x
           end; simpl;
      (split; [reflexivity |]);
      repeat (constructor; [simpl; rewrite !elem_of_cons; auto |]); constructor.
Qed.

End Charts.

Section EndpointTheory.

Context `{Carriers} (E : Env) (D : Datetime) (pd : Pandas).

(** *** The endpoints *)

Lemma try_except_returns {A} (body : M A) handler w :
  (forall e w1, exists a, (handler e w1).1 = Returned a) ->
  exists a, (try_except body handler w).1 = Returned a.
Proof.
  intros Hh. unfold try_except. destruct (body w) as [[a | e] w1].
  - exists a. reflexivity.
  - apply Hh.
Qed.

Lemma internal_error_returns {A} e w1 :
  exists a, (Api.internal_error (A := A) e w1).1 = Returned a.
Proof. eexists. reflexivity. Qed.

(** X21.  No exception leaves an endpoint: whatever the request and whatever
    the collaborators do, [query], [generate_sql], [get_similar_queries],
    [get_history], [direct_sql] and [suggest_visualizations] end with an
    answer, a body or an [HTTPException]. *)
Theorem endpoints_always_answer question sql data limit top_k store_results
    require_approval approved w :
  (exists answer,
     (Api.query E question store_results require_approval approved w).1
     = Returned answer) /\
  (exists answer,
     (Api.generate_sql E question store_results require_approval approved w).1
     = Returned answer) /\
  (exists answer, (Api.get_similar_queries E question top_k w).1 = Returned answer) /\
  (exists answer, (Api.get_history E D limit w).1 = Returned answer) /\
  (exists answer, (Api.direct_sql E sql store_results w).1 = Returned answer) /\
  (exists answer, (Api.suggest_visualizations E pd data w).1 = Returned answer).
Proof.
  repeat split.
  - apply try_except_returns, internal_error_returns.
  - apply try_except_returns, internal_error_returns.
  - apply try_except_returns, internal_error_returns.
  - apply try_except_returns, internal_error_returns.
  - apply try_except_returns. intros e w1. eexists. reflexivity.
  - unfold Api.suggest_visualizations.
    destruct (suggest_visualizations E pd (Rows data)); eexists; reflexivity.
Qed.

Lemma direct_sql_reads sql store_results :
  reads (fun ev => is_executing ev = true) (Api.direct_sql E sql store_results).
Proof.
  unfold Api.direct_sql. apply reads_try_except.
  - apply reads_bind; [apply execute_query_reads |].
    intros [results execution_time].
    apply reads_bind; [apply results_to_dataframe_reads |].
    intros df. apply reads_mret.
  - intros e. apply reads_mret.
Qed.

(** X22.  [direct_sql] only executes: whatever [store_results] says, it calls
    neither the generator nor [store_query_pair] nor [replace_one] and
    leaves the collection as it was.  Its response tells the SQL and either
    a success, with the records and the execution time, or a failure, with
    the message and no execution time; it has no [question] and no
    [stored]. *)
Theorem direct_sql_only_executes sql store_results w :
  let run := Api.direct_sql E sql store_results w in
  collection run.2 = collection w /\
  (exists evs,
     trace run.2 = evs ++ trace w /\
     Forall (fun ev => is_executing ev = true) evs /\
     count_calls is_generate evs = 0%nat /\
     count_calls is_store_query_pair evs = 0%nat /\
     count_calls is_replace_one evs = 0%nat) /\
  exists response,
    run.1 = Returned response /\
    response !! "sql" = Some (VStr sql) /\
    response !! "question" = None /\
    response !! "stored" = None /\
    (response !! "was_successful" = Some (VBool true) /\
     (exists df, response !! "results" = Some (VRecords df)) /\
     (exists t, response !! "execution_time" = Some (VNum (Float t))) /\
     response !! "error_message" = None
     \/
     response !! "was_successful" = Some (VBool false) /\
     (exists msg, response !! "error_message" = Some (VStr msg)) /\
     response !! "results" = None /\
     response !! "execution_time" = None).
Proof.
  intros run. subst run.
  destruct (Api.direct_sql E sql store_results w) as [r w'] eqn:Hrun.
  destruct (direct_sql_reads _ _ _ _ _ Hrun) as [Hcoll (evs & Ht & Hevs)].
  simpl. split; [symmetry; exact Hcoll |]. split.
  - exists evs. split; [exact Ht |]. split; [exact Hevs |].
    repeat split; apply count_calls_none; (eapply Forall_impl; [exact Hevs |]);
      intros []; simpl; congruence.
  - unfold Api.direct_sql, try_except, mbind, M_bind in Hrun.
    destruct (execute_query E sql w) as [[[results t] | e] w1].
    + destruct (results_to_dataframe E results w1) as [[df | e] w2];
        inversion Hrun; subst; eexists; (split; [reflexivity |]);
        do 3 (split; [vm_compute; reflexivity |]).
      * left. split; [vm_compute; reflexivity |].
        split; [exists df; vm_compute; reflexivity |].
        split; [exists t; vm_compute; reflexivity |]. vm_compute. reflexivity.
      * right. split; [vm_compute; reflexivity |].
        split; [exists (str e); vm_compute; reflexivity |].
        split; vm_compute; reflexivity.
    + inversion Hrun; subst. eexists. split; [reflexivity |].
      do 3 (split; [vm_compute; reflexivity |]).
      right. split; [vm_compute; reflexivity |].
      split; [exists (str e); vm_compute; reflexivity |].
      split; vm_compute; reflexivity.
Qed.

Lemma awaiting_response_has_no_frame question sql similar :
  map_Forall (fun _ v => is_frame v = false) (awaiting_response question sql similar).
Proof.
  unfold awaiting_response. cbn [list_to_map foldr fst snd].
  repeat (apply map_Forall_insert_2; [reflexivity |]). apply map_Forall_empty.
Qed.

Lemma base_response_has_no_frame question sql was_successful execution_time similar
    require_approval approved :
  map_Forall (fun _ v => is_frame v = false)
    (base_response question sql was_successful execution_time similar
       require_approval approved).
Proof.
  unfold base_response. cbn [list_to_map foldr fst snd].
  repeat (apply map_Forall_insert_2; [reflexivity |]). apply map_Forall_empty.
Qed.

(** X23.  The endpoint [query] answers as [MongoDBSQLAgent.query] does: an
    exception of the agent becomes the [HTTPException] 500 whose detail is
    its message, and a response becomes the body, with the DataFrame under
    [results] turned into records and every other key as it was, so that
    no DataFrame is left in a body. *)
Theorem query_endpoint_answers question store_results require_approval approved w :
  match query E question store_results require_approval approved w with
  | (Raised e, w') =>
      Api.query E question store_results require_approval approved w
      = (Returned (inl {| status_code := 500; detail := str e |}), w')
  | (Returned response, w') =>
      exists body,
        Api.query E question store_results require_approval approved w
        = (Returned (inr body), w') /\
        map_Forall (fun _ v => is_frame v = false) body /\
        (forall key, key <> "results" -> body !! key = response !! key) /\
        (forall df, response !! "results" = Some (VFrame df) ->
           body !! "results" = Some (VRecords df)) /\
        (response !! "results" = None -> body !! "results" = None)
  end.
Proof.
  destruct (query E question store_results require_approval approved w)
    as [[response | e] w'] eqn:Hq.
  2: { unfold Api.query, try_except, mbind, M_bind. rewrite Hq. reflexivity. }
  assert (response !! "results" = None /\
          map_Forall (fun _ v => is_frame v = false) response
          \/ exists df rest,
               response = <["results" := VFrame df]> rest /\
               map_Forall (fun _ v => is_frame v = false) (delete "results" rest))
    as Hshape.
  { destruct (generate_sql E question w) as [[[sql similar] | e] w1] eqn:Hgen.
    2: { unfold query, mbind, M_bind in Hq. rewrite Hgen in Hq. discriminate. }
    destruct (require_approval && negb approved) eqn:Hgate.
    - unfold query, mbind, M_bind in Hq. rewrite Hgen, Hgate in Hq.
      inversion Hq; subst. left.
      split; [vm_compute; reflexivity | apply awaiting_response_has_no_frame].
    - destruct (query_executed E question store_results _ _ _ _ _ _ Hgen Hgate)
        as (ws & em & et & df & rp & w2 & Hatt & Hrun).
      rewrite Hrun in Hq. clear Hrun.
      match type of Hq with context [let (_, _) := ?run in _] =>
        destruct run as [[u | e] w3] end; [| discriminate].
      inversion Hq; subst. clear Hq.
      destruct (attempt_cases E sql w1) as (w2' & [(msg & Hatt') | (t & frame & Hatt')]);
        rewrite Hatt' in Hatt; inversion Hatt; subst.
      + left. split; [vm_compute; reflexivity |].
        apply map_Forall_insert_2; [reflexivity | apply base_response_has_no_frame].
      + right. exists frame. eexists. split.
        * cbn [optional_str]. apply insert_insert_ne. discriminate.
        * rewrite delete_insert_ne by discriminate.
          apply map_Forall_insert_2; [reflexivity |].
          apply map_Forall_delete, base_response_has_no_frame. }
  destruct Hshape as [[Hnone Hframes] | (df & rest & -> & Hframes)].
  - exists response. split.
    + unfold Api.query, try_except, mbind, M_bind. rewrite Hq, Hnone. reflexivity.
    + split; [exact Hframes |]. split; [reflexivity |].
      split; [intros df Hdf; congruence | intros _; exact Hnone].
  - exists (<["results" := VRecords df]> rest). split.
    + unfold Api.query, try_except, mbind, M_bind. rewrite Hq.
      rewrite lookup_insert_eq. cbn [to_dict mret M_ret].
      rewrite insert_insert_eq. reflexivity.
    + split.
      * rewrite <- insert_delete_eq. apply map_Forall_insert_2; [reflexivity | exact Hframes].
      * split; [intros key Hkey; rewrite !lookup_insert_ne by congruence; reflexivity |].
        split.
        -- intros df'. rewrite !lookup_insert_eq. congruence.
        -- rewrite lookup_insert_eq. discriminate.
Qed.

(** X24.  The endpoint [generate_sql] is the preview of the endpoint [query]:
    on the same world, whatever the flags of the two requests, it makes the
    same calls as [query] with [require_approval=True] and [approved=False]
    and leaves the same world, and it answers the same [HTTPException], or
    a body of three keys, [question], [sql] and [similar_queries], with the
    values that the body of [query] has under them; the four other keys of
    that body, [requires_approval], [was_successful], [execution_time] and
    [awaiting_approval], are not in it. *)
Theorem generate_sql_endpoint_is_the_preview question store_results require_approval
    approved store_results' w :
  let generated :=
    Api.generate_sql E question store_results require_approval approved w in
  let preview := Api.query E question store_results' true false w in
  generated.2 = preview.2 /\
  match generated.1, preview.1 with
  | Returned (inr answer), Returned (inr body) =>
      exists sql similar,
        answer = list_to_map
                   [("question", VStr question);
                    ("sql", VStr sql);
                    ("similar_queries", VSimilar similar)] /\
        body = list_to_map
                 [("question", VStr question);
                  ("sql", VStr sql);
                  ("requires_approval", VBool true);
                  ("was_successful", VNone);
                  ("execution_time", VNum (Int 0));
                  ("similar_queries", VSimilar similar);
                  ("awaiting_approval", VBool true)] /\
        size answer = 3%nat /\
        size body = 7%nat /\
        (forall key,
           key ∈ ["question"; "sql"; "similar_queries"] ->
           is_Some (answer !! key) /\ answer !! key = body !! key) /\
        (forall key,
           key ∈ ["requires_approval"; "was_successful"; "execution_time";
                  "awaiting_approval"] ->
           answer !! key = None /\ is_Some (body !! key))
  | Returned (inl error), Returned (inl error') => error = error'
  | _, _ => False
  end.
Proof.
  unfold Api.generate_sql, Api.query, try_except, mbind, M_bind, query.
  unfold mbind, M_bind.
  destruct (generate_sql E question w) as [[[sql similar] | e] w1].
  - cbn -[awaiting_response list_to_map].
    replace (awaiting_response question sql similar !! "results")
      with (@None Value) by (vm_compute; reflexivity).
    cbn -[awaiting_response list_to_map]. split; [reflexivity |].
    exists sql, similar. split; [reflexivity |]. split; [reflexivity |].
    split; [vm_compute; reflexivity |]. split; [vm_compute; reflexivity |].
    split; intros key Hkey; repeat (apply elem_of_cons in Hkey as [-> | Hkey]);
      try (apply elem_of_nil in Hkey; contradiction);
      split; first [vm_compute; reflexivity | eexists; vm_compute; reflexivity].
  - simpl. split; reflexivity.
Qed.

End EndpointTheory.

Section Once.

Context `{Carriers} (E : Env).

(** *** One execution, one store call *)

(** [execute_query] logs its own call first, once. *)
Lemma attempt_trace sql w :
  exists evs,
    trace (attempt E sql w).2 = evs ++ CallExecuteQuery sql :: trace w /\
    Forall (fun ev => is_executing ev = true /\ is_execute_query ev = false) evs.
Proof.
  unfold attempt, try_except, execute_query, results_to_dataframe, mbind, M_bind,
    emit, ask, perform. simpl.
  destruct (bq_query E _ sql) as [msg | job]; simpl.
  { exists [CallBigQuery sql]. split; [reflexivity | repeat constructor]. }
  destruct (job_result E _ job) as [msg | results]; simpl.
  { exists [CallJobResult; CallBigQuery sql]. split; [reflexivity | repeat constructor]. }
  destruct (to_dataframe E _ results) as [msg | df]; simpl;
    (exists [CallToDataframe; CallJobResult; CallBigQuery sql];
     split; [reflexivity | repeat constructor]).
Qed.

(** X25.  Past the gate, [query] executes the SQL that was generated
    exactly once, calls [store_query_pair] exactly once when
    [store_results] is true and never otherwise, whatever the outcome of the
    execution, calls [replace_one] once at most and does not call the
    generator again. *)
Theorem query_executes_and_stores_once question store_results require_approval approved
    w sql similar w1 :
  generate_sql E question w = (Returned (sql, similar), w1) ->
  require_approval && negb approved = false ->
  exists evs,
    trace (query E question store_results require_approval approved w).2
    = evs ++ trace w1 /\
    count_calls is_execute_query evs = 1%nat /\
    CallExecuteQuery sql ∈ evs /\
    count_calls is_store_query_pair evs = (if store_results then 1 else 0)%nat /\
    (count_calls is_replace_one evs <= 1)%nat /\
    count_calls is_generate evs = 0%nat.
Proof.
  intros Hgen Hgate.
  destruct (query_executed E question store_results _ _ _ _ _ _ Hgen Hgate)
    as (ws & em & et & df & rp & w2 & Hatt & Hrun).
  destruct (attempt_trace sql w1) as (evs2 & Ht2 & Hevs2).
  rewrite Hatt in Ht2. simpl in Ht2.
  assert (forall p : Event -> bool,
            (forall ev, is_executing ev = true -> p ev = false) ->
            count_calls p (evs2 ++ [CallExecuteQuery sql]) = 0%nat) as Hzero.
  { intros p Hp. apply count_calls_none, Forall_app. split.
    - eapply Forall_impl; [exact Hevs2 |]. intros ev [Hex _]. exact (Hp ev Hex).
    - repeat constructor. apply Hp. reflexivity. }
  assert (count_calls is_execute_query (evs2 ++ [CallExecuteQuery sql]) = 1%nat) as Hone.
  { rewrite count_calls_app, (count_calls_none is_execute_query evs2); [reflexivity |].
    eapply Forall_impl; [exact Hevs2 |]. intros ev [_ Hnot]. exact Hnot. }
  assert (CallExecuteQuery sql ∈ evs2 ++ [CallExecuteQuery sql]) as Hin.
  { apply elem_of_app. right. apply list_elem_of_here. }
  assert (trace w2 = (evs2 ++ [CallExecuteQuery sql]) ++ trace w1) as Ht2'.
  { rewrite Ht2, <- app_assoc. reflexivity. }
  rewrite Hrun. clear Hrun. destruct store_results.
  - pose proof (store_query_pair_run E question sql et ws rp w2) as Hstore.
    cbn zeta in Hstore.
    destruct (store_query_pair E question sql et ws rp w2) as [r w3].
    assert (exists evs3,
              trace w3 = evs3 ++ trace w2 /\
              count_calls is_execute_query evs3 = 0%nat /\
              count_calls is_store_query_pair evs3 = 1%nat /\
              (count_calls is_replace_one evs3 <= 1)%nat /\
              count_calls is_generate evs3 = 0%nat) as (evs3 & Ht3 & H1 & H2 & H3 & H4).
    { destruct (model_encode E _ question).
      - inversion Hstore; subst. eexists [_; _]. split; [reflexivity |].
        repeat split; first [reflexivity | unfold count_calls; simpl; lia].
      - destruct (Py.encode_error question).
        + inversion Hstore; subst. eexists [_; _]. split; [reflexivity |].
          repeat split; first [reflexivity | unfold count_calls; simpl; lia].
        + destruct (replace_fault E _); inversion Hstore; subst;
            (eexists [_; _; _]; split; [reflexivity |];
             repeat split; first [reflexivity | unfold count_calls; simpl; lia]). }
    exists (evs3 ++ evs2 ++ [CallExecuteQuery sql]).
    assert (trace (match r with
                   | Returned _ =>
                       (Returned
                          (let response :=
                             base_response question sql ws et similar require_approval
                               approved in
                           if ws
                           then <["result_preview" := optional_str rp]>
                                  (<["results" := df]> response)
                           else <["error_message" := optional_str em]> response), w3)
                   | Raised e => (Raised e, w3)
                   end).2 = trace w3) as -> by (destruct r; reflexivity).
    split; [rewrite Ht3, Ht2', !app_assoc; reflexivity |].
    rewrite !(count_calls_app _ evs3), H1, H2, H4, Hone.
    rewrite (Hzero is_store_query_pair), (Hzero is_generate), (Hzero is_replace_one);
      try (intros []; simpl; congruence).
    split; [reflexivity |].
    split; [apply elem_of_app; right; exact Hin |].
    split; [reflexivity |]. split; [lia | reflexivity].
  - cbn [mret M_ret snd]. exists (evs2 ++ [CallExecuteQuery sql]).
    split; [exact Ht2' |]. split; [exact Hone |]. split; [exact Hin |].
    rewrite (Hzero is_store_query_pair), (Hzero is_generate), (Hzero is_replace_one);
      try (intros []; simpl; congruence).
    split; [reflexivity |]. split; [lia | reflexivity].
Qed.

End Once.

(** ** The theorems on the test doubles *)

#[local] Existing Instance Mock.carriers.

(** The test suite of RFC 1321, and a question of the history. *)
Example md5_examples :
  Hashlib.md5_hexdigest "" = "d41d8cd98f00b204e9800998ecf8427e" /\
  Hashlib.md5_hexdigest "a" = "0cc175b9c0f1b6a831c399e269772661" /\
  Hashlib.md5_hexdigest "abc" = "900150983cd24fb0d6963f7d28e17f72" /\
  Hashlib.md5_hexdigest "message digest" = "f96b697d7cb7938d525a2f31aaf161d0" /\
  Hashlib.md5_hexdigest "List all orders" = "42b23d45920dc5935483ba1292704636".
Proof. repeat split; vm_compute; reflexivity. Qed.

(** The hash tells the case and the spaces of a question. *)
Example md5_is_of_the_exact_text :
  Hashlib.md5_hexdigest "list all orders" = "81b6ee1f0db69d007f2bea32a9f64623" /\
  Hashlib.md5_hexdigest "list all orders" <> Hashlib.md5_hexdigest "List all orders" /\
  Hashlib.md5_hexdigest "List all  orders" <> Hashlib.md5_hexdigest "List all orders".
Proof. repeat split; vm_compute; congruence. Qed.

Example split_example :
  Py.split "find all  orders over 100 dollars " =
  ["find"; "all"; "orders"; "over"; "100"; "dollars"].
Proof. vm_compute. reflexivity. Qed.

Example lower_example : Py.lower "Total Revenue BY region" = "total revenue by region".
Proof. vm_compute. reflexivity. Qed.

(** Characters of several bytes: the capital sigma at the end of a word and
    inside one, and the dotted capital I, whose lower case has two
    characters. *)
Example lower_beyond_ascii :
  Py.lower "ΟΔΟΣ ΣΟΦΙΑΣ" = "οδος σοφιας" /\
  Py.len "İlk" = 3 /\
  Py.len (Py.lower "İlk") = 4 /\
  Py.split ("ÉTÉ" +:+ Py.chr 0x2003 +:+ "Çà") = ["ÉTÉ"; "Çà"] /\
  Py.lower "ÉTÉ Çà" = "été çà".
Proof. repeat split; vm_compute; reflexivity. Qed.

Example join_example : Py.join "|" ["find"; "orders"; "over"] = "find|orders|over".
Proof. reflexivity. Qed.

Example join_nil : Py.join "|" [] = "".
Proof. reflexivity. Qed.

(** A preview on a run: nothing but generation happens. *)
Example preview_run_example :
  trace (query Mock.working Mock.sales_question true true false Mock.world).2
  = Mock.generated.
Proof. reflexivity. Qed.

(** C4 on a run: of the two entries retrieved, the successful one is passed. *)
Lemma generator_receives_successful_examples_witness :
  let E := Mock.working in
  let question := "find all orders and customers" in
  let similar :=
    [Mock.projected "List all orders" "SELECT * FROM orders" true;
     Mock.projected "Count the customers" "SELECT COUNT(*) FROM customer" false] in
  let w1 :=
    Mock.after [CallFind "find|orders|customers" "i" 3;
                CallAggregate Mock.embedding 30 3;
                CallEncode question] in
  let passed := Some [{| ex_question := "List all orders"; ex_sql := "SELECT * FROM orders" |}] in
  find_similar_queries E question 3 Mock.world = (Returned similar, w1) /\
  Forall complete similar /\
  generate_sql E question Mock.world
  = (Returned (Mock.test_sql, similar),
     Mock.after (CallVannaGenerateSql question passed true :: trace w1)) /\
  exists examples,
    let t := CallVannaGenerateSql question examples true :: trace w1 in
    examples = match successful_examples similar with
               | [] => None
               | pairs => Some pairs
               end /\
    examples <> Some [] /\
    example_pairs similar = inr (successful_examples similar) /\
    generate_sql E question Mock.world
    = (match vn_generate_sql E t question examples true with
       | inl msg => Raised {| origin := Generator; str := msg |}
       | inr sql => Returned (sql, similar)
       end, {| collection := collection w1; trace := t |}).
Proof.
  cbv zeta.
  assert (Forall complete
            [Mock.projected "List all orders" "SELECT * FROM orders" true;
             Mock.projected "Count the customers" "SELECT COUNT(*) FROM customer" false])
    as Hcomplete.
  { repeat constructor; eexists; reflexivity. }
  split; [reflexivity |]. split; [exact Hcomplete |]. split; [reflexivity |].
  destruct (generator_receives_successful_examples Mock.working
              "find all orders and customers" Mock.world _ _ eq_refl)
    as (evs & _ & _ & Hpassed & _).
  exact (Hpassed Hcomplete).
Defined.

(** On a collection that another writer shares, the keyword search finds a
    document without [was_successful], and [generate_sql] ends with the
    [KeyError] before the generator is called. *)
Example generation_fails_on_a_bare_document :
  let question := Mock.sales_question in
  let similar := [Mock.top_records; project Mock.bare] in
  let retrieved :=
    {| collection := collection Mock.shared_world;
       trace := [CallFind "show|sales|data" "i" 3;
                 CallAggregate Mock.embedding 30 3;
                 CallEncode question] |} in
  find_similar_queries Mock.working question 3 Mock.shared_world
  = (Returned similar, retrieved) /\
  ~ Forall complete similar /\
  generate_sql Mock.working question Mock.shared_world
  = (Raised {| origin := Interpreter; str := "'was_successful'" |}, retrieved).
Proof.
  cbv zeta. split; [reflexivity |]. split; [| reflexivity].
  intros Hcomplete. apply Forall_cons in Hcomplete as [_ Hcomplete].
  apply Forall_cons in Hcomplete as [Hbare _]. exact Hbare.
Qed.

(** The example of the specification: of a successful and a failed entry
    only the successful one is passed, and nothing is passed when no entry
    was successful. *)
Example examples_argument_example :
  examples_argument
    [Mock.projected "a" "A" true; Mock.projected "b" "B" false]
  = Some [{| ex_question := "a"; ex_sql := "A" |}]
  /\ examples_argument [Mock.projected "b" "B" false] = None.
Proof. split; reflexivity. Qed.

(** C9: on a run, the response returned while approval is awaited is not the
    record with the key [approved: False]; it has no such key. *)
Lemma awaiting_response_has_no_approved_key :
  let question := Mock.sales_question in
  let sql := Mock.test_sql in
  let similar := [Mock.top_records] in
  let run := query Mock.working question true true false Mock.world in
  generate_sql Mock.working question Mock.world
  = (Returned (sql, similar), Mock.after Mock.generated) /\
  run.1
  <> Returned
       (list_to_map
          [("question", VStr question);
           ("sql", VStr sql);
           ("similar_queries", VSimilar similar);
           ("requires_approval", VBool true);
           ("approved", VBool false);
           ("was_successful", VNone);
           ("execution_time", VNum (Int 0))]) /\
  exists response, run.1 = Returned response /\ response !! "approved" = None.
Proof.
  cbv zeta. split; [reflexivity |]. split.
  - intros Hclaimed.
    apply (f_equal (fun outcome =>
                      match outcome with
                      | Returned response => response !! "approved"
                      | Raised _ => None
                      end)) in Hclaimed.
    vm_compute in Hclaimed. discriminate Hclaimed.
  - eexists. split; [reflexivity | vm_compute; reflexivity].
Qed.

(** C9, amended, on a run. *)
Lemma awaiting_approval_response_witness :
  let question := Mock.sales_question in
  let sql := Mock.test_sql in
  let similar := [Mock.top_records] in
  let w1 := Mock.after Mock.generated in
  generate_sql Mock.working question Mock.world = (Returned (sql, similar), w1) /\
  exists response,
    query Mock.working question true true false Mock.world = (Returned response, w1) /\
    response = list_to_map
                 [("question", VStr question);
                  ("sql", VStr sql);
                  ("requires_approval", VBool true);
                  ("was_successful", VNone);
                  ("execution_time", VNum (Int 0));
                  ("similar_queries", VSimilar similar);
                  ("awaiting_approval", VBool true)] /\
    response !! "approved" = None /\
    response !! "awaiting_approval" = Some (VBool true) /\
    size response = 7%nat.
Proof.
  split; [reflexivity |].
  apply (awaiting_approval_response Mock.working Mock.sales_question true Mock.world).
  reflexivity.
Defined.

(** C8 on a run: Vanna cannot be reached. *)
Lemma generation_failure_propagates_witness :
  let question := Mock.sales_question in
  let msg := "Vanna is unreachable" in
  let e := {| origin := Generator; str := msg |} in
  (generator_raises Mock.failing_generator question Mock.world msg
   /\ e = {| origin := Generator; str := msg |}
   \/ embedder_raises Mock.failing_generator question Mock.world msg
      /\ e = {| origin := Embedder; str := msg |}) /\
  exists w',
    query Mock.failing_generator question true false false Mock.world = (Raised e, w') /\
    collection w' = collection Mock.world /\
    exists evs,
      trace w' = evs ++ trace Mock.world /\
      count_calls is_store_query_pair evs = 0%nat /\
      count_calls is_replace_one evs = 0%nat /\
      count_calls is_execute_query evs = 0%nat.
Proof.
  assert (generator_raises Mock.failing_generator Mock.sales_question Mock.world
            "Vanna is unreachable") as Hraises.
  { exists [Mock.top_records],
      (Mock.after [CallFind "show|sales|data" "i" 3;
                   CallAggregate Mock.embedding 30 3;
                   CallEncode Mock.sales_question]).
    split; [reflexivity |]. split; [| reflexivity].
    repeat constructor; eexists; reflexivity. }
  split; [left; split; [exact Hraises | reflexivity] |].
  apply (generation_failure_propagates Mock.failing_generator Mock.sales_question
           true false false Mock.world "Vanna is unreachable").
  left. split; [exact Hraises | reflexivity].
Defined.

(** C3 on a run: BigQuery rejects the query and the store refuses the write.
    The failure is offered to the store, once, and [query] raises the
    exception of the store instead of reporting the failed query; the
    endpoint reports both. *)
Lemma execution_failure_stored_then_reported_witness :
  let E := Mock.failing_query_and_store in
  let question := Mock.sales_question in
  let sql := Mock.test_sql in
  let similar := [Mock.top_records] in
  let e := {| origin := Warehouse; str := "Query failed" |} in
  let e' := {| origin := Store; str := "connection refused" |} in
  let w1 := Mock.after Mock.generated in
  let w2 := Mock.after Mock.rejected in
  let w3 := Mock.after Mock.stored_failure in
  generate_sql E question Mock.world = (Returned (sql, similar), w1) /\
  false && negb false = false /\
  execute_query E sql w1 = (Raised e, w2) /\
  store_query_pair E question sql (Int 0) false None w2 = (Raised e', w3) /\
  (exists evs,
     trace (query E question true false false Mock.world).2 = evs ++ trace Mock.world /\
     count_calls is_store_query_pair evs = 1%nat /\
     CallStoreQueryPair question sql (Int 0) false None ∈ evs) /\
  query E question true false false Mock.world = (Raised e', w3) /\
  (~ exists response,
       (query E question true false false Mock.world).1 = Returned response) /\
  collection w3 = collection Mock.world /\
  exists answer,
    store_question_sql_pair E question sql true w1 = (Returned answer, w3) /\
    answer !! "was_successful" = Some (VBool false) /\
    answer !! "error_message"
    = Some (VStr "Query failed (Additionally, failed to store query: connection refused)").
Proof.
  cbv zeta.
  assert (store_query_pair Mock.failing_query_and_store Mock.sales_question
            Mock.test_sql (Int 0) false None (Mock.after Mock.rejected)
          = (Raised {| origin := Store; str := "connection refused" |},
             Mock.after Mock.stored_failure)) as Hstored by reflexivity.
  pose proof (execution_failure_stored_then_reported Mock.failing_query_and_store
                Mock.sales_question false false Mock.world Mock.test_sql
                [Mock.top_records] (Mock.after Mock.generated)
                {| origin := Warehouse; str := "Query failed" |}
                (Mock.after Mock.rejected) eq_refl eq_refl eq_refl) as Hclaim.
  cbv zeta in Hclaim. rewrite Hstored in Hclaim. cbn [fst snd] in Hclaim.
  destruct Hclaim as (Hcalls & _ & _ & Hquery & Hcoll & Hanswer).
  do 3 (split; [reflexivity |]). split; [exact Hstored |]. split; [exact Hcalls |].
  split; [exact Hquery |]. split.
  - intros [response Hreturned]. rewrite Hquery in Hreturned. discriminate Hreturned.
  - split; [exact Hcoll | exact Hanswer].
Defined.

(** C2 on a run: BigQuery rejects the query, the store refuses the write, and
    [query] raises the exception of the store. *)
Lemma store_failure_escapes_query_witness :
  let E := Mock.failing_query_and_store in
  let question := Mock.sales_question in
  let sql := Mock.test_sql in
  let e := {| origin := Warehouse; str := "Query failed" |} in
  let e' := {| origin := Store; str := "connection refused" |} in
  let w1 := Mock.after Mock.generated in
  let w2 := Mock.after Mock.rejected in
  let w3 := Mock.after Mock.stored_failure in
  generate_sql E question Mock.world = (Returned (sql, [Mock.top_records]), w1) /\
  false && negb false = false /\
  execute_query E sql w1 = (Raised e, w2) /\
  store_query_pair E question sql (Int 0) false None w2 = (Raised e', w3) /\
  query E question true false false Mock.world = (Raised e', w3).
Proof.
  cbv zeta. repeat (split; [reflexivity |]).
  apply (store_failure_escapes_query Mock.failing_query_and_store
           Mock.sales_question false false Mock.world Mock.test_sql
           [Mock.top_records] (Mock.after Mock.generated)
           {| origin := Warehouse; str := "Query failed" |}
           (Mock.after Mock.rejected)); reflexivity.
Defined.

(** The endpoint on the same failure: a response, and both messages. *)
Example endpoint_run_example :
  exists response,
    (store_question_sql_pair Mock.failing_query_and_store Mock.sales_question
       Mock.test_sql true Mock.world).1 = Returned response /\
    response !! "error_message"
    = Some (VStr "Query failed (Additionally, failed to store query: connection refused)") /\
    response !! "was_successful" = Some (VBool false) /\
    response !! "stored" = Some (VBool false).
Proof. eexists. split; [reflexivity |]. repeat split; vm_compute; reflexivity. Qed.

(** C5 on a run: a question of the history is stored twice, the first time
    with a preview.  Its one document is that of the second call. *)
Lemma upsert_is_idempotent_on_question_witness :
  let E := Mock.working in
  let Q := "List all orders" in
  let w1 := Mock.first_write in
  let w2 := Mock.second_write in
  let id := Hashlib.md5_hexdigest Q in
  NoDup (st_id <$> collection Mock.world) /\
  store_query_pair E Q "SELECT 1" Mock.half_a_second true (Some "1") Mock.world
  = (Returned tt, w1) /\
  store_query_pair E Q "SELECT 2" (Int 0) false None w1 = (Returned tt, w2) /\
  keyed_by_question (collection Mock.world) /\
  id = "42b23d45920dc5935483ba1292704636" /\
  filter (fun d => st_id d = IdStr id) (collection w2) = [as_stored Mock.asked_twice] /\
  length (collection w2) = length (collection w1) /\
  filter (fun d => st_question d = Some Q) (collection w2) = [as_stored Mock.asked_twice].
Proof.
  cbv zeta.
  assert (NoDup (st_id <$> collection Mock.world)) as Hnd.
  { apply (bool_decide_unpack _). vm_compute. reflexivity. }
  assert (keyed_by_question (collection Mock.world)) as Hkeyed.
  { split; [exact Hnd |]. repeat constructor; eexists; split; reflexivity. }
  assert (store_query_pair Mock.working "List all orders" "SELECT 1" Mock.half_a_second
            true (Some "1") Mock.world
          = (Returned tt, Mock.first_write)) as Hfirst
    by (vm_compute; reflexivity).
  assert (store_query_pair Mock.working "List all orders" "SELECT 2" (Int 0) false None
            Mock.first_write
          = (Returned tt, Mock.second_write)) as Hsecond
    by (vm_compute; reflexivity).
  split; [exact Hnd |]. split; [exact Hfirst |]. split; [exact Hsecond |].
  split; [exact Hkeyed |].
  destruct (upsert_is_idempotent_on_question Mock.working "List all orders"
              "SELECT 1" Mock.half_a_second true (Some "1")
              "SELECT 2" (Int 0) false None Mock.world _ _ Hnd Hfirst Hsecond)
    as (_ & _ & _ & _ & first & embedding & Hembedding & _ & _ & _ & Hone & Hlength & _
        & _ & Hquestion).
  assert (embedding = Mock.embedding) as -> by (inversion Hembedding; reflexivity).
  split; [vm_compute; reflexivity |].
  split; [exact Hone |]. split; [exact Hlength |]. exact (Hquestion Hkeyed).
Defined.

(** The second write replaces the first where it stood. *)
Example upsert_twice_example :
  st_sql <$> collection Mock.first_write
  = [Some "SELECT * FROM t LIMIT 5"; Some "SELECT 1"; Some "SELECT COUNT(*) FROM customer"] /\
  st_result_preview <$> collection Mock.first_write = [None; Some "1"; None] /\
  st_sql <$> collection Mock.second_write
  = [Some "SELECT * FROM t LIMIT 5"; Some "SELECT 2"; Some "SELECT COUNT(*) FROM customer"] /\
  st_result_preview <$> collection Mock.second_write = [None; None; None].
Proof. repeat split; reflexivity. Qed.



(** C7 on a run: the preview, then the approved call, with a generator that
    answers differently the second time. *)
Lemma approval_gate_regenerates_witness :
  let E := Mock.fickle_generator in
  let question := Mock.sales_question in
  let preview := awaiting_response question "SELECT * FROM sales" [Mock.top_records] in
  let w0 := Mock.world in
  let w1 := Mock.after Mock.generated in
  let w2 := {| collection := Mock.history ++ [as_stored Mock.stored_document];
               trace := Mock.approved_run ++ Mock.generated |} in
  let response := Mock.approved_response in
  query E question true true false w0 = (Returned preview, w1) /\
  query E question true true true w1 = (Returned response, w2) /\
  preview !! "sql" = Some (VStr "SELECT * FROM sales") /\
  exists evs1 evs2 sql2 t2 examples2,
    trace w1 = evs1 ++ trace w0 /\
    trace w2 = evs2 ++ trace w1 /\
    count_calls is_generate evs1 = 1%nat /\
    count_calls is_generate evs2 = 1%nat /\
    count_calls is_generate (evs2 ++ evs1) = 2%nat /\
    CallVannaGenerateSql question examples2 true ∈ evs2 /\
    (exists before, t2 = before ++ trace w1 /\ before <> []) /\
    vn_generate_sql E t2 question examples2 true = inr sql2 /\
    response !! "sql" = Some (VStr sql2).
Proof.
  cbv zeta.
  assert (query Mock.fickle_generator Mock.sales_question true true false Mock.world
          = (Returned (awaiting_response Mock.sales_question "SELECT * FROM sales"
                         [Mock.top_records]), Mock.after Mock.generated)) as Hfirst
    by reflexivity.
  assert (query Mock.fickle_generator Mock.sales_question true true true
            (Mock.after Mock.generated)
          = (Returned Mock.approved_response,
             {| collection := Mock.history ++ [as_stored Mock.stored_document];
                trace := Mock.approved_run ++ Mock.generated |})) as Hsecond
    by reflexivity.
  split; [exact Hfirst |]. split; [exact Hsecond |].
  split; [vm_compute; reflexivity |].
  exact (approval_gate_regenerates Mock.fickle_generator Mock.sales_question
           true true _ _ _ _ _ Hfirst Hsecond).
Defined.

(** The SQL that is executed is not the SQL that was previewed. *)
Example regenerated_sql_differs :
  Mock.approved_response !! "sql" = Some (VStr "SELECT * FROM sales LIMIT 10") /\
  awaiting_response Mock.sales_question "SELECT * FROM sales" [Mock.top_records] !! "sql"
  = Some (VStr "SELECT * FROM sales").
Proof. split; vm_compute; reflexivity. Qed.



(** ** Runs of the further theorems on the test doubles *)

(** [store_query_pair] on a question with a lone surrogate, as [json.loads]
    reads the escape of one: the embedder is asked, [encode()] raises and
    [replace_one] is not called. *)
Example store_query_pair_of_a_lone_surrogate :
  let question := "sales " +:+ Py.chr 0xD83D in
  store_query_pair Mock.working question "SELECT 1" (Int 0) true None Mock.world
  = (Raised
       {| origin := Interpreter;
          str := "'utf-8' codec can't encode character '\ud83d' in position 6: "
                 +:+ "surrogates not allowed" |},
     {| collection := collection Mock.world;
        trace := CallEncode question
                 :: CallStoreQueryPair question "SELECT 1" (Int 0) true None
                 :: trace Mock.world |}).
Proof. vm_compute. reflexivity. Qed.

(** X2 on a run: a question that the history does not hold, stored with an
    empty preview. *)
Lemma new_question_is_appended_witness :
  let E := Mock.working in
  let question := "How many orders are late" in
  let run :=
    store_query_pair E question "SELECT 1" Mock.half_a_second true (Some "")
      Mock.world in
  (IdStr (Hashlib.md5_hexdigest question) ∉ st_id <$> collection Mock.world) /\
  run = (Returned tt, run.2) /\
  length (collection run.2) = 4%nat /\
  exists document,
    collection run.2 = collection Mock.world ++ [as_stored document] /\
    doc_id document = Hashlib.md5_hexdigest question /\
    doc_question document = question /\
    doc_sql document = "SELECT 1" /\
    doc_execution_time document = Mock.half_a_second /\
    doc_was_successful document = true /\
    doc_result_preview document = None.
Proof.
  cbv zeta.
  assert (IdStr (Hashlib.md5_hexdigest "How many orders are late")
          ∉ st_id <$> collection Mock.world) as Hnew.
  { apply (bool_decide_unpack _). vm_compute. reflexivity. }
  split; [exact Hnew |]. split; [reflexivity |]. split; [reflexivity |].
  exact (new_question_is_appended Mock.working "How many orders are late" "SELECT 1"
           Mock.half_a_second true (Some "") Mock.world _ Hnew eq_refl).
Defined.

(** X3 on a run: a question of the history is stored again. *)
Lemma store_query_pair_keeps_the_key_witness :
  let coll :=
    collection (store_query_pair Mock.working "List all orders" "SELECT 2" (Int 0)
                  false None Mock.world).2 in
  keyed_by_question (collection Mock.world) /\
  length coll = 3%nat /\
  keyed_by_question coll /\
  forall asked,
    (length (filter (fun d => st_question d = Some asked) coll) <= 1)%nat.
Proof.
  cbv zeta.
  assert (keyed_by_question (collection Mock.world)) as Hkeyed.
  { split.
    - apply (bool_decide_unpack _). vm_compute. reflexivity.
    - repeat constructor; eexists; split; reflexivity. }
  split; [exact Hkeyed |]. split; [reflexivity |].
  exact (store_query_pair_keeps_the_key Mock.working "List all orders" "SELECT 2"
           (Int 0) false None Mock.world Hkeyed).
Defined.

(** X5 on a run: the index answers with four entries to a [top_k] of 3. *)
Lemma vector_results_are_returned_witness :
  let E := Mock.indexed in
  let question := Mock.sales_question in
  let t1 := [CallEncode question] in
  let t2 := CallAggregate Mock.embedding 30 3 :: t1 in
  model_encode E t1 question = inr Mock.embedding /\
  aggregate E t2 Mock.history Mock.embedding (3 * 10) 3 = inr Mock.four_entries /\
  length Mock.four_entries = 4%nat /\
  find_similar_queries E question 3 Mock.world
  = (Returned Mock.four_entries, Mock.after t2).
Proof.
  cbv zeta. split; [reflexivity |]. split; [reflexivity |]. split; [reflexivity |].
  exact (vector_results_are_returned Mock.indexed Mock.sales_question 3 Mock.world
           Mock.embedding _ _ eq_refl eq_refl).
Defined.

(** X7 on a run: the approved call of the regenerating generator. *)
Lemma executed_response_reports_results_or_error_witness :
  let E := Mock.fickle_generator in
  let response := Mock.approved_response in
  let w' := {| collection := Mock.history ++ [as_stored Mock.stored_document];
               trace := Mock.approved_run ++ Mock.generated |} in
  true && negb true = false /\
  query E Mock.sales_question true true true (Mock.after Mock.generated)
  = (Returned response, w') /\
  response !! "awaiting_approval" = None /\
  response !! "requires_approval" = Some (VBool true) /\
  response !! "approved" = Some (VBool true) /\
  (response !! "was_successful" = Some (VBool true) /\
   (exists df,
      response !! "results" = Some (VFrame df) /\
      response !! "result_preview" = Some (VStr (preview E df))) /\
   (exists t, response !! "execution_time" = Some (VNum (Float t))) /\
   response !! "error_message" = None
   \/
   response !! "was_successful" = Some (VBool false) /\
   (exists msg, response !! "error_message" = Some (VStr msg)) /\
   response !! "execution_time" = Some (VNum (Int 0)) /\
   response !! "results" = None /\
   response !! "result_preview" = None).
Proof.
  cbv zeta.
  assert (query Mock.fickle_generator Mock.sales_question true true true
            (Mock.after Mock.generated)
          = (Returned Mock.approved_response,
             {| collection := Mock.history ++ [as_stored Mock.stored_document];
                trace := Mock.approved_run ++ Mock.generated |})) as Hrun
    by reflexivity.
  split; [reflexivity |]. split; [exact Hrun |].
  exact (executed_response_reports_results_or_error Mock.fickle_generator
           Mock.sales_question true true true (Mock.after Mock.generated)
           Mock.approved_response _ eq_refl Hrun).
Defined.

(** X9 on a run: the keyword search finds the document of another writer,
    which does not tell whether its query was successful. *)
Lemma query_raises_from_generation_or_storage_witness :
  let E := Mock.working in
  let question := Mock.sales_question in
  let e := {| origin := Interpreter; str := "'was_successful'" |} in
  let w' :=
    {| collection := collection Mock.shared_world;
       trace := [CallFind "show|sales|data" "i" 3;
                 CallAggregate Mock.embedding 30 3;
                 CallEncode question] |} in
  query E question true false false Mock.shared_world = (Raised e, w') /\
  (origin e = Embedder \/ origin e = Store \/ origin e = Generator
   \/ origin e = Interpreter) /\
  (origin e = Interpreter ->
   (generate_sql E question Mock.shared_world = (Raised e, w') /\
    exists similar key,
      find_similar_queries E question 3 Mock.shared_world = (Returned similar, w') /\
      ~ Forall complete similar /\
      key ∈ ["was_successful"; "question"; "sql"] /\
      str e = "'" +:+ key +:+ "'")
   \/ (true = true /\
       false && negb false = false /\
       Py.encode_error question = Some (str e))) /\
  (true = false \/ false && negb false = true ->
   generate_sql E question Mock.shared_world = (Raised e, w')).
Proof.
  cbv zeta.
  assert (query Mock.working Mock.sales_question true false false Mock.shared_world
          = (Raised {| origin := Interpreter; str := "'was_successful'" |},
             {| collection := collection Mock.shared_world;
                trace := [CallFind "show|sales|data" "i" 3;
                          CallAggregate Mock.embedding 30 3;
                          CallEncode Mock.sales_question] |})) as Hrun
    by reflexivity.
  split; [exact Hrun |].
  exact (query_raises_from_generation_or_storage Mock.working
           Mock.sales_question true false false Mock.shared_world _ _ Hrun).
Defined.

(** X10 on a run: the approved call stores what it answers. *)
Lemma stored_document_agrees_with_response_witness :
  let E := Mock.fickle_generator in
  let question := Mock.sales_question in
  let response := Mock.approved_response in
  let w := Mock.after Mock.generated in
  let w' := {| collection := Mock.history ++ [as_stored Mock.stored_document];
               trace := Mock.approved_run ++ Mock.generated |} in
  true && negb true = false /\
  query E question true true true w = (Returned response, w') /\
  exists document,
    collection w'
    = replace_upsert (Hashlib.md5_hexdigest question) document (collection w) /\
    trace w' !! 0%nat = Some (CallReplaceOne (Hashlib.md5_hexdigest question) document) /\
    response !! "question" = Some (VStr (doc_question document)) /\
    response !! "sql" = Some (VStr (doc_sql document)) /\
    response !! "was_successful" = Some (VBool (doc_was_successful document)) /\
    response !! "execution_time" = Some (VNum (doc_execution_time document)) /\
    (forall p, response !! "result_preview" = Some (VStr p) -> p <> "" ->
       doc_result_preview document = Some p) /\
    (response !! "result_preview" = None -> doc_result_preview document = None).
Proof.
  cbv zeta.
  assert (query Mock.fickle_generator Mock.sales_question true true true
            (Mock.after Mock.generated)
          = (Returned Mock.approved_response,
             {| collection := Mock.history ++ [as_stored Mock.stored_document];
                trace := Mock.approved_run ++ Mock.generated |})) as Hrun
    by reflexivity.
  split; [reflexivity |]. split; [exact Hrun |].
  exact (stored_document_agrees_with_response Mock.fickle_generator
           Mock.sales_question true true (Mock.after Mock.generated)
           Mock.approved_response _ eq_refl Hrun).
Defined.

(** X11 on a run: a query and a call of the endpoint on the history. *)
Lemma callers_keep_the_key_witness :
  let E := Mock.working in
  keyed_by_question (collection Mock.world) /\
  keyed_by_question
    (collection (query E Mock.sales_question true false false Mock.world).2) /\
  keyed_by_question
    (collection (store_question_sql_pair E Mock.sales_question Mock.test_sql true
                   Mock.world).2).
Proof.
  cbv zeta.
  assert (keyed_by_question (collection Mock.world)) as Hkeyed.
  { split.
    - apply (bool_decide_unpack _). vm_compute. reflexivity.
    - repeat constructor; eexists; split; reflexivity. }
  split; [exact Hkeyed |].
  exact (callers_keep_the_key Mock.working Mock.sales_question Mock.test_sql true
           false false Mock.world Hkeyed).
Defined.

(** X12 on a run: the two latest of three documents. *)
Example history_of_the_agent :
  he_timestamp <$>
    match (get_query_history Mock.working Mock.datetime 2 Mock.dated_world).1 with
    | Returned history => history
    | Raised _ => []
    end
  = [Some "7"; Some "5"].
Proof. vm_compute. reflexivity. Qed.

(** X12 on the collection that the test of the connection shares: the string
    under its timestamp ends the history, unless the limit leaves its
    document out. *)
Example history_of_a_shared_collection :
  get_query_history Mock.working Mock.datetime 10 Mock.shared_world
  = (Raised {| origin := Interpreter;
               str := "'str' object has no attribute 'isoformat'" |},
     Mock.shared_world) /\
  he_question <$>
    match (get_query_history Mock.working Mock.datetime 3 Mock.shared_world).1 with
    | Returned history => history
    | Raised _ => []
    end
  = [Some "Show me top records"; Some "List all orders"; Some "Count the customers"].
Proof. split; vm_compute; reflexivity. Qed.

(** X13 on a run: three regions and their sales.  The pie is possible, and
    the bar is recommended. *)
Lemma pie_is_never_recommended_witness :
  let pd := Mock.sales_by_region in
  let data := Rows (pd := pd) Mock.rows in
  let suggestions :=
    {| recommended_chart := Some "bar";
       possible_charts :=
         [bar_chart 3 ["region"] ["sales"]; pie_chart 3 ["region"] ["sales"]];
       metrics := ["sales"];
       dimensions := ["region"] |} in
  suggest_visualizations Mock.working pd data = inr (Suggested suggestions) /\
  chart_type <$> possible_charts suggestions = ["bar"; "pie"] /\
  recommended_chart suggestions <> Some "pie" /\
  recommended_chart suggestions <> Some "scatter" /\
  (recommended_chart suggestions = Some "line"
   \/ recommended_chart suggestions = Some "bar"
   \/ recommended_chart suggestions = Some "table"
   \/ recommended_chart suggestions = None /\
      exists df, frame_of pd data = inr df /\ df_columns pd df = []).
Proof.
  cbv zeta. split; [reflexivity |]. split; [reflexivity |].
  exact (pie_is_never_recommended Mock.working Mock.sales_by_region
           (Rows (pd := Mock.sales_by_region) Mock.rows) _ eq_refl).
Defined.

(** X14 on the same run. *)
Lemma recommended_chart_is_possible_witness :
  let pd := Mock.sales_by_region in
  let data := Rows (pd := pd) Mock.rows in
  let suggestions :=
    {| recommended_chart := Some "bar";
       possible_charts :=
         [bar_chart 3 ["region"] ["sales"]; pie_chart 3 ["region"] ["sales"]];
       metrics := ["sales"];
       dimensions := ["region"] |} in
  suggest_visualizations Mock.working pd data = inr (Suggested suggestions) /\
  recommended_chart suggestions = Some "bar" /\
  exists chart, chart ∈ possible_charts suggestions /\ chart_type chart = "bar".
Proof.
  cbv zeta. split; [reflexivity |]. split; [reflexivity |].
  exact (recommended_chart_is_possible Mock.working Mock.sales_by_region
           (Rows (pd := Mock.sales_by_region) Mock.rows) _ "bar" eq_refl eq_refl).
Defined.

(** X15 on the same run. *)
Lemma column_roles_split_the_columns_witness :
  let pd := Mock.sales_by_region in
  let data := Rows (pd := pd) Mock.rows in
  let suggestions :=
    {| recommended_chart := Some "bar";
       possible_charts :=
         [bar_chart 3 ["region"] ["sales"]; pie_chart 3 ["region"] ["sales"]];
       metrics := ["sales"];
       dimensions := ["region"] |} in
  suggest_visualizations Mock.working pd data = inr (Suggested suggestions) /\
  exists df,
    frame_of pd data = inr df /\
    metrics suggestions = List.filter (is_numeric_dtype pd df) (df_columns pd df) /\
    Forall (fun col => is_numeric_dtype pd df col = false) (dimensions suggestions) /\
    metrics suggestions ++ dimensions suggestions ≡ₚ df_columns pd df.
Proof.
  cbv zeta. split; [reflexivity |].
  exact (column_roles_split_the_columns Mock.working Mock.sales_by_region
           (Rows (pd := Mock.sales_by_region) Mock.rows) _ eq_refl).
Defined.

(** X16 on a run: the same frame when [pd.to_datetime] coerces.  The
    regions are taken for dates, and a line is recommended. *)
Lemma coerced_dates_leave_no_category_witness :
  let pd := Mock.coerced_sales in
  (forall col, to_datetime_fault pd Mock.rows col = None) /\
  df_empty Mock.working Mock.rows = false /\
  suggest_visualizations Mock.working pd (AFrame Mock.rows)
  = inr (Suggested
           {| recommended_chart := Some "line";
              possible_charts := [line_chart ["region"] ["sales"] []];
              metrics := ["sales"];
              dimensions := ["region"] |}) /\
  exists suggestions,
    suggest_visualizations Mock.working pd (AFrame Mock.rows)
    = inr (Suggested suggestions) /\
    (other_columns pd Mock.rows).1 = [] /\
    dimensions suggestions
    = List.filter (fun col => negb (is_numeric_dtype pd Mock.rows col))
        (df_columns pd Mock.rows) /\
    Forall (fun chart => chart_type chart ∈ ["line"; "scatter"; "table"])
      (possible_charts suggestions).
Proof.
  cbv zeta. split; [intros col; reflexivity |]. split; [reflexivity |].
  split; [reflexivity |].
  exact (coerced_dates_leave_no_category Mock.working Mock.coerced_sales Mock.rows
           (fun col => eq_refl) eq_refl).
Defined.

(** X18 on a run: the endpoint stores a successful query. *)
Lemma stored_flag_is_sound_witness :
  let E := Mock.working in
  let question := Mock.sales_question in
  let sql := Mock.test_sql in
  let response : gmap string Value :=
    list_to_map
      [("question", VStr question);
       ("sql", VStr sql);
       ("was_successful", VBool true);
       ("execution_time", VNum (Float Mock.a_twentieth));
       ("results", VRecords Mock.rows);
       ("result_preview", VStr Mock.preview_text);
       ("stored", VBool true)] in
  let w' := (store_question_sql_pair E question sql true Mock.world).2 in
  store_question_sql_pair E question sql true Mock.world = (Returned response, w') /\
  response !! "stored" = Some (VBool true) /\
  true = true /\
  exists document,
    collection w'
    = replace_upsert (Hashlib.md5_hexdigest question) document (collection Mock.world) /\
    trace w' !! 0%nat = Some (CallReplaceOne (Hashlib.md5_hexdigest question) document) /\
    doc_question document = question /\
    doc_sql document = sql /\
    response !! "was_successful" = Some (VBool (doc_was_successful document)).
Proof.
  cbv zeta.
  assert (store_question_sql_pair Mock.working Mock.sales_question Mock.test_sql true
            Mock.world
          = (Returned
               (list_to_map
                  [("question", VStr Mock.sales_question);
                   ("sql", VStr Mock.test_sql);
                   ("was_successful", VBool true);
                   ("execution_time", VNum (Float Mock.a_twentieth));
                   ("results", VRecords Mock.rows);
                   ("result_preview", VStr Mock.preview_text);
                   ("stored", VBool true)]),
             (store_question_sql_pair Mock.working Mock.sales_question Mock.test_sql
                true Mock.world).2)) as Hrun by reflexivity.
  split; [exact Hrun |]. split; [reflexivity |].
  exact (stored_flag_is_sound Mock.working Mock.sales_question Mock.test_sql true
           Mock.world _ _ Hrun eq_refl).
Defined.

(** X19 on a run: the store refuses the first write.  The query has run and
    returned two rows, and the endpoint answers that it failed. *)
Lemma store_failure_turns_success_into_failure_witness :
  let E := Mock.flaky_store in
  let question := Mock.sales_question in
  let sql := Mock.test_sql in
  let e := {| origin := Store; str := "connection reset" |} in
  let w1 := (execute_query E sql Mock.world).2 in
  let w2 := (results_to_dataframe E Mock.rows w1).2 in
  let w3 := (store_query_pair E question sql (Float Mock.a_twentieth) true
               (Some (preview E Mock.rows)) w2).2 in
  let w4 := (store_query_pair E question sql (Int 0) false None w3).2 in
  execute_query E sql Mock.world = (Returned (Mock.rows, Mock.a_twentieth), w1) /\
  results_to_dataframe E Mock.rows w1 = (Returned Mock.rows, w2) /\
  store_query_pair E question sql (Float Mock.a_twentieth) true (Some (preview E Mock.rows)) w2
  = (Raised e, w3) /\
  store_query_pair E question sql (Int 0) false None w3 = (Returned tt, w4) /\
  exists response document,
    store_question_sql_pair E question sql true Mock.world = (Returned response, w4) /\
    response !! "was_successful" = Some (VBool false) /\
    response !! "error_message" = Some (VStr (str e)) /\
    response !! "results" = None /\
    response !! "result_preview" = None /\
    response !! "stored"
    = Some (VBool (negb (Py.contains "failed to store" (str e)))) /\
    collection w4
    = replace_upsert (Hashlib.md5_hexdigest question) document (collection w3) /\
    doc_question document = question /\
    doc_was_successful document = false /\
    doc_execution_time document = Int 0 /\
    doc_result_preview document = None.
Proof.
  cbv zeta.
  set (w1 := (execute_query Mock.flaky_store Mock.test_sql Mock.world).2).
  set (w2 := (results_to_dataframe Mock.flaky_store Mock.rows w1).2).
  set (w3 := (store_query_pair Mock.flaky_store Mock.sales_question Mock.test_sql
                (Float Mock.a_twentieth) true (Some (preview Mock.flaky_store Mock.rows))
                w2).2).
  set (w4 := (store_query_pair Mock.flaky_store Mock.sales_question Mock.test_sql
                (Int 0) false None w3).2).
  assert (execute_query Mock.flaky_store Mock.test_sql Mock.world
          = (Returned (Mock.rows, Mock.a_twentieth), w1)) as Hexec by reflexivity.
  assert (results_to_dataframe Mock.flaky_store Mock.rows w1
          = (Returned Mock.rows, w2)) as Hframe by reflexivity.
  assert (store_query_pair Mock.flaky_store Mock.sales_question Mock.test_sql
            (Float Mock.a_twentieth) true (Some (preview Mock.flaky_store Mock.rows)) w2
          = (Raised {| origin := Store; str := "connection reset" |}, w3)) as Hstore
    by reflexivity.
  assert (store_query_pair Mock.flaky_store Mock.sales_question Mock.test_sql
            (Int 0) false None w3
          = (Returned tt, w4)) as Hagain by reflexivity.
  split; [exact Hexec |]. split; [exact Hframe |]. split; [exact Hstore |].
  split; [exact Hagain |].
  exact (store_failure_turns_success_into_failure Mock.flaky_store Mock.sales_question
           Mock.test_sql Mock.world Mock.rows Mock.a_twentieth w1 Mock.rows w2
           {| origin := Store; str := "connection reset" |} w3 w4
           Hexec Hframe Hstore Hagain).
Defined.

(** X20 on a run: BigQuery's message speaks of storing. *)
Lemma stored_flag_depends_on_the_message_witness :
  let E := Mock.failing_with_words in
  let question := Mock.sales_question in
  let sql := Mock.test_sql in
  let e := {| origin := Warehouse;
              str := "Quota exceeded: failed to store the result set" |} in
  let w1 := (execute_query E sql Mock.world).2 in
  let w2 := (store_query_pair E question sql (Int 0) false None w1).2 in
  execute_query E sql Mock.world = (Raised e, w1) /\
  Py.contains "failed to store" (str e) = true /\
  store_query_pair E question sql (Int 0) false None w1 = (Returned tt, w2) /\
  length (collection w2) = 4%nat /\
  exists response document,
    store_question_sql_pair E question sql true Mock.world = (Returned response, w2) /\
    response !! "stored" = Some (VBool false) /\
    response !! "error_message" = Some (VStr (str e)) /\
    collection w2
    = replace_upsert (Hashlib.md5_hexdigest question) document (collection Mock.world) /\
    doc_question document = question /\
    doc_sql document = sql.
Proof.
  cbv zeta.
  set (w1 := (execute_query Mock.failing_with_words Mock.test_sql Mock.world).2).
  set (w2 := (store_query_pair Mock.failing_with_words Mock.sales_question
                Mock.test_sql (Int 0) false None w1).2).
  assert (execute_query Mock.failing_with_words Mock.test_sql Mock.world
          = (Raised {| origin := Warehouse;
                       str := "Quota exceeded: failed to store the result set" |}, w1))
    as Hexec by reflexivity.
  assert (store_query_pair Mock.failing_with_words Mock.sales_question Mock.test_sql
            (Int 0) false None w1
          = (Returned tt, w2)) as Hstore by reflexivity.
  split; [exact Hexec |]. split; [reflexivity |]. split; [exact Hstore |].
  split; [reflexivity |].
  exact (stored_flag_depends_on_the_message Mock.failing_with_words Mock.sales_question
           Mock.test_sql Mock.world _ w1 w2 Hexec eq_refl Hstore).
Defined.

(** X25 on a run: the question of the tests, executed and stored. *)
Lemma query_executes_and_stores_once_witness :
  let E := Mock.working in
  let question := Mock.sales_question in
  let sql := Mock.test_sql in
  let w1 := Mock.after Mock.generated in
  generate_sql E question Mock.world = (Returned (sql, [Mock.top_records]), w1) /\
  false && negb false = false /\
  exists evs,
    trace (query E question true false false Mock.world).2 = evs ++ trace w1 /\
    count_calls is_execute_query evs = 1%nat /\
    CallExecuteQuery sql ∈ evs /\
    count_calls is_store_query_pair evs = 1%nat /\
    (count_calls is_replace_one evs <= 1)%nat /\
    count_calls is_generate evs = 0%nat.
Proof.
  cbv zeta.
  assert (generate_sql Mock.working Mock.sales_question Mock.world
          = (Returned (Mock.test_sql, [Mock.top_records]), Mock.after Mock.generated))
    as Hgen by reflexivity.
  split; [exact Hgen |]. split; [reflexivity |].
  exact (query_executes_and_stores_once Mock.working Mock.sales_question true false
           false Mock.world Mock.test_sql [Mock.top_records] (Mock.after Mock.generated)
           Hgen eq_refl).
Defined.

